(** * INMET Belem: shallow embedding of the analysis scripts

    The development follows the Python sources:
    - [analise1.py] / [analise_maio_9h10h.py]: [clean_col_name], [load_data],
      [missing_report], [daily_aggregates];
    - [analise_temperatura_detalhada.py]: [detectar_ondas_calor] and
      [detectar_ondas_frio].

    Conventions of the embedding.
    - A Python [str] is the list of its code points ([pystr]).
    - A float64 is an exact rational ([Q]); the missing value (NaN, NaT,
      None) is [None].  Rounding is not modelled.
    - A calendar day is a day number ([Z]); a timestamp is a number of
      minutes, so that its day is the quotient by 1440. *)

From Stdlib Require Import Ascii String.
From Stdlib Require Import List ZArith NArith QArith Qround Bool Lia Sorted.
Import ListNotations.

(* ------------------------------------------------------------------ *)
(** ** Python strings *)

Module PyStr.

Local Open Scope N_scope.

Definition pystr := list N.

(** Reading a literal of the proof script as Latin-1 text, the encoding the
    scripts pass to [read_csv]. *)
Definition cp (s : string) : pystr := map N_of_ascii (list_ascii_of_string s).

Definition is_digit (c : N) : bool := (48 <=? c) && (c <=? 57).
Definition is_upper (c : N) : bool := (65 <=? c) && (c <=? 90).
Definition is_lower (c : N) : bool := (97 <=? c) && (c <=? 122).

(** The character class [0-9a-zA-Z] of the regular expression. *)
Definition is_alnum (c : N) : bool := is_digit c || is_lower c || is_upper c.

Definition underscore : N := 95.
Definition letter_o : N := 111.
Definition replacement_char : N := 65533.

(** [s.replace(old, new)] for one-character [old] and [new]. *)
Definition replace_char (old new : N) (s : pystr) : pystr :=
  map (fun c => if c =? old then new else c) s.

(** [re.sub(r"[^0-9a-zA-Z]+", '_', s)]: every maximal run of characters
    outside the class becomes one underscore.  [in_run] tells that the
    previous character already belonged to the run being replaced. *)
Fixpoint re_sub_nonalnum (in_run : bool) (s : pystr) : pystr :=
  match s with
  | [] => []
  | c :: t =>
      if is_alnum c then c :: re_sub_nonalnum false t
      else if in_run then re_sub_nonalnum true t
           else underscore :: re_sub_nonalnum true t
  end.

Fixpoint lstrip (x : N) (s : pystr) : pystr :=
  match s with
  | [] => []
  | c :: t => if c =? x then lstrip x t else s
  end.

Fixpoint rstrip (x : N) (s : pystr) : pystr :=
  match s with
  | [] => []
  | c :: t =>
      match rstrip x t with
      | [] => if c =? x then [] else [c]
      | r => c :: r
      end
  end.

(** [s.strip('_')] *)
Definition strip (x : N) (s : pystr) : pystr := rstrip x (lstrip x s).

(** [str.lower] on one character.  It is only ever applied to the output of
    the substitution above, which is ASCII. *)
Definition lower_char (c : N) : N := if is_upper c then c + 32 else c.

Definition lower (s : pystr) : pystr := map lower_char s.

(** [clean_col_name] of analise1.py and analise_maio_9h10h.py (the two
    definitions are the same text). *)
Definition clean_col_name (col : pystr) : pystr :=
  let col := replace_char replacement_char letter_o
               (replace_char replacement_char letter_o col) in
  let col := re_sub_nonalnum false col in
  lower (strip underscore col).

(** [sub in s] *)
Fixpoint prefix_of (p s : pystr) : bool :=
  match p, s with
  | [], _ => true
  | _ :: _, [] => false
  | a :: p', b :: s' => (a =? b) && prefix_of p' s'
  end.

Fixpoint contains (sub s : pystr) : bool :=
  prefix_of sub s ||
  match s with
  | [] => false
  | _ :: t => contains sub t
  end.

Fixpoint eqb (a b : pystr) : bool :=
  match a, b with
  | [], [] => true
  | x :: a', y :: b' => (x =? y) && eqb a' b'
  | _, _ => false
  end.

(** The text the output of [clean_col_name] is made of. *)
Definition is_ident_char (c : N) : bool :=
  is_digit c || is_lower c || (c =? underscore).

End PyStr.
Import PyStr.

(* ------------------------------------------------------------------ *)
(** ** Exceptions *)

Inductive Excecao : Set :=
| ValueError
| AttributeError.

(** The outcome of a call: a returned value or a raised exception. *)
Inductive resultado (A : Type) : Type :=
| Retorna (a : A)
| Levanta (e : Excecao).

Arguments Retorna {A} a.
Arguments Levanta {A} e.

(* ------------------------------------------------------------------ *)
(** ** Reductions of pandas over float columns (NaN is skipped) *)

Module Reducoes.

Local Open Scope Q_scope.

Definition dropna {A : Type} (l : list (option A)) : list A :=
  flat_map (fun o => match o with Some x => [x] | None => [] end) l.

Definition qsum (l : list Q) : Q := fold_right Qplus 0 l.

Definition qmax (a b : Q) : Q := if Qle_bool a b then b else a.
Definition qmin (a b : Q) : Q := if Qle_bool a b then a else b.

Fixpoint reduz (f : Q -> Q -> Q) (l : list Q) : option Q :=
  match l with
  | [] => None
  | x :: t => match reduz f t with
              | None => Some x
              | Some m => Some (f x m)
              end
  end.

(** [.sum()]: the sum of the non-null values; 0 when there is none. *)
Definition sum_skipna (l : list (option Q)) : option Q :=
  Some (qsum (dropna l)).

(** [.mean()]: NaN when there is no non-null value. *)
Definition mean_skipna (l : list (option Q)) : option Q :=
  match dropna l with
  | [] => None
  | xs => Some (qsum xs / inject_Z (Z.of_nat (length xs)))
  end.

(** [.max()] and [.min()]: NaN when there is no non-null value. *)
Definition max_skipna (l : list (option Q)) : option Q := reduz qmax (dropna l).
Definition min_skipna (l : list (option Q)) : option Q := reduz qmin (dropna l).

Fixpoint insere (x : Q) (l : list Q) : list Q :=
  match l with
  | [] => [x]
  | y :: t => if Qle_bool x y then x :: l else y :: insere x t
  end.

Definition ordena (l : list Q) : list Q := fold_right insere [] l.

(** [Series.quantile(q)] with the default linear interpolation: a
    [ValueError] for [q] outside [0, 1], NaN for a column without values,
    otherwise the value at the virtual index [(n - 1) * q] of the sorted
    non-null values. *)
Definition quantile (l : list (option Q)) (q : Q) : resultado (option Q) :=
  if negb (Qle_bool 0 q && Qle_bool q 1) then Levanta ValueError
  else
    let s := ordena (dropna l) in
    match s with
    | [] => Retorna None
    | x0 :: _ =>
        let h := inject_Z (Z.of_nat (length s) - 1) * q in
        let i := Qfloor h in
        let g := h - inject_Z i in
        let lo := nth (Z.to_nat i) s x0 in
        let hi := nth (Z.to_nat (Z.min (i + 1) (Z.of_nat (length s) - 1))) s x0 in
        Retorna (Some (lo + g * (hi - lo)))
    end.

End Reducoes.
Import Reducoes.

(* ------------------------------------------------------------------ *)
(** ** analise_temperatura_detalhada.py: heat and cold waves *)

Module Temperatura.

Local Open Scope Z_scope.

(** The two columns of [self.df] the detectors read: ['Data'] (a day, NaT
    for an empty cell) and [self.temp_col] (NaN where the text did not
    parse). *)
Record Registro : Type := {
  Data : option Z;
  Temperatura : option Q
}.

Definition DataFrame := list Registro.

(** One entry of [ondas]; [temp_extrema] is the key ['temp_max'] of a heat
    wave and ['temp_min'] of a cold wave. *)
Record Onda : Type := {
  inicio : option Z;
  fim : Z;
  duracao : Z;
  temp_extrema : option Q;
  temp_media : option Q
}.

(** *** [self.df.groupby('Data')[self.temp_col].mean()] *)

Fixpoint inserir_dia (d : Z) (l : list Z) : list Z :=
  match l with
  | [] => [d]
  | x :: t =>
      if d <? x then d :: l
      else if d =? x then l
      else x :: inserir_dia d t
  end.

(** The group keys: the days present in the frame, sorted, NaT dropped. *)
Definition chaves (df : DataFrame) : list Z :=
  fold_right (fun r acc => match Data r with
                           | Some d => inserir_dia d acc
                           | None => acc
                           end) [] df.

Definition no_dia (d : Z) (r : Registro) : bool :=
  match Data r with
  | Some d' => d' =? d
  | None => false
  end.

Definition grupo (d : Z) (df : DataFrame) : list (option Q) :=
  map Temperatura (filter (no_dia d) df).

Definition temp_diaria (df : DataFrame) : list (Z * option Q) :=
  map (fun d => (d, mean_skipna (grupo d df))) (chaves df).

(** *** Comparison of a series with the threshold (False on NaN) *)

Definition maior (v limiar : option Q) : bool :=
  match v, limiar with
  | Some x, Some l => negb (Qle_bool x l)
  | _, _ => false
  end.

Definition menor (v limiar : option Q) : bool :=
  match v, limiar with
  | Some x, Some l => negb (Qle_bool l x)
  | _, _ => false
  end.

(** *** [temp_diaria[inicio:fim]]: label slice of a sorted index, both ends
    included; no lower bound for [None]. *)
Definition fatia (ini : option Z) (fi : Z) (serie : list (Z * option Q))
  : list (Z * option Q) :=
  filter (fun dv => match ini with
                    | Some i => i <=? fst dv
                    | None => true
                    end && (fst dv <=? fi)) serie.

Section Varredura.

(** [temp_diaria > limiar] or [temp_diaria < limiar] *)
Variable excede : option Q -> option Q -> bool.
(** [.max()] or [.min()] *)
Variable extremo : list (option Q) -> option Q.

Variable limiar : option Q.
Variable dias_consecutivos : Z.
Variable serie : list (Z * option Q).

(** The variables of the loop. *)
Record Estado : Type := {
  ondas : list Onda;
  inicio_aberto : option Z;
  duracao_aberta : Z
}.

Definition estado_inicial : Estado :=
  {| ondas := []; inicio_aberto := None; duracao_aberta := 0 |}.

(** The event appended when [data] ends a run. *)
Definition onda_ate (st : Estado) (data : Z) : Onda :=
  let f := data - 1 in
  {| inicio := inicio_aberto st;
     fim := f;
     duracao := duracao_aberta st;
     temp_extrema := extremo (map snd (fatia (inicio_aberto st) f serie));
     temp_media := mean_skipna (map snd (fatia (inicio_aberto st) f serie)) |}.

(** One iteration of [for data, acima in acima_limiar.items()]. *)
Definition passo (st : Estado) (item : Z * bool) : Estado :=
  let (data, acima) := item in
  if acima then
    {| ondas := ondas st;
       inicio_aberto := match inicio_aberto st with
                        | None => Some data
                        | Some i => Some i
                        end;
       duracao_aberta := duracao_aberta st + 1 |}
  else
    {| ondas := if dias_consecutivos <=? duracao_aberta st
                then ondas st ++ [onda_ate st data]
                else ondas st;
       inicio_aberto := None;
       duracao_aberta := 0 |}.

Definition itens (dias : list (Z * option Q)) : list (Z * bool) :=
  map (fun dv => (fst dv, excede (snd dv) limiar)) dias.

(** The state after the loop has consumed the first days [dias] of the
    series. *)
Definition estado_apos (dias : list (Z * option Q)) : Estado :=
  fold_left passo (itens dias) estado_inicial.

(** The list [ondas] when the loop ends. *)
Definition varredura : list Onda := ondas (estado_apos serie).

End Varredura.

(** [onda['inicio'].strftime(...)] in the report loop raises on [None]. *)
Definition tem_inicio (o : Onda) : bool :=
  match inicio o with Some _ => true | None => false end.

(** [limiar = self.df[self.temp_col].quantile(limiar_percentil / 100)] *)
Definition limiar_de (df : DataFrame) (limiar_percentil : Q)
  : resultado (option Q) :=
  quantile (map Temperatura df) (limiar_percentil / 100)%Q.

Definition detectar
  (excede : option Q -> option Q -> bool)
  (extremo : list (option Q) -> option Q)
  (df : DataFrame) (limiar_percentil : Q) (dias_consecutivos : Z)
  : resultado (list Onda) :=
  match limiar_de df limiar_percentil with
  | Levanta e => Levanta e
  | Retorna limiar =>
      let ondas := varredura excede extremo limiar dias_consecutivos
                     (temp_diaria df) in
      if forallb tem_inicio ondas then Retorna ondas
      else Levanta AttributeError
  end.

Definition detectar_ondas_calor := detectar maior max_skipna.
Definition detectar_ondas_frio := detectar menor min_skipna.

(** The loops alone, for a threshold given from outside. *)
Definition varredura_calor := varredura maior max_skipna.
Definition varredura_frio := varredura menor min_skipna.

End Temperatura.

(* ------------------------------------------------------------------ *)
(** ** analise1.py: the table and its reports *)

Module Analise1.

Local Open Scope Z_scope.

(** A cell of a frame: a float, a text, a timestamp (minutes), or the
    missing value of its column (NaN, NaT). *)
Inductive Cel : Type :=
| NaN
| Num (q : Q)
| Str (s : pystr)
| Tempo (t : Z)
| NaT.

Definition isna (c : Cel) : bool :=
  match c with
  | NaN | NaT => true
  | _ => false
  end.

(** A frame: the column labels and the rows, each row holding one cell per
    column. *)
Record DataFrame : Type := {
  columns : list pystr;
  linhas : list (list Cel)
}.

Definition len (df : DataFrame) : Z := Z.of_nat (length (linhas df)).

Definition tem_coluna (c : pystr) (df : DataFrame) : bool :=
  existsb (PyStr.eqb c) (columns df).

Fixpoint posicao (c : pystr) (cols : list pystr) : option nat :=
  match cols with
  | [] => None
  | x :: t => if PyStr.eqb c x then Some 0%nat
              else option_map S (posicao c t)
  end.

Definition ocorrencias (c : pystr) (cols : list pystr) : nat :=
  length (filter (PyStr.eqb c) cols).

(** The cells of the column at position [i]. *)
Definition coluna_em (i : nat) (df : DataFrame) : list Cel :=
  map (fun r => nth i r NaN) (linhas df).

(** *** [missing_report] *)

(** A float that may fail to be finite: [None] stands for the nan or inf of
    a division by zero. *)
Definition div_float (a b : Q) : option Q :=
  if Qeq_bool b 0 then None else Some (a / b)%Q.

Record LinhaFaltantes : Type := {
  variavel : pystr;
  missing_count : Z;
  missing_pct : option Q
}.

Definition conta_na (cells : list Cel) : Z :=
  Z.of_nat (length (filter isna cells)).

(** [miss = df.isna().sum()] and
    [miss['missing_pct'] = miss['missing_count'] / len(df) * 100.0]; the
    returned frame keeps the order of the columns. *)
Definition missing_report (df : DataFrame) : list LinhaFaltantes :=
  map (fun ic =>
         let n := conta_na (coluna_em (fst ic) df) in
         {| variavel := snd ic;
            missing_count := n;
            missing_pct :=
              option_map (fun x => (x * 100)%Q)
                         (div_float (inject_Z n) (inject_Z (len df))) |})
      (combine (seq 0 (length (columns df))) (columns df)).

(** *** [daily_aggregates] *)

Definition minutos_dia : Z := 1440.

(** [Timestamp.date()] *)
Definition dia_de (t : Z) : Z := t / minutos_dia.

Definition tempo_de (c : Cel) : option Z :=
  match c with
  | Tempo t => Some t
  | _ => None
  end.

(** The value of a cell of a float column. *)
Definition valor_de (c : Cel) : option Q :=
  match c with
  | Num q => Some q
  | _ => None
  end.

Fixpoint zmin_lista (l : list Z) : option Z :=
  match l with
  | [] => None
  | x :: t => match zmin_lista t with
              | None => Some x
              | Some m => Some (Z.min x m)
              end
  end.

Fixpoint zmax_lista (l : list Z) : option Z :=
  match l with
  | [] => None
  | x :: t => match zmax_lista t with
              | None => Some x
              | Some m => Some (Z.max x m)
              end
  end.

(** [pd.date_range(a, b, freq='D')] *)
Definition date_range (a b : Z) : list Z :=
  map (fun k => a + Z.of_nat k) (seq 0 (Z.to_nat (b - a + 1))).

Definition palavra_precip : pystr := cp "precip".
Definition palavra_temperatura : pystr := cp "temperatura".
Definition palavra_orvalho : pystr := cp "orvalho".
Definition nome_datetime : pystr := cp "datetime".
Definition nome_data : pystr := cp "data".
Definition nome_hora_utc : pystr := cp "hora_utc".

(** The daily table: its index and its columns in the order they were
    assigned. *)
Record Diario : Type := {
  indice : list Z;
  colunas_diarias : list (pystr * list (option Q))
}.

Section Reamostragem.

Variable df : DataFrame.
(** position of ['datetime'], the index of [df2] *)
Variable pos_dt : nat.

Definition instantes : list (option Z) :=
  map tempo_de (coluna_em pos_dt df).

(** The values of column [i] in the rows stamped on day [d]. *)
Definition valores_do_dia (i : nat) (d : Z) : list (option Q) :=
  map (fun r => valor_de (nth i r NaN))
      (filter (fun r => match tempo_de (nth pos_dt r NaN) with
                        | Some t => dia_de t =? d
                        | None => false
                        end) (linhas df)).

(** [df2[col].resample('D').f()] read at the days of [idx]. *)
Definition resample (f : list (option Q) -> option Q) (i : nat)
           (idx : list Z) : list (option Q) :=
  map (fun d => f (valores_do_dia i d)) idx.

End Reamostragem.

Definition daily_aggregates (df : DataFrame) : resultado (option Diario) :=
  match posicao nome_datetime (columns df) with
  | None => Retorna None
  | Some pos_dt =>
      let precip_cols :=
        filter (contains palavra_precip) (columns df) in
      let temp_cols :=
        filter (fun c => contains palavra_temperatura c
                         && negb (contains palavra_orvalho c)) (columns df) in
      let ts := dropna (instantes df pos_dt) in
      match zmin_lista ts, zmax_lista ts with
      | Some lo, Some hi =>
          let idx := date_range (dia_de lo) (dia_de hi) in
          let col_de c := match posicao c (columns df) with
                          | Some i => i
                          | None => 0%nat
                          end in
          let precip :=
            match precip_cols with
            | [] => []
            | c :: _ =>
                [(cp "precip_total_sum_mm",
                  resample df pos_dt sum_skipna (col_de c) idx)]
            end in
          let temp :=
            match temp_cols with
            | [] => []
            | c :: _ =>
                [(cp "temp_mean_c", resample df pos_dt mean_skipna (col_de c) idx);
                 (cp "temp_max_c", resample df pos_dt max_skipna (col_de c) idx);
                 (cp "temp_min_c", resample df pos_dt min_skipna (col_de c) idx)]
            end in
          Retorna (Some {| indice := idx; colunas_diarias := precip ++ temp |})
      | _, _ => Levanta ValueError
      end
  end.

(** The cell of the daily table at column [nome] and day [d]. *)
Definition consulta (t : Diario) (nome : pystr) (d : Z)
  : option (option Q) :=
  match find (fun nc => PyStr.eqb nome (fst nc)) (colunas_diarias t) with
  | None => None
  | Some nc =>
      match find (fun dv => fst dv =? d) (combine (indice t) (snd nc)) with
      | None => None
      | Some dv => Some (snd dv)
      end
  end.

(** *** [load_data] *)

(** What [pd.read_csv(path, sep=';', decimal=',', encoding='latin1')] hands
    over: the header as written in the file and, per row, cells that are a
    number (a column read as numeric), a text, or empty. *)
Inductive CelCsv : Type :=
| Vazio
| Numero (q : Q)
| Texto (s : pystr).

Record Csv : Type := {
  cabecalho : list pystr;
  registros : list (list CelCsv)
}.

(** The pandas routines [load_data] calls and whose text is not part of the
    scripts. *)
Record Pandas : Type := {
  (** [str] of a float *)
  repr_float : Q -> pystr;
  (** [pd.to_numeric(..., errors='coerce')] on one text *)
  to_numeric : pystr -> option Q;
  (** [pd.to_datetime(..., format='%Y/%m/%d %H%M')] on one text; [None]
      where the call raises *)
  to_datetime_formato : pystr -> option Z;
  (** [pd.to_datetime(..., errors='coerce')] on a whole column *)
  to_datetime_coerce : list pystr -> list (option Z);
  (** the row order [sort_values] produces for the given keys, NaT last *)
  sort_values : (list Cel -> option Z) -> list (list Cel) -> list (list Cel)
}.

Section LoadData.

Variable pd : Pandas.

Definition de_csv (c : CelCsv) : Cel :=
  match c with
  | Vazio => NaN
  | Numero q => Num q
  | Texto s => Str s
  end.

(** [.astype(str)] on the cells [read_csv] produces. *)
Definition astype_str (c : Cel) : pystr :=
  match c with
  | Str s => s
  | Num q => repr_float pd q
  | NaN => cp "nan"
  | Tempo _ | NaT => cp "NaT"
  end.

(** [.str.replace(',', '.').str.replace(' ', '')] then [pd.to_numeric] *)
Definition para_numero (c : Cel) : Cel :=
  let s := astype_str c in
  let s := replace_char 44%N 46%N s in
  let s := filter (fun x => negb (x =? 32)%N) s in
  match to_numeric pd s with
  | Some q => Num q
  | None => NaN
  end.

Definition de_tempo (o : option Z) : Cel :=
  match o with
  | Some t => Tempo t
  | None => NaT
  end.

Fixpoint todos {A : Type} (l : list (option A)) : option (list A) :=
  match l with
  | [] => Some []
  | None :: _ => None
  | Some x :: t => option_map (cons x) (todos t)
  end.

(** [try: to_datetime(format=...) except: to_datetime(errors='coerce')] *)
Definition para_datetime (dt_str : list pystr) : list Cel :=
  match todos (map (to_datetime_formato pd) dt_str) with
  | Some ts => map Tempo ts
  | None => map de_tempo (to_datetime_coerce pd dt_str)
  end.

Fixpoint troca (i : nat) (c : Cel) (r : list Cel) : list Cel :=
  match i, r with
  | O, _ :: t => c :: t
  | O, [] => [c]
  | S j, x :: t => x :: troca j c t
  | S j, [] => NaN :: troca j c []
  end.

(** [df[nome] = valores]: overwrite the column when the label exists,
    otherwise add it as the last column. *)
Definition atribui (nome : pystr) (valores : list Cel) (df : DataFrame)
  : DataFrame :=
  let i := match posicao nome (columns df) with
           | Some i => i
           | None => length (columns df)
           end in
  {| columns := if tem_coluna nome df then columns df
                else columns df ++ [nome];
     linhas := map (fun rv => troca i (snd rv) (fst rv))
                   (combine (linhas df) valores) |}.

Definition excluida (c : pystr) : bool :=
  PyStr.eqb c nome_data || PyStr.eqb c nome_hora_utc
  || PyStr.eqb c nome_datetime.

(** The body of the conversion loop for the column at position [i]. *)
Definition converte (i : nat) (df : DataFrame) : DataFrame :=
  {| columns := columns df;
     linhas := map (fun r => troca i (para_numero (nth i r NaN)) r)
                   (linhas df) |}.

Definition load_data (csv : Csv) : resultado DataFrame :=
  let df := {| columns := map clean_col_name (cabecalho csv);
               linhas := map (map de_csv) (registros csv) |} in
  let com_datetime :=
    if tem_coluna nome_data df && tem_coluna nome_hora_utc df then
      (* [df['hora_utc']] is a frame when the label is repeated: it has
         no [.str]; a repeated ['data'] makes [to_datetime] raise in both
         attempts *)
      if (1 <? ocorrencias nome_hora_utc (columns df))%nat
      then Levanta AttributeError
      else if (1 <? ocorrencias nome_data (columns df))%nat
      then Levanta ValueError
      else
        let pos c := match posicao c (columns df) with
                     | Some i => i
                     | None => 0%nat
                     end in
        let hora_part :=
          map (fun c => firstn 4 (astype_str c))
              (coluna_em (pos nome_hora_utc) df) in
        let dt_str :=
          map (fun dh => astype_str (fst dh) ++ cp " " ++ snd dh)
              (combine (coluna_em (pos nome_data) df) hora_part) in
        let df := atribui nome_datetime (para_datetime dt_str) df in
        let pos_dt := match posicao nome_datetime (columns df) with
                      | Some i => i
                      | None => 0%nat
                      end in
        Retorna {| columns := columns df;
                   linhas := sort_values pd
                               (fun r => tempo_de (nth pos_dt r NaN))
                               (linhas df) |}
    else Retorna df in
  match com_datetime with
  | Levanta e => Levanta e
  | Retorna df =>
      let alvo := filter (fun ic => negb (excluida (snd ic)))
                    (combine (seq 0 (length (columns df))) (columns df)) in
      (* a repeated label makes [df[c]] a frame, which has no [.str] *)
      if existsb (fun ic => (1 <? ocorrencias (snd ic) (columns df))%nat) alvo
      then Levanta AttributeError
      else Retorna (fold_left (fun d ic => converte (fst ic) d) alvo df)
  end.

End LoadData.

End Analise1.

(* ------------------------------------------------------------------ *)
(** ** A reference instance of the pandas routines

    Plain decimal literals and zero-padded [YYYY/MM/DD HHMM] stamps: enough
    to run [load_data] on station exports. *)

Module PandasRef.

Import Analise1.
Local Open Scope Z_scope.

Definition valor_digito (c : N) : option Z :=
  if is_digit c then Some (Z.of_N c - 48) else None.

(** Reads the longest prefix of digits: its value, its length, the rest. *)
Fixpoint le_digitos (acc n : Z) (s : pystr) : Z * Z * pystr :=
  match s with
  | [] => (acc, n, [])
  | c :: t => match valor_digito c with
              | Some v => le_digitos (acc * 10 + v) (n + 1) t
              | None => (acc, n, s)
              end
  end.

Definition sem_sinal (s : pystr) : option Q :=
  let '(a, na, r) := le_digitos 0 0 s in
  match r with
  | [] => if 0 <? na then Some (inject_Z a) else None
  | c :: r' =>
      if (c =? 46)%N then
        let '(b, nb, r'') := le_digitos 0 0 r' in
        match r'' with
        | [] => if 0 <? na + nb
                then Some (Qmake (a * 10 ^ nb + b) (Z.to_pos (10 ^ nb)))
                else None
        | _ :: _ => None
        end
      else None
  end.

Definition to_numeric_ref (s : pystr) : option Q :=
  match s with
  | c :: t =>
      if (c =? 45)%N then option_map Qopp (sem_sinal t)
      else if (c =? 43)%N then sem_sinal t
      else sem_sinal s
  | [] => None
  end.

Definition char_digito (v : Z) : N := Z.to_N (48 + v).

Fixpoint digitos_de (fuel : nat) (n : Z) (acc : pystr) : pystr :=
  match fuel with
  | O => acc
  | S f => if n <? 10 then char_digito n :: acc
           else digitos_de f (n / 10) (char_digito (n mod 10) :: acc)
  end.

Fixpoint digitos_frac (fuel : nat) (r d : Z) : pystr :=
  match fuel with
  | O => []
  | S f => if r =? 0 then []
           else char_digito (r * 10 / d) :: digitos_frac f (r * 10 mod d) d
  end.

Definition repr_float_ref (q : Q) : pystr :=
  let n := Z.abs (Qnum q) in
  let d := Zpos (Qden q) in
  let frac := digitos_frac 17 (n mod d) d in
  (if Qnum q <? 0 then [45%N] else [])
  ++ digitos_de (S (Z.to_nat (Z.log2 (n / d)))) (n / d) []
  ++ [46%N] ++ match frac with [] => [48%N] | _ => frac end.

Definition bissexto (y : Z) : bool :=
  ((y mod 4 =? 0) && negb (y mod 100 =? 0)) || (y mod 400 =? 0).

Definition dias_no_mes (y m : Z) : Z :=
  if m =? 2 then (if bissexto y then 29 else 28)
  else if (m =? 4) || (m =? 6) || (m =? 9) || (m =? 11) then 30 else 31.

(** Days since 1970-01-01 of a civil date. *)
Definition dias_desde_epoca (y m d : Z) : Z :=
  let y' := if m <=? 2 then y - 1 else y in
  let era := y' / 400 in
  let yoe := y' - era * 400 in
  let mp := if 2 <? m then m - 3 else m + 9 in
  let doy := (153 * mp + 2) / 5 + d - 1 in
  let doe := yoe * 365 + yoe / 4 - yoe / 100 + doy in
  era * 146097 + doe - 719468.

Definition numero (s : pystr) : option Z :=
  let '(a, n, r) := le_digitos 0 0 s in
  match r with
  | [] => if n =? Z.of_nat (length s) then Some a else None
  | _ :: _ => None
  end.

Definition to_datetime_ref (s : pystr) : option Z :=
  match s with
  | [y1; y2; y3; y4; b1; m1; m2; b2; d1; d2; sp; h1; h2; n1; n2] =>
      if ((b1 =? 47) && (b2 =? 47) && (sp =? 32))%N then
        match numero [y1; y2; y3; y4], numero [m1; m2], numero [d1; d2],
              numero [h1; h2], numero [n1; n2] with
        | Some y, Some m, Some d, Some h, Some n =>
            if (1 <=? m) && (m <=? 12) && (1 <=? d) && (d <=? dias_no_mes y m)
               && (h <? 24) && (n <? 60)
            then Some (dias_desde_epoca y m d * minutos_dia + h * 60 + n)
            else None
        | _, _, _, _, _ => None
        end
      else None
  | _ => None
  end.

Definition antes (a b : option Z) : bool :=
  match a, b with
  | Some x, Some y => x <=? y
  | Some _, None => true
  | None, Some _ => false
  | None, None => true
  end.

Fixpoint insere_linha (chave : list Cel -> option Z) (r : list Cel)
         (l : list (list Cel)) : list (list Cel) :=
  match l with
  | [] => [r]
  | x :: t => if antes (chave x) (chave r) then x :: insere_linha chave r t
              else r :: l
  end.

Definition sort_values_ref (chave : list Cel -> option Z)
           (l : list (list Cel)) : list (list Cel) :=
  fold_left (fun acc r => insere_linha chave r acc) l [].

Definition pandas_ref : Pandas :=
  {| repr_float := repr_float_ref;
     to_numeric := to_numeric_ref;
     to_datetime_formato := to_datetime_ref;
     to_datetime_coerce := map to_datetime_ref;
     sort_values := sort_values_ref |}.

End PandasRef.

(* ------------------------------------------------------------------ *)
(** ** Predicates used in the statements *)

Module Predicados.

Local Open Scope N_scope.

(** Text over [0-9a-zA-Z_] in which no underscore follows an underscore;
    [apos_us] tells that the previous character was an underscore. *)
Fixpoint normal (apos_us : bool) (s : pystr) : bool :=
  match s with
  | [] => true
  | c :: t =>
      if is_alnum c then normal false t
      else (c =? underscore) && negb apos_us && normal true t
  end.

(** *** Events of the detectors *)

Import Temperatura.
Local Open Scope Z_scope.

(** Two events in scan order: both have a start, neither interval is empty,
    and the first ends before the second starts. *)
Definition separadas (e1 e2 : Onda) : Prop :=
  match inicio e1, inicio e2 with
  | Some a1, Some a2 => a1 <= fim e1 /\ fim e1 < a2 /\ a2 <= fim e2
  | _, _ => False
  end.

Definition antes_de (e1 e2 : Onda) : Prop :=
  forall a, inicio e2 = Some a -> fim e1 < a.

Definition e_maximo (m : Q) (xs : list Q) : Prop :=
  In m xs /\ forall x, In x xs -> (x <= m)%Q.

Definition e_minimo (m : Q) (xs : list Q) : Prop :=
  In m xs /\ forall x, In x xs -> (m <= x)%Q.

Definition e_media (a : Q) (xs : list Q) : Prop :=
  (a * inject_Z (Z.of_nat (length xs)) == qsum xs)%Q.

(** The non-null values of a stretch of the daily series. *)
Definition valores (dias : list (Z * option Q)) : list Q :=
  dropna (map snd dias).

(** The two detectors side by side: [true] for heat, [false] for cold. *)
Definition excede_de (calor : bool) : option Q -> option Q -> bool :=
  if calor then maior else menor.

Definition varredura_de (calor : bool) :=
  if calor then varredura_calor else varredura_frio.

Definition detectar_de (calor : bool) :=
  if calor then detectar_ondas_calor else detectar_ondas_frio.

Definition extremo_de (calor : bool) : list (option Q) -> option Q :=
  if calor then max_skipna else min_skipna.

(** The loop variables of a detector after the days [lidos]. *)
Definition estado_de (calor : bool) (limiar : option Q) (dias : Z)
           (serie lidos : list (Z * option Q)) : Estado :=
  estado_apos (excede_de calor) (extremo_de calor) limiar dias serie lidos.

Definition e_extremo (calor : bool) (m : Q) (xs : list Q) : Prop :=
  if calor then e_maximo m xs else e_minimo m xs.

Section Invariante.

Variable excede : option Q -> option Q -> bool.
Variable limiar : option Q.
Variable dias_consecutivos : Z.

Definition qualifica (dv : Z * option Q) : bool := excede (snd dv) limiar.

(** The days before a run do not belong to it: there is none, or the last
    one does not qualify. *)
Definition quebra_antes (pre : list (Z * option Q)) : bool :=
  match rev pre with
  | [] => true
  | y :: _ => negb (qualifica y)
  end.

(** What holds of the loop variables once the days [p] are consumed. *)
Record Inv (p : list (Z * option Q)) (st : Estado) : Prop := {
  inv_ord : StronglySorted antes_de (ondas st);
  inv_fim : forall e, In e (ondas st) ->
            exists dv, In dv p /\ qualifica dv = false /\ fim e = fst dv - 1;
  inv_ini : forall e a, In e (ondas st) -> inicio e = Some a ->
            a <= fim e /\
            forall dv, In dv p -> a <= fst dv <= fim e -> qualifica dv = true;
  inv_ab : forall i, inicio_aberto st = Some i ->
           In i (map fst p) /\
           (forall e, In e (ondas st) -> fim e < i) /\
           (forall dv, In dv p -> i <= fst dv -> qualifica dv = true);
  inv_dur : 0 <= duracao_aberta st /\
            (inicio_aberto st = None <-> duracao_aberta st = 0);
  inv_some : 1 <= dias_consecutivos ->
             forall e, In e (ondas st) -> inicio e <> None
}.

End Invariante.

(** *** Missing values *)

(** Modelled after the specification's wording of the missingness count: a
    row counts as null for the variable at position [i] when its value is
    null or when its timestamp (position [pos_dt]) is null. *)
Definition null_count_do_texto (df : Analise1.DataFrame) (pos_dt i : nat)
  : Z :=
  Z.of_nat (length (filter (fun r => Analise1.isna (nth pos_dt r Analise1.NaN)
                                     || Analise1.isna (nth i r Analise1.NaN))
                           (Analise1.linhas df))).

(** *** Headers *)

(** Some measured column (any label but ['data'], ['hora_utc'],
    ['datetime']) occurs more than once. *)
Definition rotulos_repetidos (cols : list pystr) : bool :=
  existsb (fun c => negb (Analise1.excluida c)
                    && (1 <? Analise1.ocorrencias c cols)%nat) cols.

(** The header has both columns of the time axis. *)
Definition tem_eixo_temporal (cols : list pystr) : bool :=
  existsb (PyStr.eqb Analise1.nome_data) cols
  && existsb (PyStr.eqb Analise1.nome_hora_utc) cols.

End Predicados.
Import Predicados.

(* ------------------------------------------------------------------ *)
(** ** Sample inputs *)

Module Exemplos.

Import Temperatura.
Local Open Scope Z_scope.

Definition leitura (d : Z) (t : Q) : Registro :=
  {| Data := Some d; Temperatura := Some t |}.

(** One reading a day for a week starting on day [d0]. *)
Definition df_semana (d0 : Z) : DataFrame :=
  [leitura d0 10; leitura (d0 + 1) 10; leitura (d0 + 2) 31;
   leitura (d0 + 3) 32; leitura (d0 + 4) 33; leitura (d0 + 5) 10;
   leitura (d0 + 6) 10].

(** The daily means 10, 10, 31, 32, 33, 10, 10 of that week. *)
Definition serie_semana (d0 : Z) : list (Z * option Q) :=
  [(d0, Some 10%Q); (d0 + 1, Some 10%Q); (d0 + 2, Some 31%Q);
   (d0 + 3, Some 32%Q); (d0 + 4, Some 33%Q); (d0 + 5, Some 10%Q);
   (d0 + 6, Some 10%Q)].

(** Three warm days, then no reading at all until day 10. *)
Definition df_lacuna : DataFrame :=
  [leitura 1 31; leitura 2 32; leitura 3 33; leitura 10 10].

(** Two warm days, a week without readings, a third warm day. *)
Definition df_salto : DataFrame :=
  [leitura 1 31; leitura 2 32; leitura 9 33; leitura 10 10].

(** Two warm spells of two days each. *)
Definition df_duas_ondas : DataFrame :=
  [leitura 1 31; leitura 2 32; leitura 3 10; leitura 4 33; leitura 5 34;
   leitura 6 10].

(** Two readings on day 1, one on day 2. *)
Definition df_horario : DataFrame :=
  [leitura 1 0; leitura 1 10; leitura 2 20].

(** A warm spell, a cool day, and a second warm spell still going on when
    the records end. *)
Definition df_final_quente : DataFrame :=
  [leitura 1 31; leitura 2 32; leitura 3 10; leitura 4 33; leitura 5 34;
   leitura 6 35].

(** *** Station exports *)

Import Analise1.

(** Three hourly records; nothing was recorded on 2024-01-02. *)
Definition csv_chuva : Csv :=
  {| cabecalho := [cp "Data"; cp "Hora UTC";
                   cp "PRECIPITACAO TOTAL, HORARIO (mm)";
                   cp "TEMPERATURA DO AR - BULBO SECO, HORARIA (C)"];
     registros :=
       [[Texto (cp "2024/01/01"); Texto (cp "0000 UTC");
         Numero (12 # 10); Numero 25];
        [Texto (cp "2024/01/01"); Texto (cp "1200 UTC");
         Numero 0; Numero 30];
        [Texto (cp "2024/01/03"); Texto (cp "0000 UTC");
         Numero 2; Numero 26]] |}.

(** The frame [load_data] returns for it. *)
Definition df_chuva : DataFrame :=
  Eval vm_compute in
    match load_data PandasRef.pandas_ref csv_chuva with
    | Retorna df => df
    | Levanta _ => {| columns := []; linhas := [] |}
    end.

(** The second record has a date that does not parse and a good reading. *)
Definition csv_data_ruim : Csv :=
  {| cabecalho := [cp "Data"; cp "Hora UTC"; cp "Temperatura (C)"];
     registros :=
       [[Texto (cp "2024/01/01"); Texto (cp "0000 UTC"); Numero 25];
        [Texto (cp "2024-13-45"); Texto (cp "0100 UTC"); Numero 26]] |}.

(** An export without the hour column. *)
Definition csv_sem_hora : Csv :=
  {| cabecalho := [cp "Data"; cp "Temperatura (C)"];
     registros :=
       [[Texto (cp "2024/01/01"); Numero (253 # 10)];
        [Texto (cp "2024/01/02"); Texto (cp "26,5")]] |}.

End Exemplos.

(* ------------------------------------------------------------------ *)
(** ** More about the loop of the detectors *)

Module Predicados2.

Import Temperatura.
Local Open Scope Z_scope.

Section Invariante2.

Variable excede : option Q -> option Q -> bool.
Variable extremo : list (option Q) -> option Q.
Variable limiar : option Q.
Variable dias_consecutivos : Z.
Variable serie : list (Z * option Q).

(** Some read day from [dv] on, before day [a], does not qualify. *)
Definition quebra_entre (p : list (Z * option Q)) (dv : Z * option Q)
  (a : Z) : Prop :=
  exists dv', In dv' p /\ fst dv <= fst dv' < a
              /\ qualifica excede limiar dv' = false.

(** Durations, left ends and values of the events once the days [p] are
    consumed. *)
Record Inv2 (p : list (Z * option Q)) (st : Estado) : Prop := {
  inv2_dur : forall e a, In e (ondas st) -> inicio e = Some a ->
             dias_consecutivos <= duracao e
             /\ duracao e = Z.of_nat (length (fatia (Some a) (fim e) p));
  inv2_esq : forall e a, In e (ondas st) -> inicio e = Some a ->
             In a (map fst p)
             /\ forall dv, In dv p -> fst dv < a -> quebra_entre p dv a;
  inv2_val : forall e, In e (ondas st) ->
             temp_extrema e
             = extremo (map snd (fatia (inicio e) (fim e) serie))
             /\ temp_media e
                = mean_skipna (map snd (fatia (inicio e) (fim e) serie));
  inv2_ab : forall i, inicio_aberto st = Some i ->
            duracao_aberta st
            = Z.of_nat (length (filter (fun dv => i <=? fst dv) p))
            /\ forall dv, In dv p -> fst dv < i -> quebra_entre p dv i;
  inv2_fechado : inicio_aberto st = None ->
                 forall dv, In dv p ->
                 exists dv', In dv' p /\ fst dv <= fst dv'
                             /\ qualifica excede limiar dv' = false
}.

End Invariante2.

End Predicados2.
Import Predicados2.

(* ------------------------------------------------------------------ *)
(** ** More predicates on frames *)

Module Predicados3.

Import Analise1.


(** The conversion loop of [load_data] seen from one row. *)
Definition converte_linha (pd : Pandas) (alvo : list (nat * pystr))
  (r : list Cel) : list Cel :=
  fold_left (fun r (ic : nat * pystr) =>
               troca (fst ic) (para_numero pd (nth (fst ic) r NaN)) r)
            alvo r.

(** No label occurs twice. *)
Definition rotulos_distintos (cols : list pystr) : bool :=
  forallb (fun c => (ocorrencias c cols <=? 1)%nat) cols.

End Predicados3.
Import Predicados3.

(* ------------------------------------------------------------------ *)
(** ** analise_temperatura_detalhada.py: the daily columns of
    [_processar_dados] *)

Module TemperaturaDiaria.

Import Temperatura.
Local Open Scope Z_scope.








End TemperaturaDiaria.

(* ------------------------------------------------------------------ *)
(** ** analise_maio_9h10h.py: [analyze_temperature_changes] *)

Module Maio.

Import Analise1.




Definition qabs (x : Q) : Q := if Qle_bool 0 x then x else (- x)%Q.

(** [Series.abs()] *)
Definition abs (l : list (option Q)) : list (option Q) :=
  map (option_map qabs) l.


Definition posicao_de (c : pystr) (df : DataFrame) : nat :=
  match posicao c (columns df) with
  | Some i => i
  | None => 0%nat
  end.


End Maio.

(* ------------------------------------------------------------------ *)
(** ** analise1.py: [extremes] *)

Module Extremos.

Import Analise1.

(** A returned value, an exception of pandas' parsers, or the [KeyError]
    of a label that is not in the frame. *)
Inductive desfecho (A : Type) : Type :=
| Devolve (a : A)
| Falha (e : Excecao)
| KeyError (rotulo : pystr).

Arguments Devolve {A} a.
Arguments Falha {A} e.
Arguments KeyError {A} rotulo.

Section Extremes.

(** [df.nlargest(n, col)] on the rows, [col] given by its position *)
Variable nlargest : nat -> nat -> list (list Cel) -> list (list Cel).

(** [df.nlargest(10, col)[['datetime', col]]] *)
Definition top10 (col : pystr) (df : DataFrame)
  : desfecho (list (Cel * Cel)) :=
  let i := Maio.posicao_de col df in
  let top := nlargest 10 i (linhas df) in
  match posicao nome_datetime (columns df) with
  | None => KeyError nome_datetime
  | Some pos_dt => Devolve (map (fun r => (nth pos_dt r NaN, nth i r NaN)) top)
  end.

(** The dictionary [res], as the list of its entries in insertion order. *)
Definition extremes (df : DataFrame)
  : desfecho (list (pystr * list (Cel * Cel))) :=
  let precip_cols := filter (contains palavra_precip) (columns df) in
  let temp_cols :=
    filter (fun c => contains palavra_temperatura c
                     && negb (contains palavra_orvalho c)) (columns df) in
  let res1 :=
    match precip_cols with
    | [] => Devolve []
    | pcol :: _ =>
        match top10 pcol df with
        | Devolve top => Devolve [(cp "top10_precip_hours", top)]
        | Falha e => Falha e
        | KeyError k => KeyError k
        end
    end in
  match res1 with
  | Devolve res =>
      match temp_cols with
      | [] => Devolve res
      | tcol :: _ =>
          match top10 tcol df with
          | Devolve top_t => Devolve (res ++ [(cp "top10_temperatures", top_t)])
          | Falha e => Falha e
          | KeyError k => KeyError k
          end
      end
  | Falha e => Falha e
  | KeyError k => KeyError k
  end.

End Extremes.

End Extremos.

(* ------------------------------------------------------------------ *)
(** ** analise_maio_9h10h.py: [load_and_filter_data] *)

Module MaioCarga.

Import Analise1 Extremos.
Local Open Scope Z_scope.

(** [.dt.hour], [.dt.minute] and [.dt.month] of a timestamp in minutes. *)
Definition hora_de (t : Z) : Z := (t mod minutos_dia) / 60.
Definition minuto_de (t : Z) : Z := t mod 60.

Definition mes_de (t : Z) : Z :=
  let z := dia_de t + 719468 in
  let era := z / 146097 in
  let doe := z - era * 146097 in
  let yoe := (doe - doe / 1460 + doe / 36524 - doe / 146096) / 365 in
  let doy := doe - (365 * yoe + yoe / 4 - yoe / 100) in
  let mp := (5 * doy + 2) / 153 in
  if mp <? 10 then mp + 3 else mp - 9.

Section LoadAndFilter.

Variable pd : Pandas.

(** [pd.to_datetime(col)] on a column that is not of datetime type; [None]
    where the call raises. *)
Variable to_datetime_livre : list Cel -> option (list (option Z)).

Definition e_tempo (c : Cel) : bool :=
  match c with
  | Tempo _ | NaT => true
  | _ => false
  end.

(** [pd.to_datetime(df['datetime'])]: the column itself when it already
    holds timestamps. *)
Definition para_tempo (col : list Cel) : desfecho (list (option Z)) :=
  if forallb e_tempo col then Devolve (map tempo_de col)
  else match to_datetime_livre col with
       | Some v => Devolve v
       | None => Falha ValueError
       end.

(** A column of integers derived from the timestamps, NaN for NaT. *)
Definition parte (f : Z -> Z) (ts : list (option Z)) : list Cel :=
  map (fun o => match o with
                | Some t => Num (inject_Z (f t))
                | None => NaN
                end) ts.

(** [serie == k] on one cell *)
Definition igual_a (k : Z) (c : Cel) : bool :=
  match c with
  | Num q => Qeq_bool q (inject_Z k)
  | _ => false
  end.

Definition nome_month : pystr := cp "month".
Definition nome_hour : pystr := cp "hour".
Definition nome_minute : pystr := cp "minute".

(** The frame after the header is normalised and, when both columns of the
    time axis are there, ['datetime'] is built (this script does not sort
    at that point). *)
Definition com_datetime (csv : Csv) : desfecho DataFrame :=
  let df := {| columns := map clean_col_name (cabecalho csv);
               linhas := map (map de_csv) (registros csv) |} in
  if tem_coluna nome_data df && tem_coluna nome_hora_utc df then
    if (1 <? ocorrencias nome_hora_utc (columns df))%nat
    then Falha AttributeError
    else if (1 <? ocorrencias nome_data (columns df))%nat
    then Falha ValueError
    else
      let hora_part :=
        map (fun c => firstn 4 (astype_str pd c))
            (coluna_em (Maio.posicao_de nome_hora_utc df) df) in
      let dt_str :=
        map (fun dh => astype_str pd (fst dh) ++ cp " " ++ snd dh)
            (combine (coluna_em (Maio.posicao_de nome_data df) df)
                     hora_part) in
      Devolve (atribui nome_datetime (para_datetime pd dt_str) df)
  else Devolve df.

(** The conversion loop, as in [load_data]. *)
Definition numerica (df : DataFrame) : desfecho DataFrame :=
  let alvo := filter (fun ic => negb (excluida (snd ic)))
                (combine (seq 0 (length (columns df))) (columns df)) in
  if existsb (fun ic => (1 <? ocorrencias (snd ic) (columns df))%nat) alvo
  then Falha AttributeError
  else Devolve (fold_left (fun d ic => converte pd (fst ic) d) alvo df).

(** The three derived columns, the mask and the final sort.  With the
    label ['datetime'] twice in the header, [df['datetime']] is a frame and
    [pd.to_datetime] refuses it. *)
Definition filtra (df : DataFrame) : desfecho DataFrame :=
  match posicao nome_datetime (columns df) with
  | None => KeyError nome_datetime
  | Some pos_dt =>
      if (1 <? ocorrencias nome_datetime (columns df))%nat
      then Falha ValueError
      else
      match para_tempo (coluna_em pos_dt df) with
      | Devolve ts =>
          let df := atribui nome_month (parte mes_de ts) df in
          let df := atribui nome_hour (parte hora_de ts) df in
          let df := atribui nome_minute (parte minuto_de ts) df in
          let mask r :=
            igual_a 5 (nth (Maio.posicao_de nome_month df) r NaN)
            && igual_a 9 (nth (Maio.posicao_de nome_hour df) r NaN) in
          let df_filtered := filter mask (linhas df) in
          Devolve {| columns := columns df;
                     linhas :=
                       sort_values pd
                         (fun r => tempo_de
                                     (nth (Maio.posicao_de nome_datetime df)
                                          r NaN))
                         df_filtered |}
      | Falha e => Falha e
      | KeyError k => KeyError k
      end
  end.

Definition load_and_filter_data (csv : Csv) : desfecho DataFrame :=
  match com_datetime csv with
  | Devolve df =>
      match numerica df with
      | Devolve df => filtra df
      | Falha e => Falha e
      | KeyError k => KeyError k
      end
  | Falha e => Falha e
  | KeyError k => KeyError k
  end.

End LoadAndFilter.

End MaioCarga.

(* ------------------------------------------------------------------ *)
(** ** A May export *)

Module ExemplosMaio.

Import Analise1.

(** Four records: 9h30 on 17 May, noon the same day, 9h on 18 May with an
    unreadable temperature, and 9h on 1 June. *)
Definition csv_maio : Csv :=
  {| cabecalho := [cp "Data"; cp "Hora UTC"; cp "Temperatura (C)"];
     registros :=
       [[Texto (cp "2024/05/17"); Texto (cp "0930 UTC"); Numero 27];
        [Texto (cp "2024/05/17"); Texto (cp "1200 UTC"); Numero 31];
        [Texto (cp "2024/05/18"); Texto (cp "0900 UTC"); Texto (cp "-")];
        [Texto (cp "2024/06/01"); Texto (cp "0900 UTC"); Numero 26]] |}.

End ExemplosMaio.

(* ================================================================== *)
(** * Properties *)

(** ** Header normalisation *)

Section CleanColName.

Local Open Scope N_scope.

Lemma is_alnum_not_underscore c : is_alnum c = true -> (c =? underscore) = false.
Proof.
  unfold is_alnum, is_digit, is_lower, is_upper, underscore.
  intros H. apply N.eqb_neq. intros ->. discriminate H.
Qed.

Lemma normal_weaken s : normal true s = true -> normal false s = true.
Proof.
  destruct s as [|c t]; simpl; auto.
  destruct (is_alnum c); auto.
  rewrite andb_false_r. discriminate.
Qed.

Lemma re_sub_normal s : forall b, normal b (re_sub_nonalnum b s) = true.
Proof.
  induction s as [|c t IH]; intros b; simpl; auto.
  destruct (is_alnum c) eqn:E; simpl.
  - rewrite E. apply IH.
  - destruct b; simpl; auto.
Qed.

Lemma re_sub_fixed s : forall b, normal b s = true -> re_sub_nonalnum b s = s.
Proof.
  induction s as [|c t IH]; intros b; simpl; auto.
  destruct (is_alnum c) eqn:E.
  - intros H. f_equal. auto.
  - intros H. apply andb_prop in H as [H H2]. apply andb_prop in H as [H0 H1].
    destruct b; [discriminate|].
    apply N.eqb_eq in H0. subst c. f_equal. auto.
Qed.

Lemma lstrip_normal s : normal false s = true ->
  normal false (lstrip underscore s) = true.
Proof.
  induction s as [|c t IH]; simpl; auto. intros H.
  destruct (N.eqb_spec c underscore) as [->|Hne].
  - apply IH. simpl in H. now apply normal_weaken.
  - simpl. apply N.eqb_neq in Hne. rewrite Hne. exact H.
Qed.

Lemma rstrip_normal s : forall b, normal b s = true ->
  normal b (rstrip underscore s) = true.
Proof.
  induction s as [|c t IH]; intros b; simpl; auto.
  destruct (is_alnum c) eqn:E.
  - intros H. specialize (IH false H).
    destruct (rstrip underscore t) as [|x r] eqn:R.
    + rewrite (is_alnum_not_underscore _ E). simpl. now rewrite E.
    + simpl. rewrite E. exact IH.
  - intros H. apply andb_prop in H as [H H2]. apply andb_prop in H as [H0 H1].
    specialize (IH true H2).
    destruct (rstrip underscore t) as [|x r] eqn:R.
    + rewrite H0. reflexivity.
    + simpl. rewrite E, H0, H1. exact IH.
Qed.

Lemma lstrip_head s t : lstrip underscore s <> underscore :: t.
Proof.
  induction s as [|c s IH]; simpl; [discriminate|].
  destruct (c =? underscore) eqn:E; auto.
  intros H. injection H as -> _. discriminate E.
Qed.

Lemma rstrip_head s :
  (forall t, s <> underscore :: t) ->
  forall t, rstrip underscore s <> underscore :: t.
Proof.
  destruct s as [|c s]; simpl; [discriminate|].
  intros H t.
  assert (Hc : (c =? underscore) = false).
  { apply N.eqb_neq. intros ->. now apply (H s). }
  destruct (rstrip underscore s); [rewrite Hc|];
    intros E; injection E as -> _; discriminate Hc.
Qed.

Lemma rstrip_last s : forall t, rstrip underscore s <> t ++ [underscore].
Proof.
  induction s as [|c s IH]; intros t; simpl.
  - destruct t; discriminate.
  - destruct (rstrip underscore s) as [|x r] eqn:R.
    + destruct (c =? underscore) eqn:E.
      * destruct t; discriminate.
      * destruct t as [|y [|z t]]; simpl; try discriminate.
        intros H. injection H as ->. discriminate E.
    + destruct t as [|y t]; simpl; [discriminate|].
      intros H. injection H as _ H. now apply (IH t).
Qed.

Lemma lstrip_fixed s : (forall t, s <> underscore :: t) -> lstrip underscore s = s.
Proof.
  destruct s as [|c s]; simpl; auto. intros H.
  destruct (c =? underscore) eqn:E; auto.
  apply N.eqb_eq in E. subst c. now destruct (H s).
Qed.

Lemma rstrip_fixed s : (forall t, s <> t ++ [underscore]) -> rstrip underscore s = s.
Proof.
  induction s as [|c s IH]; simpl; auto. intros H.
  rewrite IH.
  - destruct s as [|x r]; auto.
    destruct (c =? underscore) eqn:E; auto.
    apply N.eqb_eq in E. subst c. now destruct (H []).
  - intros t E. apply (H (c :: t)). simpl. now f_equal.
Qed.

Lemma lower_char_underscore c : lower_char c = underscore -> c = underscore.
Proof.
  unfold lower_char, is_upper, underscore.
  destruct (65 <=? c) eqn:A; destruct (c <=? 90) eqn:B; simpl; auto.
  apply N.leb_le in A, B. lia.
Qed.

Lemma lower_char_ident c :
  is_alnum c || (c =? underscore) = true ->
  is_ident_char (lower_char c) = true.
Proof.
  unfold is_alnum, is_ident_char, lower_char, is_digit, is_lower, is_upper, underscore.
  destruct (65 <=? c) eqn:A; destruct (c <=? 90) eqn:B; simpl.
  - intros _. apply N.leb_le in A, B.
    replace (97 <=? c + 32) with true by (symmetry; apply N.leb_le; lia).
    replace (c + 32 <=? 122) with true by (symmetry; apply N.leb_le; lia).
    simpl. now rewrite orb_true_r.
  - rewrite !orb_false_r. auto.
  - rewrite !orb_false_r. auto.
  - rewrite !orb_false_r. auto.
Qed.

Lemma lower_char_fixed c : is_ident_char c = true -> lower_char c = c.
Proof.
  unfold is_ident_char, lower_char, is_digit, is_lower, is_upper, underscore.
  destruct (65 <=? c) eqn:A; destruct (c <=? 90) eqn:B; simpl; auto.
  apply N.leb_le in A, B.
  replace (c <=? 57) with false by (symmetry; apply N.leb_gt; lia).
  replace (97 <=? c) with false by (symmetry; apply N.leb_gt; lia).
  replace (c =? 95) with false by (symmetry; apply N.eqb_neq; lia).
  rewrite andb_false_r. discriminate.
Qed.

Lemma normal_chars s : forall b, normal b s = true ->
  Forall (fun c => is_alnum c || (c =? underscore) = true) s.
Proof.
  induction s as [|c t IH]; intros b; simpl; [constructor|].
  destruct (is_alnum c) eqn:E.
  - intros H. constructor; [now rewrite E | eauto].
  - intros H. apply andb_prop in H as [H H2]. apply andb_prop in H as [H0 H1].
    constructor; [rewrite H0; apply orb_true_r | eauto].
Qed.

Lemma lower_ident_normal s : forall b,
  normal b s = true ->
  normal b (lower s) = true /\ Forall (fun c => is_ident_char c = true) (lower s).
Proof.
  induction s as [|c t IH]; intros b; simpl; [split; auto|].
  destruct (is_alnum c) eqn:E.
  - intros H. destruct (IH false H) as [Hn Hf].
    assert (Hi : is_ident_char (lower_char c) = true)
      by (apply lower_char_ident; now rewrite E).
    assert (Ha : is_alnum (lower_char c) = true).
    { unfold is_ident_char in Hi. unfold is_alnum.
      destruct (lower_char c =? underscore) eqn:U.
      - apply N.eqb_eq, lower_char_underscore in U. subst c. discriminate E.
      - rewrite orb_false_r in Hi. rewrite Hi. reflexivity. }
    rewrite Ha. split; [exact Hn | constructor; auto].
  - intros H. apply andb_prop in H as [H H2]. apply andb_prop in H as [H0 H1].
    apply N.eqb_eq in H0. subst c.
    destruct (IH true H2) as [Hn Hf].
    change (lower_char underscore) with underscore.
    replace (is_alnum underscore) with false by reflexivity.
    rewrite N.eqb_refl, H1. simpl. split; [exact Hn | constructor; auto].
Qed.

Lemma lower_fixed s :
  Forall (fun c => is_ident_char c = true) s -> lower s = s.
Proof.
  induction 1 as [|c t Hc _ IH]; simpl; auto.
  rewrite lower_char_fixed by assumption. now f_equal.
Qed.

Lemma replace_fixed s :
  Forall (fun c => is_ident_char c = true) s ->
  replace_char replacement_char letter_o s = s.
Proof.
  induction 1 as [|c t Hc _ IH]; simpl; auto.
  fold (replace_char replacement_char letter_o t). rewrite IH.
  destruct (c =? replacement_char) eqn:E; auto.
  apply N.eqb_eq in E. subst c. discriminate Hc.
Qed.

Lemma lower_head s t :
  (forall t', s <> underscore :: t') -> lower s <> underscore :: t.
Proof.
  destruct s as [|c s]; simpl; [discriminate|].
  intros H E. injection E as E _.
  apply lower_char_underscore in E. subst c. now apply (H s).
Qed.

Lemma lower_last s t :
  (forall t', s <> t' ++ [underscore]) -> lower s <> t ++ [underscore].
Proof.
  intros H E. unfold lower in E.
  apply map_eq_app in E as (l1 & l2 & -> & E1 & E2).
  destruct l2 as [|c [|? ?]]; try discriminate.
  injection E2 as E2. apply lower_char_underscore in E2. subst c.
  now apply (H l1).
Qed.

End CleanColName.

(** C5. [clean_col_name] is idempotent, and its output is made of lowercase
    ASCII letters, digits and underscores only, with no underscore at
    either end. *)
Theorem clean_col_name_idempotent_ident (s : pystr) :
  clean_col_name (clean_col_name s) = clean_col_name s
  /\ Forall (fun c => is_ident_char c = true) (clean_col_name s)
  /\ (forall t, clean_col_name s <> underscore :: t)
  /\ (forall t, clean_col_name s <> t ++ [underscore]).
Proof.
  set (r := re_sub_nonalnum false
              (replace_char replacement_char letter_o
                 (replace_char replacement_char letter_o s))).
  assert (Hr : normal false r = true) by apply re_sub_normal.
  set (b := strip underscore r).
  assert (Hb : normal false b = true)
    by (apply rstrip_normal, lstrip_normal, Hr).
  assert (Hh : forall t, b <> underscore :: t)
    by (apply rstrip_head; intros t; apply lstrip_head).
  assert (Hl : forall t, b <> t ++ [underscore]) by (intros t; apply rstrip_last).
  change (clean_col_name s) with (lower b).
  destruct (lower_ident_normal _ _ Hb) as [Hn Hi].
  assert (Hh' : forall t, lower b <> underscore :: t)
    by (intros t; now apply lower_head).
  assert (Hl' : forall t, lower b <> t ++ [underscore])
    by (intros t; now apply lower_last).
  repeat split; auto.
  unfold clean_col_name.
  rewrite (replace_fixed _ Hi), (replace_fixed _ Hi).
  rewrite (re_sub_fixed _ _ Hn).
  unfold strip. rewrite lstrip_fixed by assumption.
  rewrite rstrip_fixed by assumption.
  now apply lower_fixed.
Qed.

(* ------------------------------------------------------------------ *)
(** ** The daily series of the detectors *)

Section SerieDiaria.

Import Temperatura.
Local Open Scope Z_scope.

Lemma inserir_dia_In d l x : In x (inserir_dia d l) <-> x = d \/ In x l.
Proof.
  induction l as [|y t IH]; simpl.
  - intuition.
  - destruct (Z.ltb_spec d y); [simpl; intuition|].
    destruct (Z.eqb_spec d y); simpl; [subst; intuition|].
    rewrite IH. intuition.
Qed.

Lemma inserir_dia_HdRel a d l :
  HdRel Z.lt a l -> a < d -> HdRel Z.lt a (inserir_dia d l).
Proof.
  destruct l as [|y t]; simpl; intros H Hd.
  - now constructor.
  - destruct (Z.ltb_spec d y); [now constructor|].
    destruct (Z.eqb_spec d y); [exact H|].
    inversion H; now constructor.
Qed.

Lemma inserir_dia_Sorted d l : Sorted Z.lt l -> Sorted Z.lt (inserir_dia d l).
Proof.
  induction l as [|y t IH]; simpl; intros H.
  - repeat constructor.
  - destruct (Z.ltb_spec d y).
    + constructor; [exact H | now constructor].
    + destruct (Z.eqb_spec d y); [exact H|].
      inversion H; subst. constructor; [auto|].
      apply inserir_dia_HdRel; [assumption | lia].
Qed.

Lemma chaves_Sorted df : Sorted Z.lt (chaves df).
Proof.
  induction df as [|r t IH]; simpl; [constructor|].
  destruct (Data r); [now apply inserir_dia_Sorted | exact IH].
Qed.

Lemma chaves_In df d : In d (chaves df) <-> exists r, In r df /\ Data r = Some d.
Proof.
  induction df as [|r t IH]; simpl.
  - split; [tauto | intros (r & [] & _)].
  - destruct (Data r) as [d'|] eqn:E.
    + rewrite inserir_dia_In, IH. split.
      * intros [->|(r' & Hr & Hd)]; [exists r; auto | exists r'; auto].
      * intros (r' & [<-|Hr] & Hd); [left; congruence | right; eauto].
    + rewrite IH. split.
      * intros (r' & Hr & Hd); eauto.
      * intros (r' & [<-|Hr] & Hd); [congruence | eauto].
Qed.

Lemma temp_diaria_dias df : map fst (temp_diaria df) = chaves df.
Proof.
  unfold temp_diaria. rewrite map_map. simpl. apply map_id.
Qed.

Lemma temp_diaria_ordenada df : StronglySorted Z.lt (map fst (temp_diaria df)).
Proof.
  rewrite temp_diaria_dias. apply Sorted_StronglySorted.
  - intros x y z. apply Z.lt_trans.
  - apply chaves_Sorted.
Qed.

End SerieDiaria.

(* ------------------------------------------------------------------ *)
(** ** Sorted lists and label slices *)

Section Ordenacao.

Import Temperatura.
Local Open Scope Z_scope.

Lemma sorted_snoc (p : list (Z * option Q)) (dv : Z * option Q) :
  StronglySorted Z.lt (map fst (p ++ [dv])) ->
  StronglySorted Z.lt (map fst p) /\ forall x, In x p -> fst x < fst dv.
Proof.
  induction p as [|y t IH]; simpl; intros H.
  - split; [constructor | tauto].
  - inversion H as [|? ? Hs Hf]; subst.
    destruct (IH Hs) as [Hs' Hlt]. split.
    + constructor; auto.
      rewrite Forall_forall in *. intros x Hx. apply Hf.
      rewrite map_app, in_app_iff. now left.
    + intros x [<-|Hx]; auto.
      rewrite Forall_forall in Hf. apply Hf.
      rewrite map_app, in_app_iff. right. simpl. now left.
Qed.

Lemma StronglySorted_snoc {A : Type} (R : A -> A -> Prop) l x :
  StronglySorted R l -> (forall y, In y l -> R y x) ->
  StronglySorted R (l ++ [x]).
Proof.
  induction l as [|y t IH]; simpl; intros Hs Hx.
  - repeat constructor.
  - inversion Hs; subst. constructor; auto.
    rewrite Forall_forall in *. intros z Hz.
    apply in_app_iff in Hz as [Hz|[<-|[]]]; auto.
Qed.

Lemma filter_nada {A : Type} (f : A -> bool) l :
  (forall x, In x l -> f x = false) -> filter f l = [].
Proof.
  induction l as [|x t IH]; simpl; intros H; [reflexivity|].
  rewrite (H x) by now left. auto.
Qed.

Lemma filter_tudo {A : Type} (f : A -> bool) l :
  (forall x, In x l -> f x = true) -> filter f l = l.
Proof.
  induction l as [|x t IH]; simpl; intros H; [reflexivity|].
  rewrite (H x) by now left. f_equal. auto.
Qed.

Lemma sorted_app (l1 l2 : list Z) :
  StronglySorted Z.lt (l1 ++ l2) ->
  StronglySorted Z.lt l1 /\ StronglySorted Z.lt l2
  /\ forall a b, In a l1 -> In b l2 -> a < b.
Proof.
  induction l1 as [|x t IH]; simpl; intros H.
  - repeat split; [constructor | exact H | tauto].
  - inversion H as [|? ? Hs Hf]; subst.
    destruct (IH Hs) as (H1 & H2 & H3).
    rewrite Forall_forall in Hf. repeat split; auto.
    + constructor; auto. rewrite Forall_forall. intros y Hy.
      apply Hf. rewrite in_app_iff. now left.
    + intros a b [<-|Ha] Hb; auto.
      apply Hf. rewrite in_app_iff. now right.
Qed.

(** In a sorted series, the label slice from the first day of a run to the
    eve of the day after it is the run itself. *)
Lemma fatia_da_corrida pre x run brk post :
  StronglySorted Z.lt (map fst (pre ++ (x :: run) ++ brk :: post)) ->
  fatia (Some (fst x)) (fst brk - 1) (pre ++ (x :: run) ++ brk :: post)
  = x :: run.
Proof.
  intros H. rewrite !map_app in H.
  apply sorted_app in H as (_ & H & Hpre).
  apply sorted_app in H as (Hrun & Hpost & Hmid).
  unfold fatia. rewrite !filter_app.
  rewrite (@filter_nada _ _ pre), (@filter_tudo _ _ (x :: run)),
          (@filter_nada _ _ (brk :: post)).
  - now rewrite app_nil_r.
  - intros y Hy. apply andb_false_iff. right. apply Z.leb_gt.
    assert (fst brk <= fst y); [|lia].
    destruct Hy as [<-|Hy]; [lia|].
    simpl in Hpost. inversion Hpost as [|? ? _ Hf]; subst.
    rewrite Forall_forall in Hf.
    apply Z.lt_le_incl, Hf, in_map, Hy.
  - intros y Hy. apply andb_true_iff. split; apply Z.leb_le.
    + destruct Hy as [<-|Hy]; [lia|].
      simpl in Hrun. inversion Hrun as [|? ? _ Hf]; subst.
      rewrite Forall_forall in Hf.
      apply Z.lt_le_incl, Hf, in_map, Hy.
    + assert (fst y < fst brk); [|lia].
      apply Hmid; [now apply in_map | simpl; now left].
  - intros y Hy. apply andb_false_iff. left. apply Z.leb_gt.
    apply Hpre; [now apply in_map|].
    rewrite in_app_iff. left. simpl. now left.
Qed.

End Ordenacao.

(* ------------------------------------------------------------------ *)
(** ** The scan *)

Section Laco.

Import Temperatura.
Local Open Scope Z_scope.

Variable excede : option Q -> option Q -> bool.
Variable extremo : list (option Q) -> option Q.
Variable limiar : option Q.
Variable dias_consecutivos : Z.
Variable serie : list (Z * option Q).

Local Abbreviation apos :=
  (estado_apos excede extremo limiar dias_consecutivos serie).
Local Abbreviation passo' := (passo extremo dias_consecutivos serie).
Local Abbreviation qual := (qualifica excede limiar).

Lemma estado_apos_app p r :
  apos (p ++ r) = fold_left passo' (itens excede limiar r) (apos p).
Proof.
  unfold estado_apos, itens. now rewrite map_app, fold_left_app.
Qed.

Lemma estado_apos_snoc p dv :
  apos (p ++ [dv]) = passo' (apos p) (fst dv, qual dv).
Proof. now rewrite estado_apos_app. Qed.

Lemma passo_inv p dv :
  (forall x, In x p -> fst x < fst dv) ->
  Inv excede limiar dias_consecutivos p (apos p) ->
  Inv excede limiar dias_consecutivos (p ++ [dv]) (apos (p ++ [dv])).
Proof.
  intros Hlt [Hord Hfim Hini Hab Hdur Hsome].
  rewrite estado_apos_snoc. set (st := apos p) in *.
  unfold passo. destruct (qual dv) eqn:Q.
  - (* the day extends the run *)
    constructor; simpl.
    + exact Hord.
    + intros e He. destruct (Hfim e He) as (x & Hx & Hq & Hf).
      exists x. rewrite in_app_iff. auto.
    + intros e a He Ha. destruct (Hini e a He Ha) as [H1 H2]. split; auto.
      intros x Hx Hr. apply in_app_iff in Hx as [Hx|[<-|[]]]; auto.
    + intros i Hi. rewrite map_app, in_app_iff. simpl.
      destruct (inicio_aberto st) as [j|] eqn:E.
      * injection Hi as <-. destruct (Hab j eq_refl) as (H1 & H2 & H3).
        repeat split; auto.
        intros x Hx Hr. apply in_app_iff in Hx as [Hx|[<-|[]]]; auto.
      * injection Hi as <-. repeat split; auto.
        -- intros e He. destruct (Hfim e He) as (y & Hy & _ & Hf).
           specialize (Hlt y Hy). lia.
        -- intros x Hx Hr. apply in_app_iff in Hx as [Hx|[<-|[]]]; auto.
           specialize (Hlt x Hx). lia.
    + destruct Hdur as [H0 H1]. split; [lia|].
      split; [destruct (inicio_aberto st); discriminate | lia].
    + exact Hsome.
  - (* the day breaks the run *)
    assert (Hnew : forall e,
      In e (if dias_consecutivos <=? duracao_aberta st
            then ondas st ++ [onda_ate extremo serie st (fst dv)]
            else ondas st) ->
      In e (ondas st) \/
      (e = onda_ate extremo serie st (fst dv)
       /\ dias_consecutivos <= duracao_aberta st)).
    { intros e. destruct (Z.leb_spec dias_consecutivos (duracao_aberta st)).
      - rewrite in_app_iff. simpl. intuition.
      - auto. }
    constructor; simpl.
    + destruct (dias_consecutivos <=? duracao_aberta st); [|exact Hord].
      apply StronglySorted_snoc; [exact Hord|].
      intros y Hy a Ha. simpl in Ha.
      now destruct (Hab a Ha) as (_ & H2 & _); auto.
    + intros e He. apply Hnew in He as [He|[-> _]].
      * destruct (Hfim e He) as (x & Hx & Hq & Hf).
        exists x. rewrite in_app_iff. auto.
      * exists dv. rewrite in_app_iff. simpl. auto.
    + intros e a He Ha. apply Hnew in He as [He|[-> _]].
      * destruct (Hini e a He Ha) as [H1 H2]. split; auto.
        intros x Hx Hr. apply in_app_iff in Hx as [Hx|[<-|[]]]; auto.
        destruct (Hfim e He) as (y & Hy & _ & Hf). specialize (Hlt y Hy). lia.
      * simpl in Ha. simpl. destruct (Hab a Ha) as (H1 & H2 & H3).
        apply in_map_iff in H1 as (y & <- & Hy).
        pose proof (Hlt y Hy). split; [lia|].
        intros x Hx Hr. apply in_app_iff in Hx as [Hx|[<-|[]]]; [|lia].
        apply H3; [exact Hx | lia].
    + discriminate.
    + split; [lia | tauto].
    + intros H1 e He. apply Hnew in He as [He|[-> Hd]]; auto.
      simpl. destruct Hdur as [H0 Hn].
      destruct (inicio_aberto st); [discriminate|].
      assert (duracao_aberta st = 0) by now apply Hn. lia.
Qed.

Lemma inv_inicial : Inv excede limiar dias_consecutivos [] (apos []).
Proof.
  constructor; simpl; try tauto; try discriminate.
  - constructor.
  - split; [lia | tauto].
Qed.

Lemma inv_estado p :
  StronglySorted Z.lt (map fst p) ->
  Inv excede limiar dias_consecutivos p (apos p).
Proof.
  induction p as [|dv p IH] using rev_ind; intros H.
  - apply inv_inicial.
  - apply sorted_snoc in H as [Hs Hlt]. apply passo_inv; auto.
Qed.

End Laco.

(* ------------------------------------------------------------------ *)
(** ** Reductions *)

Section FatosReducoes.

Local Open Scope Q_scope.

Lemma qmax_cases a b : (qmax a b = a /\ b <= a) \/ (qmax a b = b /\ a <= b).
Proof.
  unfold qmax. destruct (Qle_bool a b) eqn:E.
  - right. split; [reflexivity | now apply Qle_bool_iff].
  - left. split; [reflexivity|].
    apply Qlt_le_weak, Qnot_le_lt. intros H.
    apply Qle_bool_iff in H. congruence.
Qed.

Lemma qmin_cases a b : (qmin a b = a /\ a <= b) \/ (qmin a b = b /\ b <= a).
Proof.
  unfold qmin. destruct (Qle_bool a b) eqn:E.
  - left. split; [reflexivity | now apply Qle_bool_iff].
  - right. split; [reflexivity|].
    apply Qlt_le_weak, Qnot_le_lt. intros H.
    apply Qle_bool_iff in H. congruence.
Qed.

Lemma reduz_qmax xs : xs <> [] -> exists m, reduz qmax xs = Some m /\ e_maximo m xs.
Proof.
  induction xs as [|x t IH]; [congruence|]. intros _. simpl.
  destruct t as [|y t'].
  - exists x. split; [reflexivity|]. split; [now left|].
    intros z [<-|[]]. apply Qle_refl.
  - destruct IH as (m & -> & Hin & Hle); [discriminate|].
    exists (qmax x m). split; [reflexivity|].
    destruct (qmax_cases x m) as [[-> H]|[-> H]]; split.
    + now left.
    + intros z [<-|Hz]; [apply Qle_refl|].
      eapply Qle_trans; [now apply Hle | exact H].
    + now right.
    + intros z [<-|Hz]; [exact H | now apply Hle].
Qed.

Lemma reduz_qmin xs : xs <> [] -> exists m, reduz qmin xs = Some m /\ e_minimo m xs.
Proof.
  induction xs as [|x t IH]; [congruence|]. intros _. simpl.
  destruct t as [|y t'].
  - exists x. split; [reflexivity|]. split; [now left|].
    intros z [<-|[]]. apply Qle_refl.
  - destruct IH as (m & -> & Hin & Hle); [discriminate|].
    exists (qmin x m). split; [reflexivity|].
    destruct (qmin_cases x m) as [[-> H]|[-> H]]; split.
    + now left.
    + intros z [<-|Hz]; [apply Qle_refl|].
      eapply Qle_trans; [exact H | now apply Hle].
    + now right.
    + intros z [<-|Hz]; [exact H | now apply Hle].
Qed.

Lemma mean_skipna_media l :
  dropna l <> [] -> exists a, mean_skipna l = Some a /\ e_media a (dropna l).
Proof.
  unfold mean_skipna, e_media. intros H.
  destruct (dropna l) as [|x t] eqn:E; [congruence|].
  eexists. split; [reflexivity|].
  set (n := inject_Z (Z.of_nat (length (x :: t)))).
  assert (Hn : ~ n == 0).
  { unfold n. intros H0.
    assert (Hz : inject_Z (Z.of_nat (length (x :: t))) == inject_Z 0) by exact H0.
    rewrite inject_Z_injective in Hz. simpl length in Hz. lia. }
  field. exact Hn.
Qed.

Lemma mean_skipna_vazio l : dropna l = [] -> mean_skipna l = None.
Proof. unfold mean_skipna. now intros ->. Qed.

End FatosReducoes.

(* ------------------------------------------------------------------ *)
(** ** Runs and the events they produce *)

Section Sequencias.

Import Temperatura.
Local Open Scope Z_scope.

Variable excede : option Q -> option Q -> bool.
Variable extremo : list (option Q) -> option Q.
Variable limiar : option Q.
Variable dias_consecutivos : Z.
Variable serie : list (Z * option Q).

Local Abbreviation apos :=
  (estado_apos excede extremo limiar dias_consecutivos serie).
Local Abbreviation passo' := (passo extremo dias_consecutivos serie).
Local Abbreviation qual := (qualifica excede limiar).
Local Abbreviation itens' := (itens excede limiar).

(** Qualifying days never emit: they only lengthen the open run. *)
Lemma corrida_estende run : forall st,
  forallb qual run = true ->
  fold_left passo' (itens' run) st =
  {| ondas := ondas st;
     inicio_aberto := match inicio_aberto st with
                      | Some i => Some i
                      | None => option_map fst (hd_error run)
                      end;
     duracao_aberta := duracao_aberta st + Z.of_nat (length run) |}.
Proof.
  induction run as [|x t IH]; intros st H.
  - simpl. destruct st as [o [i|] d]; simpl; f_equal; lia.
  - simpl in H. apply andb_prop in H as [Hx Ht].
    cbn [itens map fold_left]. unfold qualifica in Hx. rewrite Hx.
    rewrite IH by assumption. cbn [passo ondas inicio_aberto duracao_aberta].
    f_equal.
    + now destruct (inicio_aberto st).
    + simpl length. lia.
Qed.

Lemma quebra_zera p dv :
  qual dv = false ->
  inicio_aberto (apos (p ++ [dv])) = None
  /\ duracao_aberta (apos (p ++ [dv])) = 0.
Proof.
  intros H. rewrite estado_apos_snoc. unfold passo. rewrite H. now split.
Qed.

Lemma quebra_antes_estado pre :
  quebra_antes excede limiar pre = true ->
  inicio_aberto (apos pre) = None /\ duracao_aberta (apos pre) = 0.
Proof.
  unfold quebra_antes. destruct (rev pre) as [|y r] eqn:E.
  - intros _. apply (f_equal (@rev _)) in E. rewrite rev_involutive in E.
    subst pre. now split.
  - intros H. apply (f_equal (@rev _)) in E. rewrite rev_involutive in E.
    subst pre. simpl. apply quebra_zera.
    now destruct (qual y).
Qed.

Lemma ondas_cresce items : forall st e,
  In e (ondas st) -> In e (ondas (fold_left passo' items st)).
Proof.
  induction items as [|[d b] t IH]; intros st e H; [exact H|].
  simpl. apply IH. destruct b; simpl; [exact H|].
  destruct (dias_consecutivos <=? duracao_aberta st); [|exact H].
  rewrite in_app_iff. now left.
Qed.

End Sequencias.

Section Eventos.

Import Temperatura.
Local Open Scope Z_scope.

Variable excede : option Q -> option Q -> bool.
Variable extremo : list (option Q) -> option Q.
Variable limiar : option Q.
Variable dias_consecutivos : Z.

Lemma evento_no_estado s pre x run brk post :
  quebra_antes excede limiar pre = true ->
  forallb (qualifica excede limiar) (x :: run) = true ->
  qualifica excede limiar brk = false ->
  dias_consecutivos <= Z.of_nat (length (x :: run)) ->
  In {| inicio := Some (fst x);
        fim := fst brk - 1;
        duracao := Z.of_nat (length (x :: run));
        temp_extrema :=
          extremo (map snd (fatia (Some (fst x)) (fst brk - 1) s));
        temp_media :=
          mean_skipna (map snd (fatia (Some (fst x)) (fst brk - 1) s)) |}
     (ondas (estado_apos excede extremo limiar dias_consecutivos s
               (pre ++ (x :: run) ++ brk :: post))).
Proof.
  intros Hpre Hrun Hbrk Hlen.
  replace (pre ++ (x :: run) ++ brk :: post)
    with (((pre ++ (x :: run)) ++ [brk]) ++ post)
    by now rewrite <- !app_assoc.
  rewrite (estado_apos_app _ _ _ _ _ _ post).
  apply ondas_cresce.
  rewrite estado_apos_snoc, estado_apos_app.
  destruct (quebra_antes_estado excede extremo limiar dias_consecutivos s
              pre Hpre) as [Hi Hd].
  rewrite corrida_estende by assumption. rewrite Hi, Hd.
  unfold passo. rewrite Hbrk.
  cbn [ondas inicio_aberto duracao_aberta hd_error option_map].
  replace (dias_consecutivos <=? 0 + Z.of_nat (length (x :: run))) with true
    by (symmetry; apply Z.leb_le; lia).
  rewrite in_app_iff. right. left.
  unfold onda_ate. cbn [inicio_aberto duracao_aberta].
  f_equal.
Qed.

Lemma evento_emitido pre x run brk post :
  StronglySorted Z.lt (map fst (pre ++ (x :: run) ++ brk :: post)) ->
  quebra_antes excede limiar pre = true ->
  forallb (qualifica excede limiar) (x :: run) = true ->
  qualifica excede limiar brk = false ->
  dias_consecutivos <= Z.of_nat (length (x :: run)) ->
  In {| inicio := Some (fst x);
        fim := fst brk - 1;
        duracao := Z.of_nat (length (x :: run));
        temp_extrema := extremo (map snd (x :: run));
        temp_media := mean_skipna (map snd (x :: run)) |}
     (varredura excede extremo limiar dias_consecutivos
        (pre ++ (x :: run) ++ brk :: post)).
Proof.
  intros Hs Hpre Hrun Hbrk Hlen.
  pose proof (evento_no_estado (pre ++ (x :: run) ++ brk :: post)
                pre x run brk post Hpre Hrun Hbrk Hlen) as H.
  rewrite (fatia_da_corrida pre x run brk post Hs) in H. exact H.
Qed.

End Eventos.

(* ------------------------------------------------------------------ *)
(** ** The detectors *)

Section Detectores.

Import Temperatura Exemplos.
Local Open Scope Z_scope.

Lemma maior_valor v l : maior v l = true -> exists q, v = Some q.
Proof. destruct v; [eauto | discriminate]. Qed.

Lemma menor_valor v l : menor v l = true -> exists q, v = Some q.
Proof. destruct v; [eauto | discriminate]. Qed.

Lemma excede_valor calor v l :
  excede_de calor v l = true -> exists q, v = Some q.
Proof. destruct calor; [apply maior_valor | apply menor_valor]. Qed.

Lemma extremo_da_corrida calor (x : Z * option Q) run limiar :
  qualifica (excede_de calor) limiar x = true ->
  exists m,
    (if calor then max_skipna else min_skipna) (map snd (x :: run)) = Some m
    /\ e_extremo calor m (valores (x :: run)).
Proof.
  intros H. apply excede_valor in H as [q Hq].
  assert (Hne : valores (x :: run) <> []).
  { unfold valores. simpl. rewrite Hq. discriminate. }
  destruct calor; simpl.
  - now apply reduz_qmax.
  - now apply reduz_qmin.
Qed.

End Detectores.

(** C3 (amended). When a day breaks an open run at least as long as the
    minimum, an event is emitted whose start is the first day of the run,
    whose end is the calendar day before the breaking day (the last day of
    the run when the breaking day is the next calendar day), whose duration
    is the number of days of the run, whose extreme is the maximum (heat) or
    minimum (cold) of the run's values and whose mean is their arithmetic
    mean. *)
Theorem onda_emitida_na_quebra
  (calor : bool) (df : Temperatura.DataFrame) (limiar : option Q) (dias : Z)
  (pre : list (Z * option Q)) (x : Z * option Q) (run : list (Z * option Q))
  (brk : Z * option Q) (post : list (Z * option Q)) :
  Temperatura.temp_diaria df = pre ++ (x :: run) ++ brk :: post ->
  quebra_antes (excede_de calor) limiar pre = true ->
  forallb (qualifica (excede_de calor) limiar) (x :: run) = true ->
  qualifica (excede_de calor) limiar brk = false ->
  (dias <= Z.of_nat (length (x :: run)))%Z ->
  exists e m a,
    In e (varredura_de calor limiar dias (Temperatura.temp_diaria df))
    /\ Temperatura.inicio e = Some (fst x)
    /\ Temperatura.fim e = (fst brk - 1)%Z
    /\ (fst brk = (fst (last run x) + 1)%Z ->
        Temperatura.fim e = fst (last run x))
    /\ Temperatura.duracao e = Z.of_nat (length (x :: run))
    /\ Temperatura.temp_extrema e = Some m
    /\ e_extremo calor m (valores (x :: run))
    /\ Temperatura.temp_media e = Some a
    /\ e_media a (valores (x :: run)).
Proof.
  intros Hs Hpre Hrun Hbrk Hlen.
  pose proof (temp_diaria_ordenada df) as Hord. rewrite Hs in *.
  assert (Hx : qualifica (excede_de calor) limiar x = true)
    by (simpl in Hrun; now apply andb_prop in Hrun as [? _]).
  destruct (extremo_da_corrida calor x run limiar Hx) as (m & Hm & Hext).
  destruct (mean_skipna_media (map snd (x :: run))) as (a & Ha & Hmed).
  { apply excede_valor in Hx as [q Hq]. simpl. rewrite Hq. discriminate. }
  pose proof (evento_emitido (excede_de calor)
                (if calor then max_skipna else min_skipna)
                limiar dias pre x run brk post Hord Hpre Hrun Hbrk Hlen) as He.
  destruct calor; (eexists; exists m, a; split; [exact He|]);
    cbn [Temperatura.inicio Temperatura.fim Temperatura.duracao
         Temperatura.temp_extrema Temperatura.temp_media];
    repeat match goal with |- _ /\ _ => split end;
    try reflexivity; try assumption; intros ->; lia.
Qed.

Lemma onda_emitida_na_quebra_witness :
  exists e m a,
    In e (varredura_de true (Some 30%Q) 3
            (Temperatura.temp_diaria (Exemplos.df_semana 0)))
    /\ Temperatura.inicio e = Some 2%Z
    /\ Temperatura.fim e = 4%Z
    /\ (5 = 4 + 1 -> Temperatura.fim e = 4)%Z
    /\ Temperatura.duracao e = 3%Z
    /\ Temperatura.temp_extrema e = Some m
    /\ e_extremo true m [31%Q; 32%Q; 33%Q]
    /\ Temperatura.temp_media e = Some a
    /\ e_media a [31%Q; 32%Q; 33%Q].
Proof.
  apply (onda_emitida_na_quebra true (Exemplos.df_semana 0) (Some 30%Q) 3
           [(0%Z, Some 10%Q); (1%Z, Some 10%Q)]
           (2%Z, Some 31%Q) [(3%Z, Some 32%Q); (4%Z, Some 33%Q)]
           (5%Z, Some 10%Q) [(6%Z, Some 10%Q)]).
  - vm_compute. reflexivity.
  - reflexivity.
  - reflexivity.
  - reflexivity.
  - simpl. lia.
Defined.

(** C3, as stated, fails when the scanned days are not calendar-consecutive:
    the run of days 1, 2, 3 is broken by day 10, and the event ends on day 9
    although the last qualifying day is day 3. *)
Lemma fim_nao_e_o_ultimo_dia_da_corrida :
  Temperatura.temp_diaria Exemplos.df_lacuna
  = [(1, Some 31%Q); (2, Some 32%Q); (3, Some 33%Q); (10, Some 10%Q)]%Z
  /\ map (fun e => (Temperatura.inicio e, Temperatura.fim e,
                    Temperatura.duracao e))
         (Temperatura.varredura_calor (Some 30%Q) 3
            (Temperatura.temp_diaria Exemplos.df_lacuna))
     = [(Some 1, 9, 3)]%Z
  /\ (9 <> 3)%Z.
Proof.
  split; [vm_compute; reflexivity|].
  split; [vm_compute; reflexivity | discriminate].
Qed.

(* ------------------------------------------------------------------ *)
(** ** A series with a single run *)

Section UmaCorrida.

Import Temperatura.
Local Open Scope Z_scope.

Variable excede : option Q -> option Q -> bool.
Variable extremo : list (option Q) -> option Q.
Variable limiar : option Q.
Variable dias_consecutivos : Z.
Variable serie : list (Z * option Q).

Local Abbreviation passo' := (passo extremo dias_consecutivos serie).
Local Abbreviation qual := (qualifica excede limiar).

(** With a positive minimum, days that do not qualify leave a state
    without open run as it is. *)
Lemma sem_excesso l : forall o,
  1 <= dias_consecutivos ->
  forallb (fun dv => negb (qual dv)) l = true ->
  fold_left passo' (itens excede limiar l)
    {| ondas := o; inicio_aberto := None; duracao_aberta := 0 |}
  = {| ondas := o; inicio_aberto := None; duracao_aberta := 0 |}.
Proof.
  induction l as [|x t IH]; intros o Hd H; [reflexivity|].
  simpl in H. apply andb_prop in H as [Hx Ht].
  cbn [itens map fold_left]. unfold qualifica in Hx.
  apply negb_true_iff in Hx. rewrite Hx.
  cbn [passo ondas inicio_aberto duracao_aberta].
  replace (dias_consecutivos <=? 0) with false
    by (symmetry; apply Z.leb_gt; lia).
  now apply IH.
Qed.

Lemma uma_corrida pre x run brk post :
  1 <= dias_consecutivos <= Z.of_nat (length (x :: run)) ->
  forallb (fun dv => negb (qual dv)) pre = true ->
  forallb qual (x :: run) = true ->
  qual brk = false ->
  forallb (fun dv => negb (qual dv)) post = true ->
  ondas (estado_apos excede extremo limiar dias_consecutivos serie
           (pre ++ (x :: run) ++ brk :: post))
  = [ {| inicio := Some (fst x);
         fim := fst brk - 1;
         duracao := Z.of_nat (length (x :: run));
         temp_extrema :=
           extremo (map snd (fatia (Some (fst x)) (fst brk - 1) serie));
         temp_media :=
           mean_skipna (map snd (fatia (Some (fst x)) (fst brk - 1) serie))
      |} ].
Proof.
  intros [Hd Hlen] Hpre Hrun Hbrk Hpost.
  replace (pre ++ (x :: run) ++ brk :: post)
    with (((pre ++ (x :: run)) ++ [brk]) ++ post)
    by now rewrite <- !app_assoc.
  rewrite (estado_apos_app _ _ _ _ _ _ post).
  rewrite estado_apos_snoc, estado_apos_app.
  assert (E : estado_apos excede extremo limiar dias_consecutivos serie pre
              = {| ondas := []; inicio_aberto := None; duracao_aberta := 0 |})
    by (unfold estado_apos, estado_inicial; now apply sem_excesso).
  rewrite E.
  rewrite (corrida_estende excede extremo limiar dias_consecutivos serie
             (x :: run) _ Hrun).
  rewrite Hbrk.
  match goal with
  | |- context [passo' ?st (?d, false)] =>
      change (passo' st (d, false))
        with {| ondas := if dias_consecutivos <=? duracao_aberta st
                         then ondas st ++ [onda_ate extremo serie st d]
                         else ondas st;
                inicio_aberto := None;
                duracao_aberta := 0 |}
  end.
  cbn [ondas inicio_aberto duracao_aberta hd_error option_map].
  replace (dias_consecutivos <=? 0 + Z.of_nat (length (x :: run))) with true
    by (symmetry; apply Z.leb_le; lia).
  rewrite (sem_excesso post _ Hd Hpost).
  reflexivity.
Qed.

End UmaCorrida.

(** C2. On the daily means 10, 10, 31, 32, 33, 10, 10 (one per consecutive
    day from any day [d0]), with threshold 30 and minimum run 3, the heat
    scan emits exactly one event; it spans the three days whose values are
    31, 32 and 33, its maximum is 33 and its mean is 32. *)
Theorem varredura_semana_um_evento (d0 : Z) :
  exists e a,
    Temperatura.varredura_calor (Some 30%Q) 3 (Exemplos.serie_semana d0) = [e]
    /\ Temperatura.inicio e = Some (d0 + 2)%Z
    /\ Temperatura.fim e = (d0 + 4)%Z
    /\ Temperatura.duracao e = 3%Z
    /\ Temperatura.temp_extrema e = Some 33%Q
    /\ Temperatura.temp_media e = Some a
    /\ (a == 32)%Q.
Proof.
  pose (pre := [(d0, Some 10%Q); ((d0 + 1)%Z, Some 10%Q)]).
  pose (x := ((d0 + 2)%Z, Some 31%Q)).
  pose (run := [((d0 + 3)%Z, Some 32%Q); ((d0 + 4)%Z, Some 33%Q)]).
  pose (brk := ((d0 + 5)%Z, Some 10%Q)).
  pose (post := [((d0 + 6)%Z, Some 10%Q)]).
  assert (Hs : StronglySorted Z.lt
                 (map fst (pre ++ (x :: run) ++ brk :: post))).
  { simpl. repeat constructor; lia. }
  pose proof (uma_corrida Temperatura.maior max_skipna (Some 30%Q) 3
                (Exemplos.serie_semana d0) pre x run brk post) as H.
  change (Exemplos.serie_semana d0)
    with (pre ++ (x :: run) ++ brk :: post) in H at 2 3.
  rewrite (fatia_da_corrida pre x run brk post Hs) in H.
  eexists. exists (96 # 3)%Q. split.
  - apply H; try reflexivity. simpl. lia.
  - cbn [Temperatura.inicio Temperatura.fim Temperatura.duracao
         Temperatura.temp_extrema Temperatura.temp_media].
    repeat split; try reflexivity. simpl. lia.
Qed.

(* ------------------------------------------------------------------ *)
(** ** What a detector returns *)

Section Retorno.

Import Temperatura.
Local Open Scope Z_scope.

Lemma varredura_de_eq calor limiar dias serie :
  varredura_de calor limiar dias serie
  = ondas (estado_de calor limiar dias serie serie).
Proof. now destruct calor. Qed.

Lemma detectar_retorna calor df p dias os :
  detectar_de calor df p dias = Retorna os ->
  exists limiar,
    limiar_de df p = Retorna limiar
    /\ os = varredura_de calor limiar dias (temp_diaria df)
    /\ forallb tem_inicio os = true.
Proof.
  assert (E : detectar_de calor df p dias
              = detectar (excede_de calor) (extremo_de calor) df p dias)
    by now destruct calor.
  rewrite E. unfold detectar.
  destruct (limiar_de df p) as [limiar|e]; [|discriminate].
  replace (varredura (excede_de calor) (extremo_de calor) limiar dias
             (temp_diaria df))
    with (varredura_de calor limiar dias (temp_diaria df))
    by now destruct calor.
  destruct (forallb tem_inicio _) eqn:F; [|discriminate].
  intros H. injection H as <-. exists limiar. now repeat split.
Qed.

Lemma inv_serie calor limiar dias df :
  Inv (excede_de calor) limiar dias (temp_diaria df)
      (estado_de calor limiar dias (temp_diaria df) (temp_diaria df)).
Proof. apply inv_estado, temp_diaria_ordenada. Qed.

Lemma separadas_de_antes l :
  StronglySorted antes_de l ->
  (forall e, In e l -> exists a, inicio e = Some a /\ a <= fim e) ->
  StronglySorted separadas l.
Proof.
  induction 1 as [|x t Hs IH Hf]; intros Hall; constructor.
  - apply IH. intros e He. apply Hall. now right.
  - rewrite Forall_forall in *. intros y Hy.
    destruct (Hall x (or_introl eq_refl)) as (a1 & E1 & L1).
    destruct (Hall y (or_intror Hy)) as (a2 & E2 & L2).
    unfold separadas. rewrite E1, E2. repeat split; auto.
    now apply (Hf y Hy).
Qed.

Lemma percentil_valido (l : list (option Q)) (p : Q) :
  (0 <= p)%Q -> (p <= 100)%Q ->
  exists limiar, quantile l (p / 100) = Retorna limiar.
Proof.
  intros H0 H1. unfold quantile.
  assert (Ha : Qle_bool 0 (p / 100) = true).
  { apply Qle_bool_iff. apply Qle_shift_div_l; [reflexivity|].
    now rewrite Qmult_0_l. }
  assert (Hb : Qle_bool (p / 100) 1 = true).
  { apply Qle_bool_iff. apply Qle_shift_div_r; [reflexivity|].
    now rewrite Qmult_1_l. }
  rewrite Ha, Hb. simpl.
  destruct (ordena (dropna l)); eauto.
Qed.

End Retorno.

(** C6. The events a detector returns are pairwise non-overlapping and in
    increasing order of start date: every event ends before any later one
    starts.  The detector does return for a percentile in [0, 100] and a
    minimum run of at least one day. *)
Theorem ondas_separadas_e_ordenadas
  (calor : bool) (df : Temperatura.DataFrame) (p : Q) (dias : Z) :
  (forall os, detectar_de calor df p dias = Retorna os ->
              StronglySorted separadas os)
  /\ ((0 <= p)%Q -> (p <= 100)%Q -> (1 <= dias)%Z ->
      exists os, detectar_de calor df p dias = Retorna os).
Proof.
  split.
  - intros os H. apply detectar_retorna in H as (limiar & _ & -> & Hi).
    rewrite varredura_de_eq in *.
    destruct (inv_serie calor limiar dias df) as [Hord Hfim Hini _ _ _].
    apply separadas_de_antes; [exact Hord|].
    intros e He. rewrite forallb_forall in Hi. specialize (Hi e He).
    unfold Temperatura.tem_inicio in Hi.
    destruct (Temperatura.inicio e) as [a|] eqn:Ea; [|discriminate].
    exists a. split; [reflexivity|]. now apply (Hini e a He Ea).
  - intros H0 H1 Hd.
    destruct (percentil_valido (map Temperatura.Temperatura df) p H0 H1)
      as [limiar Hl].
    exists (varredura_de calor limiar dias (Temperatura.temp_diaria df)).
    assert (Hall : forallb Temperatura.tem_inicio
                     (varredura_de calor limiar dias
                        (Temperatura.temp_diaria df)) = true).
    { apply forallb_forall. intros e He. rewrite varredura_de_eq in He.
      destruct (inv_serie calor limiar dias df) as [_ _ _ _ _ Hsome].
      specialize (Hsome Hd e He). unfold Temperatura.tem_inicio.
      now destruct (Temperatura.inicio e). }
    destruct calor;
      unfold detectar_de, Temperatura.detectar_ondas_calor,
        Temperatura.detectar_ondas_frio, Temperatura.detectar,
        Temperatura.limiar_de;
      rewrite Hl; unfold varredura_de, Temperatura.varredura_calor,
        Temperatura.varredura_frio in Hall; now rewrite Hall.
Qed.

Lemma ondas_separadas_e_ordenadas_witness :
  exists os,
    detectar_de true Exemplos.df_duas_ondas 30 2 = Retorna os
    /\ map (fun e => (Temperatura.inicio e, Temperatura.fim e)) os
       = [(Some 1, 2); (Some 4, 5)]%Z
    /\ StronglySorted separadas os.
Proof.
  destruct (ondas_separadas_e_ordenadas true Exemplos.df_duas_ondas 30 2)
    as [H1 H2].
  destruct H2 as [os Hos]; [discriminate | discriminate | lia |].
  exists os. split; [exact Hos|]. split; [|exact (H1 os Hos)].
  vm_compute in Hos. injection Hos as <-. reflexivity.
Defined.

Lemma dropna_map_Some (A : Type) (xs : list A) : dropna (map Some xs) = xs.
Proof. induction xs as [|x t IH]; simpl; [reflexivity | now f_equal]. Qed.

Lemma quantile_sem_nulos (l : list (option Q)) (q : Q) :
  quantile l q = quantile (map Some (dropna l)) q.
Proof. unfold quantile. now rewrite dropna_map_Some. Qed.

(** C4 (amended). The threshold of a detector is the given percentile of
    the whole hourly temperature column of the frame (nulls excluded), not
    of the daily means it scans; it is computed once, before the scan, and
    the same value decides every day: all scanned days inside an event
    exceed it and the day that ended the event does not. *)
Theorem limiar_unico_da_coluna_horaria
  (calor : bool) (df : Temperatura.DataFrame) (p : Q) (dias : Z)
  (os : list Temperatura.Onda) :
  detectar_de calor df p dias = Retorna os ->
  exists limiar,
    quantile (map Temperatura.Temperatura df) (p / 100) = Retorna limiar
    /\ quantile (map Some (dropna (map Temperatura.Temperatura df))) (p / 100)
       = Retorna limiar
    /\ os = varredura_de calor limiar dias (Temperatura.temp_diaria df)
    /\ (forall e a dv,
          In e os -> Temperatura.inicio e = Some a ->
          In dv (Temperatura.temp_diaria df) ->
          (a <= fst dv <= Temperatura.fim e)%Z ->
          excede_de calor (snd dv) limiar = true)
    /\ (forall e, In e os ->
          exists dv, In dv (Temperatura.temp_diaria df)
                     /\ fst dv = (Temperatura.fim e + 1)%Z
                     /\ excede_de calor (snd dv) limiar = false).
Proof.
  intros H. apply detectar_retorna in H as (limiar & Hl & -> & Hi).
  exists limiar. unfold Temperatura.limiar_de in Hl.
  split; [exact Hl|]. split; [now rewrite <- quantile_sem_nulos|].
  split; [reflexivity|].
  rewrite varredura_de_eq.
  destruct (inv_serie calor limiar dias df) as [_ Hfim Hini _ _ _].
  split.
  - intros e a dv He Ha Hdv Hr.
    destruct (Hini e a He Ha) as [_ Hq]. now apply (Hq dv).
  - intros e He. destruct (Hfim e He) as (dv & Hdv & Hq & Hf).
    exists dv. repeat split; auto. lia.
Qed.

Lemma limiar_unico_da_coluna_horaria_witness :
  exists limiar,
    quantile (map Temperatura.Temperatura Exemplos.df_duas_ondas) (30 / 100)
    = Retorna limiar
    /\ quantile (map Some (dropna (map Temperatura.Temperatura
                                     Exemplos.df_duas_ondas))) (30 / 100)
       = Retorna limiar
    /\ Temperatura.varredura_calor (Some (41 # 2)) 2
         (Temperatura.temp_diaria Exemplos.df_duas_ondas)
       = varredura_de true limiar 2
           (Temperatura.temp_diaria Exemplos.df_duas_ondas)
    /\ (forall e a dv,
          In e (Temperatura.varredura_calor (Some (41 # 2)) 2
                  (Temperatura.temp_diaria Exemplos.df_duas_ondas)) ->
          Temperatura.inicio e = Some a ->
          In dv (Temperatura.temp_diaria Exemplos.df_duas_ondas) ->
          (a <= fst dv <= Temperatura.fim e)%Z ->
          excede_de true (snd dv) limiar = true)
    /\ (forall e,
          In e (Temperatura.varredura_calor (Some (41 # 2)) 2
                  (Temperatura.temp_diaria Exemplos.df_duas_ondas)) ->
          exists dv,
            In dv (Temperatura.temp_diaria Exemplos.df_duas_ondas)
            /\ fst dv = (Temperatura.fim e + 1)%Z
            /\ excede_de true (snd dv) limiar = false).
Proof.
  apply (limiar_unico_da_coluna_horaria true Exemplos.df_duas_ondas 30 2).
  vm_compute. reflexivity.
Defined.

(** C4, as stated, fails: with readings 0 and 10 on day 1 and 20 on day 2,
    the detector's median threshold is 10, that of the hourly column, while
    the median of the daily means 5 and 20 it scans is 12.5. *)
Lemma limiar_nao_e_percentil_das_medias_diarias :
  exists l1 l2,
    Temperatura.limiar_de Exemplos.df_horario 50 = Retorna (Some l1)
    /\ quantile (map snd (Temperatura.temp_diaria Exemplos.df_horario))
                (50 / 100)
       = Retorna (Some l2)
    /\ (l1 == 10)%Q /\ (l2 == 25 # 2)%Q /\ ~ (l1 == l2)%Q.
Proof.
  eexists. eexists. split; [vm_compute; reflexivity|].
  split; [vm_compute; reflexivity|].
  split; [reflexivity|]. split; [reflexivity | discriminate].
Qed.

(** C7. A qualifying run still open when the series ends is not flushed,
    whatever its length: the events returned are those already emitted
    before the first day of that run was read, and every one of them ends
    before the run. *)
Theorem corrida_final_nao_emitida
  (calor : bool) (df : Temperatura.DataFrame) (p : Q) (dias : Z)
  (os : list Temperatura.Onda) (limiar : option Q)
  (lidos run : list (Z * option Q)) :
  detectar_de calor df p dias = Retorna os ->
  Temperatura.limiar_de df p = Retorna limiar ->
  Temperatura.temp_diaria df = lidos ++ run ->
  forallb (qualifica (excede_de calor) limiar) run = true ->
  os = Temperatura.ondas
         (estado_de calor limiar dias (Temperatura.temp_diaria df) lidos)
  /\ forall e dv, In e os -> In dv run -> (Temperatura.fim e < fst dv)%Z.
Proof.
  intros H Hl Hs Hrun.
  apply detectar_retorna in H as (limiar' & Hl' & -> & _).
  rewrite Hl in Hl'. injection Hl' as <-.
  rewrite varredura_de_eq.
  assert (E : Temperatura.ondas
                (estado_de calor limiar dias (Temperatura.temp_diaria df)
                   (Temperatura.temp_diaria df))
              = Temperatura.ondas
                  (estado_de calor limiar dias (Temperatura.temp_diaria df)
                     lidos)).
  { unfold estado_de. rewrite Hs at 2.
    rewrite estado_apos_app, corrida_estende by exact Hrun. reflexivity. }
  split; [exact E|].
  intros e dv He Hdv.
  destruct (inv_serie calor limiar dias df) as [_ Hfim _ _ _ _].
  destruct (Hfim e He) as (b & Hb & Hq & Hf).
  pose proof (temp_diaria_ordenada df) as Hord.
  rewrite Hs, map_app in Hord. apply sorted_app in Hord as (_ & _ & Hlt).
  rewrite Hs in Hb. apply in_app_iff in Hb as [Hb|Hb].
  - specialize (Hlt (fst b) (fst dv) (in_map fst _ _ Hb) (in_map fst _ _ Hdv)).
    lia.
  - rewrite forallb_forall in Hrun. rewrite (Hrun b Hb) in Hq. discriminate.
Qed.

Lemma corrida_final_nao_emitida_witness :
  exists os limiar,
    detectar_de true Exemplos.df_final_quente 10 2 = Retorna os
    /\ Temperatura.limiar_de Exemplos.df_final_quente 10 = Retorna limiar
    /\ map (fun e => (Temperatura.inicio e, Temperatura.fim e)) os
       = [(Some 1, 2)]%Z
    /\ os = Temperatura.ondas
              (estado_de true limiar 2
                 (Temperatura.temp_diaria Exemplos.df_final_quente)
                 [(1%Z, Some 31%Q); (2%Z, Some 32%Q); (3%Z, Some 10%Q)])
    /\ forall e dv,
         In e os ->
         In dv [(4%Z, Some 33%Q); (5%Z, Some 34%Q); (6%Z, Some 35%Q)] ->
         (Temperatura.fim e < fst dv)%Z.
Proof.
  eexists. eexists. split; [vm_compute; reflexivity|].
  split; [vm_compute; reflexivity|].
  split; [reflexivity|].
  apply (corrida_final_nao_emitida true Exemplos.df_final_quente 10 2).
  - vm_compute. reflexivity.
  - vm_compute. reflexivity.
  - vm_compute. reflexivity.
  - reflexivity.
Defined.

(** C10. The scan reads exactly the days that have a record in the frame
    (the index of the per-day group-by).  A calendar day without record
    lying between two neighbouring scanned days is not read: when both
    neighbours qualify, the second continues the run of the first (no event
    is emitted, the start is kept, the length grows by one), however many
    days separate them. *)
Theorem dias_ausentes_nao_sao_lidos
  (calor : bool) (df : Temperatura.DataFrame) (limiar : option Q) (dias : Z)
  (lidos : list (Z * option Q)) (d1 : Z) (v1 : option Q)
  (d2 : Z) (v2 : option Q) (resto : list (Z * option Q)) :
  Temperatura.temp_diaria df = lidos ++ (d1, v1) :: (d2, v2) :: resto ->
  excede_de calor v1 limiar = true ->
  excede_de calor v2 limiar = true ->
  let serie := Temperatura.temp_diaria df in
  let st1 := estado_de calor limiar dias serie (lidos ++ [(d1, v1)]) in
  let st2 := estado_de calor limiar dias serie
               (lidos ++ [(d1, v1); (d2, v2)]) in
  (forall d, In d (map fst serie)
             <-> exists r, In r df /\ Temperatura.Data r = Some d)
  /\ (d1 < d2)%Z
  /\ (forall d, (d1 < d < d2)%Z ->
                ~ exists r, In r df /\ Temperatura.Data r = Some d)
  /\ Temperatura.ondas st2 = Temperatura.ondas st1
  /\ Temperatura.inicio_aberto st2 = Temperatura.inicio_aberto st1
  /\ Temperatura.inicio_aberto st1 <> None
  /\ Temperatura.duracao_aberta st2
     = (Temperatura.duracao_aberta st1 + 1)%Z.
Proof.
  intros Hs Hq1 Hq2 serie st1 st2.
  assert (Hidx : forall d, In d (map fst serie)
             <-> exists r, In r df /\ Temperatura.Data r = Some d).
  { intros d. unfold serie. rewrite temp_diaria_dias. apply chaves_In. }
  pose proof (temp_diaria_ordenada df) as Hord.
  rewrite Hs, map_app in Hord. apply sorted_app in Hord as (_ & Hord & Hlt).
  simpl in Hord. inversion Hord as [|? ? Hord2 Hf1]; subst.
  inversion Hord2 as [|? ? _ Hf2]; subst.
  rewrite Forall_forall in Hf1, Hf2.
  assert (H12 : (d1 < d2)%Z) by (apply Hf1; now left).
  split; [exact Hidx|]. split; [exact H12|]. split.
  - intros d Hd Hr. apply Hidx in Hr. unfold serie in Hr.
    rewrite Hs, map_app, in_app_iff in Hr. simpl in Hr.
    destruct Hr as [Hr|[Hr|[Hr|Hr]]]; try lia.
    + specialize (Hlt d d1 Hr (or_introl eq_refl)). lia.
    + specialize (Hf2 d Hr). lia.
  - assert (E2 : st2 = Temperatura.passo (extremo_de calor) dias serie st1
                         (d2, true)).
    { unfold st2, st1, estado_de.
      change (lidos ++ [(d1, v1); (d2, v2)])
        with (lidos ++ [(d1, v1)] ++ [(d2, v2)]).
      rewrite app_assoc, estado_apos_snoc. unfold qualifica. simpl.
      now rewrite Hq2. }
    assert (E1 : st1 = Temperatura.passo (extremo_de calor) dias serie
                         (estado_de calor limiar dias serie lidos)
                         (d1, true)).
    { unfold st1, estado_de. rewrite estado_apos_snoc.
      unfold qualifica. simpl. now rewrite Hq1. }
    assert (Hi : Temperatura.inicio_aberto st1 <> None).
    { rewrite E1. simpl.
      now destruct (Temperatura.inicio_aberto
                      (estado_de calor limiar dias serie lidos)). }
    rewrite E2. simpl. repeat split; auto.
    now destruct (Temperatura.inicio_aberto st1).
Qed.

Lemma dias_ausentes_nao_sao_lidos_witness :
  let serie := Temperatura.temp_diaria Exemplos.df_salto in
  let st1 := estado_de true (Some 30%Q) 3 serie
               ([(1%Z, Some 31%Q)] ++ [(2%Z, Some 32%Q)]) in
  let st2 := estado_de true (Some 30%Q) 3 serie
               ([(1%Z, Some 31%Q)] ++ [(2%Z, Some 32%Q); (9%Z, Some 33%Q)]) in
  (forall d, In d (map fst serie)
             <-> exists r, In r Exemplos.df_salto
                           /\ Temperatura.Data r = Some d)
  /\ (2 < 9)%Z
  /\ (forall d, (2 < d < 9)%Z ->
                ~ exists r, In r Exemplos.df_salto
                            /\ Temperatura.Data r = Some d)
  /\ Temperatura.ondas st2 = Temperatura.ondas st1
  /\ Temperatura.inicio_aberto st2 = Temperatura.inicio_aberto st1
  /\ Temperatura.inicio_aberto st1 <> None
  /\ Temperatura.duracao_aberta st2
     = (Temperatura.duracao_aberta st1 + 1)%Z.
Proof.
  apply (dias_ausentes_nao_sao_lidos true Exemplos.df_salto (Some 30%Q) 3
           [(1%Z, Some 31%Q)] 2 (Some 32%Q) 9 (Some 33%Q)
           [(10%Z, Some 10%Q)]).
  - vm_compute. reflexivity.
  - reflexivity.
  - reflexivity.
Defined.

(* ------------------------------------------------------------------ *)
(** ** The missingness report *)

Section Faltantes.

Import Analise1.
Local Open Scope Z_scope.

Lemma nth_error_enumera (A : Type) (l : list A) : forall a i c,
  nth_error l i = Some c ->
  nth_error (combine (seq a (length l)) l) i = Some ((a + i)%nat, c).
Proof.
  induction l as [|x t IH]; intros a i c H.
  - destruct i; discriminate.
  - destruct i as [|j]; simpl in *.
    + injection H as <-. now rewrite Nat.add_0_r.
    + rewrite (IH (S a) j c H). f_equal. f_equal. lia.
Qed.

Lemma conta_na_coluna df i :
  conta_na (coluna_em i df)
  = Z.of_nat (length (filter (fun r => isna (nth i r NaN)) (linhas df))).
Proof.
  unfold conta_na, coluna_em. f_equal.
  induction (linhas df) as [|r t IH]; simpl; [reflexivity|].
  destruct (isna (nth i r NaN)); simpl; now rewrite IH.
Qed.

End Faltantes.

(** C9 (amended). For every column, the report's count is the number of rows
    whose own cell in that column is null (a null timestamp makes a row
    count for the ['datetime'] column only), and its percentage is that
    count divided by the number of all rows, times 100; with no row at all
    the percentage is not a number. *)
Theorem missing_report_conta_por_coluna
  (df : Analise1.DataFrame) (i : nat) (c : pystr) :
  nth_error (Analise1.columns df) i = Some c ->
  exists row,
    nth_error (Analise1.missing_report df) i = Some row
    /\ Analise1.variavel row = c
    /\ Analise1.missing_count row
       = Z.of_nat (length (filter
                             (fun r => Analise1.isna (nth i r Analise1.NaN))
                             (Analise1.linhas df)))
    /\ ((0 < Analise1.len df)%Z ->
        exists pct,
          Analise1.missing_pct row = Some pct
          /\ (pct == inject_Z (Analise1.missing_count row)
                     / inject_Z (Analise1.len df) * 100)%Q)
    /\ (Analise1.len df = 0%Z -> Analise1.missing_pct row = None).
Proof.
  intros H. unfold Analise1.missing_report.
  eexists. split.
  - apply map_nth_error. apply (nth_error_enumera _ _ 0%nat), H.
  - cbn [Analise1.variavel Analise1.missing_count Analise1.missing_pct
         fst snd Nat.add].
    split; [reflexivity|]. split; [apply conta_na_coluna|].
    unfold Analise1.div_float. split.
    + intros Hpos.
      assert (E : Qeq_bool (inject_Z (Analise1.len df)) 0 = false).
      { apply not_true_is_false. intros E. apply Qeq_bool_iff in E.
        change 0%Q with (inject_Z 0) in E.
        rewrite inject_Z_injective in E. lia. }
      rewrite E. eexists. split; [reflexivity|]. reflexivity.
    + intros ->. reflexivity.
Qed.

Lemma missing_report_conta_por_coluna_witness :
  exists row,
    nth_error (Analise1.missing_report
                 {| Analise1.columns := [cp "temp"; cp "datetime"];
                    Analise1.linhas :=
                      [[Analise1.Num 25; Analise1.Tempo 0];
                       [Analise1.NaN; Analise1.Tempo 60];
                       [Analise1.Num 26; Analise1.NaT]] |}) 0
    = Some row
    /\ Analise1.variavel row = cp "temp"
    /\ Analise1.missing_count row = 1%Z
    /\ ((0 < 3)%Z ->
        exists pct,
          Analise1.missing_pct row = Some pct
          /\ (pct == inject_Z (Analise1.missing_count row) / inject_Z 3 * 100)%Q)
    /\ (3%Z = 0%Z -> Analise1.missing_pct row = None).
Proof.
  apply (missing_report_conta_por_coluna
           {| Analise1.columns := [cp "temp"; cp "datetime"];
              Analise1.linhas :=
                [[Analise1.Num 25; Analise1.Tempo 0];
                 [Analise1.NaN; Analise1.Tempo 60];
                 [Analise1.Num 26; Analise1.NaT]] |} 0 (cp "temp")).
  reflexivity.
Defined.

(** C9, as stated, fails: in the frame read from an export whose second
    record has an unreadable date and a good temperature, the report counts
    no null for the temperature, although that row has a null timestamp. *)
Lemma linha_sem_instante_nao_conta_como_nula :
  exists df,
    Analise1.load_data PandasRef.pandas_ref Exemplos.csv_data_ruim
    = Retorna df
    /\ map (fun r => nth 3 r Analise1.NaN) (Analise1.linhas df)
       = [Analise1.Tempo 28401120; Analise1.NaT]
    /\ map Analise1.missing_count (Analise1.missing_report df)
       = [0; 0; 0; 1]%Z
    /\ null_count_do_texto df 3 2 = 1%Z.
Proof.
  eexists. split; [vm_compute; reflexivity|].
  split; [reflexivity|]. split; reflexivity.
Qed.

(* ------------------------------------------------------------------ *)
(** ** Loading *)

Section Carga.

Import Analise1.

Variable pd : Pandas.

Lemma converte_varios alvo : forall df,
  columns (fold_left (fun d (ic : nat * pystr) => converte pd (fst ic) d)
                     alvo df) = columns df
  /\ length (linhas (fold_left
                       (fun d (ic : nat * pystr) => converte pd (fst ic) d)
                       alvo df))
     = length (linhas df).
Proof.
  induction alvo as [|ic t IH]; intros df; simpl; [now split|].
  destruct (IH (converte pd (fst ic) df)) as [-> ->].
  simpl. now rewrite length_map.
Qed.

Lemma posicao_ausente c cols :
  existsb (PyStr.eqb c) cols = false -> posicao c cols = None.
Proof.
  induction cols as [|x t IH]; simpl; [reflexivity|].
  destruct (PyStr.eqb c x); simpl; [discriminate|].
  intros H. now rewrite IH.
Qed.

Lemma repetidos_no_alvo (P : pystr -> bool) (cols : list pystr) : forall a,
  existsb (fun ic : nat * pystr => P (snd ic))
          (filter (fun ic => negb (excluida (snd ic)))
                  (combine (seq a (length cols)) cols))
  = existsb (fun c => negb (excluida c) && P c) cols.
Proof.
  induction cols as [|x t IH]; intros a; simpl; [reflexivity|].
  destruct (excluida x); simpl; now rewrite IH.
Qed.

End Carga.

(** C8 (amended). When the normalised header lacks ['data'] or
    ['hora_utc'], [load_data] reports no missing field: it skips the
    construction of the time axis and returns the table with the normalised
    labels and all its rows, without adding a ['datetime'] column, so that
    [daily_aggregates] returns [None] for it.  The only exception it can
    raise then is the [AttributeError] of a repeated measured label. *)
Theorem load_data_sem_eixo_temporal
  (pd : Analise1.Pandas) (csv : Analise1.Csv) :
  let cols := map clean_col_name (Analise1.cabecalho csv) in
  tem_eixo_temporal cols = false ->
  (rotulos_repetidos cols = true
   /\ Analise1.load_data pd csv = Levanta AttributeError)
  \/
  (rotulos_repetidos cols = false
   /\ exists df,
        Analise1.load_data pd csv = Retorna df
        /\ Analise1.columns df = cols
        /\ length (Analise1.linhas df) = length (Analise1.registros csv)
        /\ (existsb (PyStr.eqb Analise1.nome_datetime) cols = false ->
            Analise1.tem_coluna Analise1.nome_datetime df = false
            /\ Analise1.daily_aggregates df = Retorna None)).
Proof.
  intros cols H.
  set (df0 := {| Analise1.columns := cols;
                 Analise1.linhas :=
                   map (map Analise1.de_csv) (Analise1.registros csv) |}).
  assert (E : Analise1.tem_coluna Analise1.nome_data df0
              && Analise1.tem_coluna Analise1.nome_hora_utc df0 = false)
    by exact H.
  unfold Analise1.load_data. fold cols. fold df0. rewrite E.
  cbn [Analise1.columns df0].
  rewrite (repetidos_no_alvo
             (fun c => (1 <? Analise1.ocorrencias c cols)%nat) cols 0).
  fold (rotulos_repetidos cols).
  destruct (rotulos_repetidos cols); [left; now split | right].
  split; [reflexivity|].
  eexists. split; [reflexivity|].
  match goal with
  | |- context [fold_left ?f ?alvo ?df] =>
      destruct (converte_varios pd alvo df) as [Hc Hl]
  end.
  rewrite Hc, Hl. cbn [Analise1.columns Analise1.linhas].
  split; [reflexivity|]. split; [apply length_map|].
  intros Hd. unfold Analise1.tem_coluna, Analise1.daily_aggregates.
  rewrite Hc. change (Analise1.columns df0) with cols.
  rewrite Hd, (posicao_ausente _ _ Hd). now split.
Qed.

Lemma load_data_sem_eixo_temporal_witness :
  (rotulos_repetidos
     (map clean_col_name (Analise1.cabecalho Exemplos.csv_sem_hora)) = true
   /\ Analise1.load_data PandasRef.pandas_ref Exemplos.csv_sem_hora
      = Levanta AttributeError)
  \/
  (rotulos_repetidos
     (map clean_col_name (Analise1.cabecalho Exemplos.csv_sem_hora)) = false
   /\ exists df,
        Analise1.load_data PandasRef.pandas_ref Exemplos.csv_sem_hora
        = Retorna df
        /\ Analise1.columns df
           = map clean_col_name (Analise1.cabecalho Exemplos.csv_sem_hora)
        /\ length (Analise1.linhas df)
           = length (Analise1.registros Exemplos.csv_sem_hora)
        /\ (existsb (PyStr.eqb Analise1.nome_datetime)
              (map clean_col_name (Analise1.cabecalho Exemplos.csv_sem_hora))
            = false ->
            Analise1.tem_coluna Analise1.nome_datetime df = false
            /\ Analise1.daily_aggregates df = Retorna None)).
Proof.
  apply (load_data_sem_eixo_temporal PandasRef.pandas_ref
           Exemplos.csv_sem_hora).
  reflexivity.
Defined.

(** C8, as stated, fails: an export without the hour column is loaded
    without any error; the frame returned has no ['datetime'] column. *)
Lemma load_data_nao_falha_sem_hora :
  Analise1.load_data PandasRef.pandas_ref Exemplos.csv_sem_hora
  = Retorna
      {| Analise1.columns := [cp "data"; cp "temperatura_c"];
         Analise1.linhas :=
           [[Analise1.Str (cp "2024/01/01"); Analise1.Num (253 # 10)];
            [Analise1.Str (cp "2024/01/02"); Analise1.Num (265 # 10)]] |}
  /\ tem_eixo_temporal
       (map clean_col_name (Analise1.cabecalho Exemplos.csv_sem_hora))
     = false.
Proof. split; vm_compute; reflexivity. Qed.

(* ------------------------------------------------------------------ *)
(** ** Daily aggregates *)

Section Diarios.

Import Analise1.
Local Open Scope Z_scope.

Lemma dropna_In (A : Type) (l : list (option A)) x :
  In x (dropna l) <-> In (Some x) l.
Proof.
  induction l as [|[y|] t IH]; simpl.
  - tauto.
  - rewrite IH. split; intros [H|H]; auto; left; congruence.
  - rewrite IH. split; [auto | intros [H|H]; [discriminate | auto]].
Qed.

Lemma zmin_lista_menor l :
  l <> [] ->
  exists m, zmin_lista l = Some m /\ In m l /\ forall x, In x l -> m <= x.
Proof.
  induction l as [|x t IH]; [congruence|]. intros _. simpl.
  destruct t as [|y t'].
  - exists x. simpl. repeat split; auto. intros z [<-|[]]. lia.
  - destruct IH as (m & -> & Hin & Hle); [discriminate|].
    exists (Z.min x m). split; [reflexivity|]. split.
    + destruct (Z.min_spec x m) as [[_ ->]|[_ ->]]; [now left | now right].
    + intros z [<-|Hz]; [lia|]. specialize (Hle z Hz). lia.
Qed.

Lemma zmax_lista_maior l :
  l <> [] ->
  exists m, zmax_lista l = Some m /\ In m l /\ forall x, In x l -> x <= m.
Proof.
  induction l as [|x t IH]; [congruence|]. intros _. simpl.
  destruct t as [|y t'].
  - exists x. simpl. repeat split; auto. intros z [<-|[]]. lia.
  - destruct IH as (m & -> & Hin & Hle); [discriminate|].
    exists (Z.max x m). split; [reflexivity|]. split.
    + destruct (Z.max_spec x m) as [[_ ->]|[_ ->]]; [now right | now left].
    + intros z [<-|Hz]; [lia|]. specialize (Hle z Hz). lia.
Qed.

Lemma date_range_In a b d : In d (date_range a b) <-> a <= d <= b.
Proof.
  unfold date_range. rewrite in_map_iff. split.
  - intros (k & <- & Hk). apply in_seq in Hk. lia.
  - intros H. exists (Z.to_nat (d - a)). split; [lia|].
    apply in_seq. lia.
Qed.

Lemma date_range_NoDup a b : NoDup (date_range a b).
Proof.
  unfold date_range. generalize (Z.to_nat (b - a + 1)) as n.
  intros n. generalize 0%nat as s.
  induction n as [|n IH]; intros s; simpl; constructor.
  - rewrite in_map_iff. intros (k & Hk & Hin). apply in_seq in Hin. lia.
  - apply IH.
Qed.

Lemma find_no_indice (g : Z -> option Q) (idx : list Z) d :
  In d idx ->
  find (fun dv : Z * option Q => fst dv =? d) (combine idx (map g idx))
  = Some (d, g d).
Proof.
  induction idx as [|x t IH]; simpl; [tauto|].
  intros H. destruct (Z.eqb_spec x d) as [->|Hne]; [reflexivity|].
  destruct H as [H|H]; [contradiction | auto].
Qed.

End Diarios.

(** C1 (amended). For a frame with a ['datetime'] column holding at least
    one non-null timestamp, the daily table has exactly one row for each
    calendar day from the day of the earliest timestamp to the day of the
    latest, inclusive.  On a day without any non-null observation the
    temperature mean, maximum and minimum are null, whereas the
    precipitation sum is 0. *)
Theorem agregados_diarios
  (df : Analise1.DataFrame) (pos_dt : nat) (t0 : Z) :
  Analise1.posicao Analise1.nome_datetime (Analise1.columns df)
  = Some pos_dt ->
  In (Some t0) (Analise1.instantes df pos_dt) ->
  exists diario lo hi,
    Analise1.daily_aggregates df = Retorna (Some diario)
    /\ In (Some lo) (Analise1.instantes df pos_dt)
    /\ In (Some hi) (Analise1.instantes df pos_dt)
    /\ (forall t, In (Some t) (Analise1.instantes df pos_dt) ->
                  (lo <= t <= hi)%Z)
    /\ NoDup (Analise1.indice diario)
    /\ (forall d, In d (Analise1.indice diario)
                  <-> (Analise1.dia_de lo <= d <= Analise1.dia_de hi)%Z)
    /\ (forall c i d,
          hd_error (filter (contains Analise1.palavra_precip)
                           (Analise1.columns df)) = Some c ->
          Analise1.posicao c (Analise1.columns df) = Some i ->
          In d (Analise1.indice diario) ->
          dropna (Analise1.valores_do_dia df pos_dt i d) = [] ->
          Analise1.consulta diario (cp "precip_total_sum_mm") d
          = Some (Some 0%Q))
    /\ (forall c i d,
          hd_error (filter (fun c => contains Analise1.palavra_temperatura c
                                     && negb (contains Analise1.palavra_orvalho c))
                           (Analise1.columns df)) = Some c ->
          Analise1.posicao c (Analise1.columns df) = Some i ->
          In d (Analise1.indice diario) ->
          dropna (Analise1.valores_do_dia df pos_dt i d) = [] ->
          Analise1.consulta diario (cp "temp_mean_c") d = Some None
          /\ Analise1.consulta diario (cp "temp_max_c") d = Some None
          /\ Analise1.consulta diario (cp "temp_min_c") d = Some None).
Proof.
  intros Hpos Ht0. unfold Analise1.daily_aggregates. rewrite Hpos.
  assert (Hne : dropna (Analise1.instantes df pos_dt) <> []).
  { apply dropna_In in Ht0. intros E. rewrite E in Ht0. destruct Ht0. }
  destruct (zmin_lista_menor _ Hne) as (lo & -> & Hlo & Hmin).
  destruct (zmax_lista_maior _ Hne) as (hi & -> & Hhi & Hmax).
  eexists. exists lo, hi. split; [reflexivity|].
  cbn [Analise1.indice Analise1.colunas_diarias].
  split; [now apply dropna_In|]. split; [now apply dropna_In|].
  split.
  { intros t Ht. apply dropna_In in Ht. split; auto. }
  split; [apply date_range_NoDup|].
  split; [intros d; apply date_range_In|].
  split.
  - intros c i d Hc Hi Hd Hv. unfold Analise1.consulta.
    cbn [Analise1.indice Analise1.colunas_diarias].
    destruct (filter (contains Analise1.palavra_precip) (Analise1.columns df))
      as [|c' r]; [discriminate|].
    injection Hc as ->. rewrite Hi.
    cbn [app find fst snd].
    change (PyStr.eqb (cp "precip_total_sum_mm") (cp "precip_total_sum_mm"))
      with true.
    cbv iota. cbn [snd]. unfold Analise1.resample.
    rewrite find_no_indice by exact Hd.
    cbn [snd]. unfold sum_skipna. now rewrite Hv.
  - intros c i d Hc Hi Hd Hv. unfold Analise1.consulta.
    cbn [Analise1.indice Analise1.colunas_diarias].
    destruct (filter _ (Analise1.columns df)) as [|c' r] eqn:Ef in Hc;
      [discriminate|].
    rewrite Ef. injection Hc as ->. rewrite Hi.
    assert (Hmean : mean_skipna (Analise1.valores_do_dia df pos_dt i d) = None)
      by now apply mean_skipna_vazio.
    assert (Hmx : max_skipna (Analise1.valores_do_dia df pos_dt i d) = None)
      by (unfold max_skipna; now rewrite Hv).
    assert (Hmn : min_skipna (Analise1.valores_do_dia df pos_dt i d) = None)
      by (unfold min_skipna; now rewrite Hv).
    destruct (filter (contains Analise1.palavra_precip) (Analise1.columns df))
      as [|cp' rp];
      cbn [app find fst snd];
      repeat match goal with
             | |- context [PyStr.eqb (cp ?a) (cp ?b)] =>
                 let v := eval vm_compute in (PyStr.eqb (cp a) (cp b)) in
                 change (PyStr.eqb (cp a) (cp b)) with v
             end;
      cbv iota; cbn [snd]; unfold Analise1.resample;
      rewrite !find_no_indice by exact Hd;
      cbn [snd]; now rewrite Hmean, Hmx, Hmn.
Qed.

Lemma agregados_diarios_witness :
  exists diario,
    Analise1.load_data PandasRef.pandas_ref Exemplos.csv_chuva
    = Retorna Exemplos.df_chuva
    /\ Analise1.daily_aggregates Exemplos.df_chuva = Retorna (Some diario)
    /\ Analise1.indice diario = [19723; 19724; 19725]%Z
    /\ NoDup (Analise1.indice diario)
    /\ Analise1.consulta diario (cp "temp_mean_c") 19724%Z = Some None
    /\ Analise1.consulta diario (cp "temp_max_c") 19724%Z = Some None
    /\ Analise1.consulta diario (cp "temp_min_c") 19724%Z = Some None.
Proof.
  destruct (agregados_diarios Exemplos.df_chuva 4 28401120 eq_refl
              (or_introl eq_refl))
    as (diario & lo & hi & Hd & _ & _ & _ & Hnd & _ & _ & Ht).
  exists diario. split; [reflexivity|]. split; [exact Hd|].
  assert (Hi : Analise1.indice diario = [19723; 19724; 19725]%Z).
  { vm_compute in Hd. injection Hd as <-. reflexivity. }
  split; [exact Hi|]. split; [exact Hnd|].
  apply (Ht (cp "temperatura_do_ar_bulbo_seco_horaria_c") 3%nat 19724%Z).
  - reflexivity.
  - reflexivity.
  - rewrite Hi. simpl. auto.
  - reflexivity.
Defined.

(** C1, as stated, fails for the precipitation sum: no record is stamped
    2024-01-02 (day 19724) in the sample export, and the daily table holds
    0 for that day, not null. *)
Lemma soma_de_dia_sem_registro_e_zero :
  exists diario,
    Analise1.daily_aggregates Exemplos.df_chuva = Retorna (Some diario)
    /\ Analise1.indice diario = [19723; 19724; 19725]%Z
    /\ Analise1.valores_do_dia Exemplos.df_chuva 4 2 19724%Z = []
    /\ Analise1.consulta diario (cp "precip_total_sum_mm") 19724%Z
       = Some (Some 0%Q).
Proof.
  eexists. split; [vm_compute; reflexivity|].
  split; [reflexivity|]. split; reflexivity.
Qed.

(* ------------------------------------------------------------------ *)
(** ** Durations, left ends and values of the events *)

Section Laco2.

Import Temperatura.
Local Open Scope Z_scope.

Variable excede : option Q -> option Q -> bool.
Variable extremo : list (option Q) -> option Q.
Variable limiar : option Q.
Variable dias_consecutivos : Z.
Variable serie : list (Z * option Q).

Local Abbreviation apos :=
  (estado_apos excede extremo limiar dias_consecutivos serie).
Local Abbreviation qual := (qualifica excede limiar).

Lemma fatia_snoc_fora a f (p : list (Z * option Q)) (x : Z * option Q) :
  f < fst x -> fatia a f (p ++ [x]) = fatia a f p.
Proof.
  intros H. unfold fatia. rewrite filter_app. simpl.
  replace (fst x <=? f) with false by (symmetry; apply Z.leb_gt; lia).
  rewrite andb_false_r. apply app_nil_r.
Qed.

Lemma filter_igual {A : Type} (f g : A -> bool) l :
  (forall x, In x l -> f x = g x) -> filter f l = filter g l.
Proof.
  induction l as [|x t IH]; simpl; intros H; [reflexivity|].
  rewrite (H x) by now left. destruct (g x); [f_equal|]; auto.
Qed.

Lemma passo_inv2 p dv :
  (forall x, In x p -> fst x < fst dv) ->
  Inv excede limiar dias_consecutivos p (apos p) ->
  Inv2 excede extremo limiar dias_consecutivos serie p (apos p) ->
  Inv2 excede extremo limiar dias_consecutivos serie (p ++ [dv])
       (apos (p ++ [dv])).
Proof.
  intros Hlt [_ Hfim _ Hab Hdur _] [Hd He Hv Ha Hf].
  assert (Hdepois : forall e, In e (ondas (apos p)) -> fim e < fst dv).
  { intros e Hin. destruct (Hfim e Hin) as (y & Hy & _ & Hfy).
    specialize (Hlt y Hy). lia. }
  assert (Hq : forall (q : list (Z * option Q)) x a,
             quebra_entre excede limiar q x a ->
             quebra_entre excede limiar (q ++ [dv]) x a).
  { intros q x a (y & Hy & Hr & Hqy). exists y. rewrite in_app_iff. auto. }
  rewrite estado_apos_snoc. set (st := apos p) in *.
  unfold passo. destruct (qual dv) eqn:Q.
  - (* the day extends the run *)
    constructor; cbn [ondas inicio_aberto duracao_aberta].
    + intros e a Hin Hi. destruct (Hd e a Hin Hi) as [H1 H2].
      split; [exact H1|]. rewrite fatia_snoc_fora; auto.
    + intros e a Hin Hi. destruct (He e a Hin Hi) as [H1 H2]. split.
      * rewrite map_app, in_app_iff. now left.
      * intros x Hx Hxa. apply in_app_iff in Hx as [Hx|[<-|[]]].
        -- apply Hq. auto.
        -- apply in_map_iff in H1 as (y & <- & Hy). specialize (Hlt y Hy). lia.
    + exact Hv.
    + intros i Hi. rewrite filter_app. simpl.
      destruct (inicio_aberto st) as [j|] eqn:E.
      * injection Hi as <-. destruct (Ha j eq_refl) as [H1 H2].
        destruct (Hab j eq_refl) as (Hj & _ & _).
        apply in_map_iff in Hj as (y & <- & Hy). pose proof (Hlt y Hy).
        replace (fst y <=? fst dv) with true
          by (symmetry; apply Z.leb_le; lia).
        rewrite length_app, H1. simpl. split; [lia|].
        intros x Hx Hxa. apply in_app_iff in Hx as [Hx|[<-|[]]]; [|lia].
        apply Hq. auto.
      * injection Hi as <-.
        rewrite (filter_nada (fun x => fst dv <=? fst x) p).
        2:{ intros x Hx. apply Z.leb_gt. auto. }
        rewrite Z.leb_refl. simpl.
        destruct Hdur as [_ Hn]. rewrite (proj1 Hn eq_refl). split; [lia|].
        intros x Hx Hxa. apply in_app_iff in Hx as [Hx|[<-|[]]]; [|lia].
        destruct (Hf eq_refl x Hx) as (y & Hy & Hle & Hqy).
        exists y. rewrite in_app_iff. pose proof (Hlt y Hy).
        repeat split; auto; lia.
    + destruct (inicio_aberto st); discriminate.
  - (* the day breaks the run *)
    assert (Hnew : forall e,
      In e (if dias_consecutivos <=? duracao_aberta st
            then ondas st ++ [onda_ate extremo serie st (fst dv)]
            else ondas st) ->
      In e (ondas st) \/
      (e = onda_ate extremo serie st (fst dv)
       /\ dias_consecutivos <= duracao_aberta st)).
    { intros e. destruct (Z.leb_spec dias_consecutivos (duracao_aberta st)).
      - rewrite in_app_iff. simpl. intuition.
      - auto. }
    constructor; cbn [ondas inicio_aberto duracao_aberta].
    + intros e a Hin Hi. apply Hnew in Hin as [Hin|[-> Hge]].
      * destruct (Hd e a Hin Hi) as [H1 H2].
        split; [exact H1|]. rewrite fatia_snoc_fora; auto.
      * cbn [onda_ate inicio fim duracao] in *.
        destruct (Ha a Hi) as [H1 _]. split; [exact Hge|].
        rewrite H1. f_equal. f_equal.
        rewrite fatia_snoc_fora by lia. unfold fatia.
        apply filter_igual. intros x Hx. pose proof (Hlt x Hx).
        replace (fst x <=? fst dv - 1) with true
          by (symmetry; apply Z.leb_le; lia).
        now rewrite andb_true_r.
    + intros e a Hin Hi. apply Hnew in Hin as [Hin|[-> Hge]].
      * destruct (He e a Hin Hi) as [H1 H2]. split.
        -- rewrite map_app, in_app_iff. now left.
        -- intros x Hx Hxa. apply in_app_iff in Hx as [Hx|[<-|[]]].
           ++ apply Hq. auto.
           ++ apply in_map_iff in H1 as (y & <- & Hy).
              specialize (Hlt y Hy). lia.
      * cbn [onda_ate inicio] in Hi.
        destruct (Hab a Hi) as (Hj & _ & _). destruct (Ha a Hi) as [_ H2].
        split; [rewrite map_app, in_app_iff; now left|].
        intros x Hx Hxa. apply in_app_iff in Hx as [Hx|[<-|[]]].
        -- apply Hq. auto.
        -- apply in_map_iff in Hj as (y & <- & Hy).
           specialize (Hlt y Hy). lia.
    + intros e Hin. apply Hnew in Hin as [Hin|[-> _]]; [auto|].
      now split.
    + discriminate.
    + intros _ x Hx. exists dv. rewrite in_app_iff. simpl.
      repeat split; auto.
      apply in_app_iff in Hx as [Hx|[<-|[]]]; [|lia].
      specialize (Hlt x Hx). lia.
Qed.

Lemma inv2_estado p :
  StronglySorted Z.lt (map fst p) ->
  Inv2 excede extremo limiar dias_consecutivos serie p (apos p).
Proof.
  induction p as [|dv p IH] using rev_ind; intros H.
  - constructor; simpl; try tauto; discriminate.
  - apply sorted_snoc in H as [Hs Hlt].
    apply passo_inv2; auto. now apply inv_estado.
Qed.

End Laco2.

Section FatosOndas.

Import Temperatura.
Local Open Scope Z_scope.

Lemma inv2_serie calor limiar dias df :
  Inv2 (excede_de calor) (extremo_de calor) limiar dias (temp_diaria df)
       (temp_diaria df)
       (estado_de calor limiar dias (temp_diaria df) (temp_diaria df)).
Proof. apply inv2_estado, temp_diaria_ordenada. Qed.

Lemma sorted_no_intervalo (l : list Z) : forall a f,
  StronglySorted Z.lt l ->
  (forall x, In x l -> a <= x <= f) ->
  Z.of_nat (length l) <= Z.max 0 (f - a + 1).
Proof.
  induction l as [|x t IH]; intros a f Hs Hin; simpl length; [lia|].
  inversion Hs as [|? ? Hs' Hf]; subst. rewrite Forall_forall in Hf.
  assert (Hx : a <= x <= f) by (apply Hin; now left).
  assert (Ht : Z.of_nat (length t) <= Z.max 0 (f - (x + 1) + 1)).
  { apply IH; [exact Hs'|]. intros y Hy.
    specialize (Hf y Hy). specialize (Hin y (or_intror Hy)). lia. }
  lia.
Qed.

Lemma sorted_filter (f : Z -> bool) (l : list Z) :
  StronglySorted Z.lt l -> StronglySorted Z.lt (filter f l).
Proof.
  induction 1 as [|x t Hs IH Hf]; simpl; [constructor|].
  destruct (f x); [|exact IH]. constructor; [exact IH|].
  rewrite Forall_forall in *. intros y Hy.
  apply filter_In in Hy as [Hy _]. auto.
Qed.

Lemma fatia_dias a f (p : list (Z * option Q)) :
  map fst (fatia (Some a) f p)
  = filter (fun d => (a <=? d) && (d <=? f)) (map fst p).
Proof.
  unfold fatia. induction p as [|x t IH]; simpl; [reflexivity|].
  destruct ((a <=? fst x) && (fst x <=? f)); simpl; now rewrite IH.
Qed.

Lemma fatia_comprimento a f (p : list (Z * option Q)) :
  StronglySorted Z.lt (map fst p) ->
  Z.of_nat (length (fatia (Some a) f p)) <= Z.max 0 (f - a + 1).
Proof.
  intros Hs. rewrite <- (length_map fst), fatia_dias.
  apply sorted_no_intervalo; [now apply sorted_filter|].
  intros x Hx. apply filter_In in Hx as [_ Hx].
  apply andb_prop in Hx as [H1 H2].
  apply Z.leb_le in H1, H2. lia.
Qed.

Lemma fatia_In a f (p : list (Z * option Q)) dv :
  In dv (fatia a f p)
  <-> In dv p /\ match a with Some i => i <= fst dv | None => True end
      /\ fst dv <= f.
Proof.
  unfold fatia. rewrite filter_In, andb_true_iff, Z.leb_le.
  destruct a as [i|]; [rewrite Z.leb_le|]; intuition.
Qed.

Lemma retorno_com_limiar calor df p dias os :
  detectar_de calor df p dias = Retorna os ->
  exists limiar,
    limiar_de df p = Retorna limiar
    /\ os = ondas (estado_de calor limiar dias (temp_diaria df)
                     (temp_diaria df))
    /\ forall e, In e os -> exists a, inicio e = Some a.
Proof.
  intros H. apply detectar_retorna in H as (limiar & Hl & -> & Hi).
  exists limiar. rewrite varredura_de_eq in *. repeat split; auto.
  intros e He. rewrite forallb_forall in Hi. specialize (Hi e He).
  unfold tem_inicio in Hi. destruct (inicio e); [eauto | discriminate].
Qed.

End FatosOndas.

(** X1. Every event a detector returns lasts at least the minimum run
    length and at least one day; its duration is the number of scanned days
    from its start to its end, which is at most the number of calendar days
    of that interval. *)
Theorem duracao_das_ondas
  (calor : bool) (df : Temperatura.DataFrame) (p : Q) (dias : Z)
  (os : list Temperatura.Onda) (e : Temperatura.Onda) :
  detectar_de calor df p dias = Retorna os ->
  In e os ->
  exists a,
    Temperatura.inicio e = Some a
    /\ (dias <= Temperatura.duracao e)%Z
    /\ (1 <= Temperatura.duracao e)%Z
    /\ Temperatura.duracao e
       = Z.of_nat (length (Temperatura.fatia (Some a) (Temperatura.fim e)
                             (Temperatura.temp_diaria df)))
    /\ (Temperatura.duracao e <= Temperatura.fim e - a + 1)%Z.
Proof.
  intros H He. apply retorno_com_limiar in H as (limiar & _ & -> & Hi).
  destruct (Hi e He) as [a Ha]. exists a.
  destruct (inv_serie calor limiar dias df) as [_ _ Hini _ _ _].
  destruct (inv2_serie calor limiar dias df) as [Hd Hesq _ _ _].
  destruct (Hd e a He Ha) as [H1 H2].
  destruct (Hini e a He Ha) as [H3 _].
  destruct (Hesq e a He Ha) as [H4 _].
  pose proof (fatia_comprimento a (Temperatura.fim e) _
                (temp_diaria_ordenada df)) as H5.
  assert (H6 : (1 <= Z.of_nat (length (Temperatura.fatia (Some a)
                       (Temperatura.fim e) (Temperatura.temp_diaria df))))%Z).
  { apply in_map_iff in H4 as (dv & Hf & Hdv).
    assert (Hin : In dv (Temperatura.fatia (Some a) (Temperatura.fim e)
                           (Temperatura.temp_diaria df)))
      by (apply fatia_In; repeat split; auto; lia).
    destruct (Temperatura.fatia _ _ _); [destruct Hin | simpl; lia]. }
  repeat split; auto; lia.
Qed.

Lemma duracao_das_ondas_witness :
  exists e a,
    detectar_de true Exemplos.df_duas_ondas 30 2
    = Retorna [e; {| Temperatura.inicio := Some 4%Z;
                     Temperatura.fim := 5%Z;
                     Temperatura.duracao := 2%Z;
                     Temperatura.temp_extrema := Some 34%Q;
                     Temperatura.temp_media := Some (67 # 2)%Q |}]
    /\ Temperatura.inicio e = Some a
    /\ (2 <= Temperatura.duracao e)%Z
    /\ (1 <= Temperatura.duracao e)%Z
    /\ Temperatura.duracao e
       = Z.of_nat (length (Temperatura.fatia (Some a) (Temperatura.fim e)
                             (Temperatura.temp_diaria
                                Exemplos.df_duas_ondas)))
    /\ (Temperatura.duracao e <= Temperatura.fim e - a + 1)%Z.
Proof.
  eexists. 
  assert (H : detectar_de true Exemplos.df_duas_ondas 30 2
              = Retorna [ {| Temperatura.inicio := Some 1%Z;
                             Temperatura.fim := 2%Z;
                             Temperatura.duracao := 2%Z;
                             Temperatura.temp_extrema := Some 32%Q;
                             Temperatura.temp_media := Some (63 # 2)%Q |};
                          {| Temperatura.inicio := Some 4%Z;
                             Temperatura.fim := 5%Z;
                             Temperatura.duracao := 2%Z;
                             Temperatura.temp_extrema := Some 34%Q;
                             Temperatura.temp_media := Some (67 # 2)%Q |}])
    by (vm_compute; reflexivity).
  destruct (duracao_das_ondas true Exemplos.df_duas_ondas 30 2 _ _ H
              (or_introl eq_refl)) as (a & Ha).
  exists a. split; [exact H | exact Ha].
Defined.

(** X2. Every event a detector returns is a maximal run: its start is a day
    that has a record, any earlier scanned day is separated from it by a
    scanned day that does not pass the threshold, and the scanned day right
    after its end does not pass the threshold either. *)
Theorem ondas_sao_maximais
  (calor : bool) (df : Temperatura.DataFrame) (p : Q) (dias : Z)
  (os : list Temperatura.Onda) (limiar : option Q)
  (e : Temperatura.Onda) (a : Z) :
  detectar_de calor df p dias = Retorna os ->
  Temperatura.limiar_de df p = Retorna limiar ->
  In e os ->
  Temperatura.inicio e = Some a ->
  (exists r, In r df /\ Temperatura.Data r = Some a)
  /\ (forall dv, In dv (Temperatura.temp_diaria df) -> (fst dv < a)%Z ->
        exists dv', In dv' (Temperatura.temp_diaria df)
                    /\ (fst dv <= fst dv' < a)%Z
                    /\ excede_de calor (snd dv') limiar = false)
  /\ (exists dv', In dv' (Temperatura.temp_diaria df)
                  /\ fst dv' = (Temperatura.fim e + 1)%Z
                  /\ excede_de calor (snd dv') limiar = false).
Proof.
  intros H Hl He Ha.
  apply retorno_com_limiar in H as (limiar' & Hl' & -> & _).
  rewrite Hl in Hl'. injection Hl' as <-.
  destruct (inv_serie calor limiar dias df) as [_ Hfim _ _ _ _].
  destruct (inv2_serie calor limiar dias df) as [_ Hesq _ _ _].
  destruct (Hesq e a He Ha) as [H1 H2].
  split; [|split].
  - apply chaves_In. now rewrite <- temp_diaria_dias.
  - exact H2.
  - destruct (Hfim e He) as (dv & Hdv & Hq & Hf).
    exists dv. repeat split; auto. lia.
Qed.

Lemma ondas_sao_maximais_witness :
  (exists r, In r Exemplos.df_duas_ondas /\ Temperatura.Data r = Some 4%Z)
  /\ (forall dv, In dv (Temperatura.temp_diaria Exemplos.df_duas_ondas) ->
        (fst dv < 4)%Z ->
        exists dv', In dv' (Temperatura.temp_diaria Exemplos.df_duas_ondas)
                    /\ (fst dv <= fst dv' < 4)%Z
                    /\ excede_de true (snd dv') (Some (2050 # 100)%Q) = false)
  /\ (exists dv', In dv' (Temperatura.temp_diaria Exemplos.df_duas_ondas)
                  /\ fst dv' = (5 + 1)%Z
                  /\ excede_de true (snd dv') (Some (2050 # 100)%Q) = false).
Proof.
  apply (ondas_sao_maximais true Exemplos.df_duas_ondas 30 2
           [ {| Temperatura.inicio := Some 1%Z;
                Temperatura.fim := 2%Z;
                Temperatura.duracao := 2%Z;
                Temperatura.temp_extrema := Some 32%Q;
                Temperatura.temp_media := Some (63 # 2)%Q |};
             {| Temperatura.inicio := Some 4%Z;
                Temperatura.fim := 5%Z;
                Temperatura.duracao := 2%Z;
                Temperatura.temp_extrema := Some 34%Q;
                Temperatura.temp_media := Some (67 # 2)%Q |}]
           (Some (2050 # 100)%Q)
           {| Temperatura.inicio := Some 4%Z;
              Temperatura.fim := 5%Z;
              Temperatura.duracao := 2%Z;
              Temperatura.temp_extrema := Some 34%Q;
              Temperatura.temp_media := Some (67 # 2)%Q |} 4%Z).
  - vm_compute. reflexivity.
  - vm_compute. reflexivity.
  - right. left. reflexivity.
  - reflexivity.
Defined.

(* ------------------------------------------------------------------ *)
(** ** Means between bounds *)

Section Medias.

Local Open Scope Q_scope.










End Medias.

Section ValoresOndas.

Import Temperatura.
Local Open Scope Q_scope.




End ValoresOndas.



(** X4. On a frame without any non-null temperature (the empty frame
    included), a detector called with a percentile in [0, 100] and a
    minimum run of at least one day returns no event; it does not raise. *)
Theorem coluna_sem_leituras
  (calor : bool) (df : Temperatura.DataFrame) (p : Q) (dias : Z) :
  (forall r, In r df -> Temperatura.Temperatura r = None) ->
  (0 <= p)%Q -> (p <= 100)%Q -> (1 <= dias)%Z ->
  detectar_de calor df p dias = Retorna [].
Proof.
  intros Hnone H0 H1 Hd.
  assert (Hdrop : dropna (map Temperatura.Temperatura df) = []).
  { induction df as [|r t IH]; [reflexivity|]. simpl.
    rewrite (Hnone r (or_introl eq_refl)). simpl.
    apply IH. intros r' Hr'. apply Hnone. now right. }
  assert (Hl : Temperatura.limiar_de df p = Retorna None).
  { destruct (percentil_valido (map Temperatura.Temperatura df) p H0 H1)
      as [limiar Hq].
    unfold Temperatura.limiar_de. rewrite Hq. f_equal.
    unfold quantile in Hq. rewrite Hdrop in Hq. simpl in Hq.
    destruct (negb _); [discriminate|]. now injection Hq as <-. }
  assert (Hv : forall ext,
             Temperatura.varredura (excede_de calor) ext None dias
               (Temperatura.temp_diaria df) = []).
  { intros ext. unfold Temperatura.varredura, Temperatura.estado_apos,
      Temperatura.estado_inicial.
    rewrite sem_excesso; [reflexivity | exact Hd |].
    apply forallb_forall. intros dv _. unfold qualifica.
    destruct calor, (snd dv); reflexivity. }
  destruct calor;
    unfold detectar_de, Temperatura.detectar_ondas_calor,
      Temperatura.detectar_ondas_frio, Temperatura.detectar;
    rewrite Hl; unfold excede_de in Hv;
    [rewrite (Hv max_skipna) | rewrite (Hv min_skipna)];
    reflexivity.
Qed.

Lemma coluna_sem_leituras_witness :
  detectar_de false
    [ {| Temperatura.Data := Some 1%Z; Temperatura.Temperatura := None |};
      {| Temperatura.Data := None; Temperatura.Temperatura := None |} ]
    10 3
  = Retorna [].
Proof.
  apply coluna_sem_leituras.
  - intros r [<-|[<-|[]]]; reflexivity.
  - discriminate.
  - discriminate.
  - lia.
Defined.

(* ------------------------------------------------------------------ *)
(** ** What header normalisation keeps *)

Section Conteudo.

Local Open Scope N_scope.

Lemma alnum_re_sub s : forall b,
  filter is_alnum (re_sub_nonalnum b s) = filter is_alnum s.
Proof.
  induction s as [|c t IH]; intros b; simpl; [reflexivity|].
  destruct (is_alnum c) eqn:E; simpl.
  - rewrite E. now rewrite IH.
  - destruct b; simpl; now rewrite IH.
Qed.

Lemma alnum_lstrip s :
  filter is_alnum (lstrip underscore s) = filter is_alnum s.
Proof.
  induction s as [|c t IH]; simpl; [reflexivity|].
  destruct (N.eqb_spec c underscore) as [->|Hne]; [|reflexivity].
  now rewrite IH.
Qed.

Lemma alnum_rstrip s :
  filter is_alnum (rstrip underscore s) = filter is_alnum s.
Proof.
  induction s as [|c t IH]; simpl; [reflexivity|].
  destruct (rstrip underscore t) as [|x r] eqn:R.
  - simpl in IH. rewrite <- IH.
    destruct (N.eqb_spec c underscore) as [->|Hne]; [reflexivity|].
    simpl. now destruct (is_alnum c).
  - rewrite <- IH. reflexivity.
Qed.

Lemma alnum_lower_char c : is_alnum (lower_char c) = is_alnum c.
Proof.
  unfold lower_char. destruct (is_upper c) eqn:U; [|reflexivity].
  unfold is_alnum. rewrite U, orb_true_r.
  unfold is_upper in U. apply andb_prop in U as [A B].
  apply N.leb_le in A, B. unfold is_lower.
  replace (97 <=? c + 32) with true by (symmetry; apply N.leb_le; lia).
  replace (c + 32 <=? 122) with true by (symmetry; apply N.leb_le; lia).
  simpl. now destruct (is_digit (c + 32)).
Qed.

Lemma alnum_lower s :
  filter is_alnum (lower s) = lower (filter is_alnum s).
Proof.
  induction s as [|c t IH]; simpl; [reflexivity|].
  rewrite alnum_lower_char. destruct (is_alnum c); simpl; now rewrite IH.
Qed.

Lemma normal_sem_duplo u : forall b v,
  normal b (u ++ underscore :: underscore :: v) = false.
Proof.
  induction u as [|c t IH]; intros b v; simpl.
  - now rewrite andb_false_r.
  - destruct (is_alnum c); [apply IH|].
    rewrite IH. apply andb_false_r.
Qed.

End Conteudo.

(** X5. Normalising a header keeps its letters and digits: those of the
    output are exactly those of the input (each U+FFFD read as the letter
    o), in the same order, with capitals lowered; none is dropped, added or
    moved. *)
Theorem clean_col_name_mantem_alfanumericos (s : pystr) :
  filter is_alnum (clean_col_name s)
  = lower (filter is_alnum (replace_char replacement_char letter_o s)).
Proof.
  unfold clean_col_name, strip.
  rewrite alnum_lower, alnum_rstrip, alnum_lstrip, alnum_re_sub.
  f_equal. f_equal.
  induction s as [|c t IH]; simpl; [reflexivity|].
  fold (replace_char replacement_char letter_o t). rewrite IH.
  destruct (N.eqb_spec c replacement_char) as [->|Hne]; [reflexivity|].
  apply N.eqb_neq in Hne. now rewrite Hne.
Qed.

(** X6. The output of the normalisation never holds two underscores in a
    row, and it is the empty label exactly when the header has no letter,
    no digit and no U+FFFD. *)
Theorem clean_col_name_forma (s : pystr) :
  (forall u v, clean_col_name s <> u ++ underscore :: underscore :: v)
  /\ (clean_col_name s = []
      <-> forall c, In c s ->
                    is_alnum c = false /\ c <> replacement_char).
Proof.
  assert (Hn : normal false (clean_col_name s) = true).
  { unfold clean_col_name, strip.
    apply lower_ident_normal, rstrip_normal, lstrip_normal, re_sub_normal. }
  split.
  - intros u v E. rewrite E, normal_sem_duplo in Hn. discriminate.
  - pose proof (clean_col_name_mantem_alfanumericos s) as Hc.
    assert (Hsem : filter is_alnum
                     (replace_char replacement_char letter_o s) = []
                   <-> forall c, In c s ->
                         is_alnum c = false /\ c <> replacement_char).
    { clear. induction s as [|c t IH]; simpl.
      - split; [intros _ c [] | reflexivity].
      - fold (replace_char replacement_char letter_o t).
        destruct (N.eqb_spec c replacement_char) as [->|Hne].
        + split; [discriminate|]. intros H.
          now destruct (H replacement_char (or_introl eq_refl)) as [_ []].
        + destruct (is_alnum c) eqn:E.
          * split; [discriminate|]. intros H.
            destruct (H c (or_introl eq_refl)) as [H1 _]. congruence.
          * rewrite IH. split.
            -- intros H x [<-|Hx]; auto.
            -- intros H x Hx. apply H. now right. }
    rewrite <- Hsem. split.
    + intros E. rewrite E in Hc. simpl in Hc.
      destruct (filter is_alnum _); [reflexivity | discriminate].
    + intros E. rewrite E in Hc. simpl in Hc.
      assert (Hh : forall t, clean_col_name s <> underscore :: t).
      { intros t. unfold clean_col_name, strip.
        apply lower_head, rstrip_head. intros t'. apply lstrip_head. }
      destruct (clean_col_name s) as [|c t]; [reflexivity|].
      simpl in Hn, Hc. destruct (is_alnum c) eqn:A; [discriminate|].
      apply andb_prop in Hn as [Hn _]. apply andb_prop in Hn as [Hn _].
      apply N.eqb_eq in Hn. subst c. now destruct (Hh t).
Qed.

(* ------------------------------------------------------------------ *)
(** ** Loading never stumbles on a cell *)

Section CargaTotal.

Import Analise1.

Variable pd : Pandas.

Lemma pystr_eqb_eq (a : pystr) : forall b, PyStr.eqb a b = true <-> a = b.
Proof.
  induction a as [|x a IH]; intros [|y b]; simpl;
    try (split; [discriminate | discriminate]); [tauto|].
  rewrite andb_true_iff, N.eqb_eq, IH.
  split; [intros [-> ->]; reflexivity | intros H; injection H; auto].
Qed.

Lemma pystr_eqb_refl (a : pystr) : PyStr.eqb a a = true.
Proof. now apply pystr_eqb_eq. Qed.

Lemma existsb_eqb_In c cols :
  existsb (PyStr.eqb c) cols = true <-> In c cols.
Proof.
  rewrite existsb_exists. split.
  - intros (x & Hx & E). apply pystr_eqb_eq in E. now subst.
  - intros H. exists c. split; [exact H | apply pystr_eqb_refl].
Qed.

Lemma distintos_ocorrencias cols c :
  rotulos_distintos cols = true -> In c cols ->
  (1 <? ocorrencias c cols)%nat = false.
Proof.
  intros H Hc. unfold rotulos_distintos in H.
  rewrite forallb_forall in H. specialize (H c Hc).
  apply Nat.leb_le in H. apply Nat.ltb_ge. exact H.
Qed.

Lemma ocorrencias_app c l1 l2 :
  ocorrencias c (l1 ++ l2) = (ocorrencias c l1 + ocorrencias c l2)%nat.
Proof. unfold ocorrencias. now rewrite filter_app, length_app. Qed.

Lemma sem_repetidos_no_alvo cols extra :
  rotulos_distintos cols = true ->
  (forall c, In c extra -> excluida c = true) ->
  existsb (fun ic : nat * pystr =>
             (1 <? ocorrencias (snd ic) (cols ++ extra))%nat)
          (filter (fun ic => negb (excluida (snd ic)))
                  (combine (seq 0 (length (cols ++ extra))) (cols ++ extra)))
  = false.
Proof.
  intros Hd Hex.
  rewrite (repetidos_no_alvo
             (fun c => (1 <? ocorrencias c (cols ++ extra))%nat)
             (cols ++ extra) 0).
  apply not_true_is_false. intros H.
  apply existsb_exists in H as (c & Hc & H).
  apply andb_prop in H as [Hn H]. apply negb_true_iff in Hn.
  assert (Hin : In c cols).
  { apply in_app_iff in Hc as [Hc|Hc]; [exact Hc|].
    rewrite (Hex c Hc) in Hn. discriminate. }
  assert (H0 : ocorrencias c extra = 0%nat).
  { unfold ocorrencias. rewrite filter_nada; [reflexivity|].
    intros x Hx. apply not_true_is_false. intros E.
    apply pystr_eqb_eq in E. subst x. rewrite (Hex c Hx) in Hn.
    discriminate. }
  rewrite ocorrencias_app, H0, Nat.add_0_r in H.
  rewrite (distintos_ocorrencias cols c Hd Hin) in H. discriminate.
Qed.

Lemma atribui_colunas nome valores df :
  columns (atribui nome valores df)
  = if existsb (PyStr.eqb nome) (columns df) then columns df
    else columns df ++ [nome].
Proof. reflexivity. Qed.

End CargaTotal.

(** X7. [load_data] never raises on an export whose normalised labels are
    pairwise distinct, whatever its cells hold: dates and numbers that do
    not parse do not abort the load.  The frame returned carries the
    normalised labels, followed by ['datetime'] when the header has both
    columns of the time axis and no ['datetime'] label of its own. *)
Theorem load_data_nao_levanta (pd : Analise1.Pandas) (csv : Analise1.Csv) :
  let cols := map clean_col_name (Analise1.cabecalho csv) in
  rotulos_distintos cols = true ->
  exists df,
    Analise1.load_data pd csv = Retorna df
    /\ Analise1.columns df
       = if tem_eixo_temporal cols
            && negb (existsb (PyStr.eqb Analise1.nome_datetime) cols)
         then cols ++ [Analise1.nome_datetime]
         else cols.
Proof.
  intros cols Hd.
  set (df0 := {| Analise1.columns := cols;
                 Analise1.linhas :=
                   map (map Analise1.de_csv) (Analise1.registros csv) |}).
  unfold Analise1.load_data. fold cols. fold df0.
  change (Analise1.tem_coluna Analise1.nome_data df0
          && Analise1.tem_coluna Analise1.nome_hora_utc df0)
    with (tem_eixo_temporal cols).
  destruct (tem_eixo_temporal cols) eqn:Eixo.
  - unfold tem_eixo_temporal in Eixo. apply andb_prop in Eixo as [E1 E2].
    apply existsb_eqb_In in E1, E2.
    change (Analise1.columns df0) with cols.
    rewrite (distintos_ocorrencias cols _ Hd E1),
            (distintos_ocorrencias cols _ Hd E2).
    cbn [Analise1.columns].
    rewrite atribui_colunas. change (Analise1.columns df0) with cols.
    destruct (existsb (PyStr.eqb Analise1.nome_datetime) cols) eqn:Edt.
    + pose proof (sem_repetidos_no_alvo cols [] Hd) as Hr.
      rewrite app_nil_r in Hr. rewrite Hr by (intros c []).
      eexists. split; [reflexivity|].
      match goal with
      | |- context [fold_left ?f ?alvo ?df] =>
          destruct (converte_varios pd alvo df) as [Hc _]
      end.
      rewrite Hc. reflexivity.
    + rewrite (sem_repetidos_no_alvo cols [Analise1.nome_datetime] Hd).
      2:{ intros c [<-|[]]. reflexivity. }
      eexists. split; [reflexivity|].
      match goal with
      | |- context [fold_left ?f ?alvo ?df] =>
          destruct (converte_varios pd alvo df) as [Hc _]
      end.
      rewrite Hc. reflexivity.
  - cbn [Analise1.columns df0].
    pose proof (sem_repetidos_no_alvo cols [] Hd) as Hr.
    rewrite app_nil_r in Hr. rewrite Hr by (intros c []).
    eexists. split; [reflexivity|].
    match goal with
    | |- context [fold_left ?f ?alvo ?df] =>
        destruct (converte_varios pd alvo df) as [Hc _]
    end.
    rewrite Hc. reflexivity.
Qed.

Lemma load_data_nao_levanta_witness :
  exists df,
    Analise1.load_data PandasRef.pandas_ref Exemplos.csv_data_ruim
    = Retorna df
    /\ Analise1.columns df
       = [cp "data"; cp "hora_utc"; cp "temperatura_c"; cp "datetime"].
Proof.
  apply (load_data_nao_levanta PandasRef.pandas_ref Exemplos.csv_data_ruim).
  reflexivity.
Defined.

(* ------------------------------------------------------------------ *)
(** ** Measured columns are numeric after loading *)

Section CelulasNumericas.

Import Analise1.

Variable pd : Pandas.

Lemma nth_troca (j : nat) (c : Cel) : forall r i,
  nth i (troca j c r) NaN = if (i =? j)%nat then c else nth i r NaN.
Proof.
  induction j as [|j IH]; intros r i.
  - destruct r as [|x t], i as [|i]; simpl; try reflexivity.
    now destruct i.
  - destruct r as [|x t], i as [|i]; simpl; try reflexivity.
    + rewrite IH. now destruct i.
    + apply IH.
Qed.


Lemma converte_por_linha alvo : forall df,
  linhas (fold_left (fun d (ic : nat * pystr) => converte pd (fst ic) d)
                    alvo df)
  = map (converte_linha pd alvo) (linhas df).
Proof.
  induction alvo as [|ic t IH]; intros df; simpl.
  - symmetry. apply map_id.
  - rewrite IH. simpl. rewrite map_map. reflexivity.
Qed.




End CelulasNumericas.



(* ------------------------------------------------------------------ *)
(** ** Bounds of the missingness report *)

Section LimitesFaltantes.

Import Analise1.

Lemma rotulos_enumerados (l : list pystr) : forall a,
  map snd (combine (seq a (length l)) l) = l.
Proof.
  induction l as [|x t IH]; intros a; simpl; [reflexivity|].
  now rewrite IH.
Qed.

Lemma conta_na_limites cells :
  (0 <= conta_na cells <= Z.of_nat (length cells))%Z.
Proof.
  unfold conta_na. pose proof (filter_length_le isna cells). lia.
Qed.

Lemma pct_limites (n m : Z) (q : Q) :
  (0 <= n <= m)%Z ->
  option_map (fun x => (x * 100)%Q) (div_float (inject_Z n) (inject_Z m))
  = Some q ->
  (0 <= q)%Q /\ (q <= 100)%Q.
Proof.
  intros Hn. unfold div_float.
  destruct (Qeq_bool (inject_Z m) 0) eqn:E; [discriminate|].
  simpl. intros H. injection H as <-.
  assert (Hm : (0 < inject_Z m)%Q).
  { change 0%Q with (inject_Z 0). rewrite <- Zlt_Qlt.
    assert (m <> 0%Z); [|lia]. intros ->. discriminate E. }
  assert (H0 : (0 <= inject_Z n / inject_Z m)%Q).
  { apply Qle_shift_div_l; [exact Hm|]. rewrite Qmult_0_l.
    change 0%Q with (inject_Z 0). rewrite <- Zle_Qle. lia. }
  assert (H1 : (inject_Z n / inject_Z m <= 1)%Q).
  { apply Qle_shift_div_r; [exact Hm|]. rewrite Qmult_1_l.
    rewrite <- Zle_Qle. lia. }
  split.
  - apply Qmult_le_0_compat; [exact H0 | discriminate].
  - setoid_replace 100%Q with (1 * 100)%Q at 2 by ring.
    apply Qmult_le_compat_r; [exact H1 | discriminate].
Qed.

End LimitesFaltantes.

(** X9. The missingness report has one row per column of the frame, in the
    order of the columns; each count lies between 0 and the number of rows,
    and each percentage that is a number lies between 0 and 100. *)
Theorem missing_report_limites (df : Analise1.DataFrame) :
  map Analise1.variavel (Analise1.missing_report df) = Analise1.columns df
  /\ forall row, In row (Analise1.missing_report df) ->
       (0 <= Analise1.missing_count row <= Analise1.len df)%Z
       /\ forall pct, Analise1.missing_pct row = Some pct ->
                      (0 <= pct)%Q /\ (pct <= 100)%Q.
Proof.
  unfold Analise1.missing_report. split.
  - rewrite map_map. cbn [Analise1.variavel]. apply rotulos_enumerados.
  - intros row Hrow. apply in_map_iff in Hrow as ([i c] & <- & _).
    cbn [Analise1.missing_count Analise1.missing_pct fst snd].
    assert (Hn : (0 <= Analise1.conta_na (Analise1.coluna_em i df)
                  <= Analise1.len df)%Z).
    { pose proof (conta_na_limites (Analise1.coluna_em i df)) as H.
      unfold Analise1.coluna_em in H at 3. rewrite length_map in H.
      exact H. }
    split; [exact Hn|]. intros pct. now apply pct_limites.
Qed.

(* ------------------------------------------------------------------ *)
(** ** The cells of the daily table *)

Section CelulasDiarias.

Import Analise1.
Local Open Scope Z_scope.





End CelulasDiarias.



(* ------------------------------------------------------------------ *)
(** ** Resampling loses no reading *)

Section Conservacao.

Import Analise1.
Local Open Scope Q_scope.




Variable tsf : list Cel -> option Z.
Variable vf : list Cel -> option Q.




End Conservacao.



(* ------------------------------------------------------------------ *)
(** ** Daily columns merged into the hourly frame *)

Section ColunasDiarias.

Import Temperatura TemperaturaDiaria.
Local Open Scope Z_scope.



End ColunasDiarias.



(* ------------------------------------------------------------------ *)
(** ** Changes between consecutive readings *)

Section Deltas.

Import Analise1 Maio.







End Deltas.



(* ------------------------------------------------------------------ *)
(** ** The ranking of extremes needs the time axis *)

Section ExtremosSemEixo.

Import Analise1 Extremos.

Variable pd : Pandas.

Lemma carga_sem_eixo csv :
  let cols := map clean_col_name (cabecalho csv) in
  tem_eixo_temporal cols = false ->
  rotulos_distintos cols = true ->
  exists df, load_data pd csv = Retorna df /\ columns df = cols.
Proof.
  intros cols Heixo Hd.
  set (df0 := {| columns := cols;
                 linhas := map (map de_csv) (registros csv) |}).
  unfold load_data. fold cols. fold df0.
  change (tem_coluna nome_data df0 && tem_coluna nome_hora_utc df0)
    with (tem_eixo_temporal cols).
  rewrite Heixo. cbn [columns df0].
  pose proof (sem_repetidos_no_alvo cols [] Hd) as Hr.
  rewrite app_nil_r in Hr. rewrite Hr by (intros c []).
  eexists. split; [reflexivity|].
  match goal with
  | |- context [fold_left ?f ?alvo ?df] =>
      destruct (converte_varios pd alvo df) as [Hc _]
  end.
  rewrite Hc. reflexivity.
Qed.

Lemma filter_nao_vazio (A : Type) (f : A -> bool) (l : list A) (x : A) :
  In x l -> f x = true -> filter f l <> [].
Proof.
  intros Hx Hf E.
  assert (H : In x (filter f l)) by (apply filter_In; now split).
  rewrite E in H. destruct H.
Qed.

End ExtremosSemEixo.

(** X14. For an export without the time axis whose normalised labels are
    pairwise distinct and include a precipitation or temperature column,
    [load_data] returns a frame but [extremes] then raises the [KeyError]
    of the missing ['datetime'] column: the analysis stops there, not at
    loading. *)
Theorem extremes_sem_eixo_temporal
  (pd : Analise1.Pandas)
  (nlargest : nat -> nat -> list (list Analise1.Cel)
              -> list (list Analise1.Cel))
  (csv : Analise1.Csv) (c : pystr) :
  let cols := map clean_col_name (Analise1.cabecalho csv) in
  tem_eixo_temporal cols = false ->
  rotulos_distintos cols = true ->
  existsb (PyStr.eqb Analise1.nome_datetime) cols = false ->
  In c cols ->
  contains Analise1.palavra_precip c
  || (contains Analise1.palavra_temperatura c
      && negb (contains Analise1.palavra_orvalho c)) = true ->
  exists df,
    Analise1.load_data pd csv = Retorna df
    /\ Extremos.extremes nlargest df
       = Extremos.KeyError Analise1.nome_datetime.
Proof.
  intros cols Heixo Hd Hdt Hc Hcol.
  destruct (carga_sem_eixo pd csv Heixo Hd) as (df & Hl & Hcols).
  exists df. split; [exact Hl|].
  unfold Extremos.extremes, Extremos.top10. rewrite Hcols. fold cols.
  rewrite (posicao_ausente _ _ Hdt).
  destruct (filter (contains Analise1.palavra_precip) cols) as [|p r] eqn:Ep;
    [|reflexivity].
  apply orb_prop in Hcol as [Hp|Ht].
  - exfalso. apply (filter_nao_vazio _ _ cols c Hc Hp). exact Ep.
  - destruct (filter (fun c0 => contains Analise1.palavra_temperatura c0
                                && negb (contains Analise1.palavra_orvalho c0))
                     cols) as [|t r'] eqn:Et; [|reflexivity].
    exfalso.
    apply (filter_nao_vazio _
             (fun c0 => contains Analise1.palavra_temperatura c0
                        && negb (contains Analise1.palavra_orvalho c0))
             cols c Hc Ht).
    exact Et.
Qed.

Lemma extremes_sem_eixo_temporal_witness :
  exists df,
    Analise1.load_data PandasRef.pandas_ref Exemplos.csv_sem_hora
    = Retorna df
    /\ Extremos.extremes (fun n _ rows => firstn n rows) df
       = Extremos.KeyError Analise1.nome_datetime.
Proof.
  apply (extremes_sem_eixo_temporal PandasRef.pandas_ref
           (fun n _ rows => firstn n rows) Exemplos.csv_sem_hora
           (cp "temperatura_c")).
  - reflexivity.
  - reflexivity.
  - reflexivity.
  - right. left. reflexivity.
  - reflexivity.
Defined.

(* ------------------------------------------------------------------ *)
(** ** Loading keeps every record *)

Section CargaLinhas.

Import Analise1.

Variable pd : Pandas.

Lemma todos_length (A : Type) (l : list (option A)) : forall ts,
  todos l = Some ts -> length ts = length l.
Proof.
  induction l as [|[x|] t IH]; simpl; intros ts H.
  - now injection H as <-.
  - destruct (todos t) as [ts'|]; [|discriminate].
    simpl in H. injection H as <-. simpl. now rewrite (IH ts' eq_refl).
  - discriminate.
Qed.

Lemma para_datetime_length dt_str :
  (forall l, length (to_datetime_coerce pd l) = length l) ->
  length (para_datetime pd dt_str) = length dt_str.
Proof.
  intros H. unfold para_datetime.
  destruct (todos _) as [ts|] eqn:E.
  - rewrite length_map, (todos_length _ _ ts E). apply length_map.
  - now rewrite length_map, H.
Qed.

Lemma atribui_linhas nome valores df :
  length valores = length (linhas df) ->
  length (linhas (atribui nome valores df)) = length (linhas df).
Proof.
  intros H. unfold atribui. cbn [linhas].
  rewrite length_map, length_combine. lia.
Qed.

End CargaLinhas.

(** X15. [load_data] drops no record: provided pandas' lenient date parser
    answers one value per text and [sort_values] returns as many rows as it
    is given, the frame returned has exactly as many rows as the export,
    rows whose timestamp does not parse included. *)
Theorem load_data_mantem_linhas
  (pd : Analise1.Pandas) (csv : Analise1.Csv) (df : Analise1.DataFrame) :
  (forall l, length (Analise1.to_datetime_coerce pd l) = length l) ->
  (forall k l, length (Analise1.sort_values pd k l) = length l) ->
  Analise1.load_data pd csv = Retorna df ->
  length (Analise1.linhas df) = length (Analise1.registros csv).
Proof.
  intros Hco Hso. unfold Analise1.load_data.
  set (df0 := {| Analise1.columns :=
                   map clean_col_name (Analise1.cabecalho csv);
                 Analise1.linhas :=
                   map (map Analise1.de_csv) (Analise1.registros csv) |}).
  assert (L0 : length (Analise1.linhas df0)
               = length (Analise1.registros csv)) by apply length_map.
  destruct (Analise1.tem_coluna Analise1.nome_data df0
            && Analise1.tem_coluna Analise1.nome_hora_utc df0).
  - destruct (1 <? _)%nat; [discriminate|].
    destruct (1 <? _)%nat; [discriminate|].
    destruct (existsb _ _); [discriminate|].
    intros H. injection H as <-.
    match goal with
    | |- context [fold_left ?f ?alvo ?d] =>
        destruct (converte_varios pd alvo d) as [_ Hl]
    end.
    rewrite Hl. cbn [Analise1.linhas]. rewrite Hso.
    rewrite length_map, length_combine.
    rewrite para_datetime_length by exact Hco.
    unfold Analise1.coluna_em.
    repeat rewrite ?length_map, ?length_combine.
    cbn [Analise1.linhas df0]. rewrite ?length_map. lia.
  - destruct (existsb _ _); [discriminate|].
    intros H. injection H as <-.
    match goal with
    | |- context [fold_left ?f ?alvo ?d] =>
        destruct (converte_varios pd alvo d) as [_ Hl]
    end.
    rewrite Hl. exact L0.
Qed.

Section OrdenacaoDeReferencia.

Import Analise1 PandasRef.

Lemma insere_linha_length chave r l :
  length (insere_linha chave r l) = S (length l).
Proof.
  induction l as [|x t IH]; simpl; [reflexivity|].
  destruct (antes (chave x) (chave r)); simpl; [now rewrite IH | reflexivity].
Qed.

Lemma sort_values_ref_length chave l :
  length (sort_values_ref chave l) = length l.
Proof.
  unfold sort_values_ref.
  assert (H : forall acc, length (fold_left
                (fun acc r => insere_linha chave r acc) l acc)
              = (length acc + length l)%nat).
  { induction l as [|r t IH]; intros acc; simpl; [lia|].
    rewrite IH, insere_linha_length. lia. }
  apply H.
Qed.

End OrdenacaoDeReferencia.

Lemma load_data_mantem_linhas_witness :
  exists df,
    Analise1.load_data PandasRef.pandas_ref Exemplos.csv_data_ruim
    = Retorna df
    /\ length (Analise1.linhas df) = 2%nat.
Proof.
  pose (df := match Analise1.load_data PandasRef.pandas_ref
                      Exemplos.csv_data_ruim with
              | Retorna x => x
              | Levanta _ => {| Analise1.columns := [];
                                Analise1.linhas := [] |}
              end).
  assert (Hdf : Analise1.load_data PandasRef.pandas_ref
                  Exemplos.csv_data_ruim = Retorna df)
    by (vm_compute; reflexivity).
  exists df. split; [exact Hdf|].
  apply (load_data_mantem_linhas PandasRef.pandas_ref
           Exemplos.csv_data_ruim df).
  - intros l. apply length_map.
  - intros k l. apply sort_values_ref_length.
  - exact Hdf.
Defined.

(* ------------------------------------------------------------------ *)
(** ** The extreme percentiles *)

Section Quantis.

Local Open Scope Q_scope.











End Quantis.

Section PercentisExtremos.

Import Temperatura.
Local Open Scope Z_scope.




End PercentisExtremos.



(* ------------------------------------------------------------------ *)
(** ** The May filter needs the time axis *)

Section MaioSemEixo.

Import Analise1 Extremos MaioCarga.

Variable pd : Pandas.

Lemma numerica_repetidos df :
  numerica pd df
  = if rotulos_repetidos (columns df) then Falha AttributeError
    else Devolve (fold_left
                    (fun d (ic : nat * pystr) => converte pd (fst ic) d)
                    (filter (fun ic => negb (excluida (snd ic)))
                            (combine (seq 0 (length (columns df)))
                                     (columns df)))
                    df).
Proof.
  unfold numerica.
  rewrite (repetidos_no_alvo
             (fun c => (1 <? ocorrencias c (columns df))%nat)
             (columns df) 0).
  reflexivity.
Qed.

End MaioSemEixo.

(** X17. [load_and_filter_data] never returns a frame for an export whose
    normalised header lacks ['data'] or ['hora_utc'] and has no ['datetime']
    label of its own: it raises the [AttributeError] of the conversion loop
    when a measured label is repeated, and otherwise the [KeyError] of
    [df['datetime']], where [load_data] of analise1.py returns the frame. *)
Theorem load_and_filter_data_sem_eixo
  (pd : Analise1.Pandas)
  (to_datetime_livre : list Analise1.Cel -> option (list (option Z)))
  (csv : Analise1.Csv) :
  let cols := map clean_col_name (Analise1.cabecalho csv) in
  tem_eixo_temporal cols = false ->
  existsb (PyStr.eqb Analise1.nome_datetime) cols = false ->
  MaioCarga.load_and_filter_data pd to_datetime_livre csv
  = if rotulos_repetidos cols then Extremos.Falha AttributeError
    else Extremos.KeyError Analise1.nome_datetime.
Proof.
  intros cols Heixo Hdt.
  set (df0 := {| Analise1.columns := cols;
                 Analise1.linhas :=
                   map (map Analise1.de_csv) (Analise1.registros csv) |}).
  unfold MaioCarga.load_and_filter_data, MaioCarga.com_datetime.
  fold cols. fold df0.
  change (Analise1.tem_coluna Analise1.nome_data df0
          && Analise1.tem_coluna Analise1.nome_hora_utc df0)
    with (tem_eixo_temporal cols).
  rewrite Heixo, numerica_repetidos. cbn [Analise1.columns df0].
  destruct (rotulos_repetidos cols); [reflexivity|].
  unfold MaioCarga.filtra.
  match goal with
  | |- context [fold_left ?f ?alvo ?df] =>
      destruct (converte_varios pd alvo df) as [Hc _]
  end.
  rewrite Hc. cbn [Analise1.columns df0].
  now rewrite (posicao_ausente _ _ Hdt).
Qed.

Lemma load_and_filter_data_sem_eixo_witness :
  MaioCarga.load_and_filter_data PandasRef.pandas_ref (fun _ => None)
    Exemplos.csv_sem_hora
  = Extremos.KeyError Analise1.nome_datetime.
Proof.
  apply (load_and_filter_data_sem_eixo PandasRef.pandas_ref (fun _ => None)
           Exemplos.csv_sem_hora); reflexivity.
Defined.

(* ------------------------------------------------------------------ *)
(** ** What the May filter returns *)

Section MaioFiltro.

Import Analise1 Extremos MaioCarga.

Variable pd : Pandas.
Variable to_datetime_livre : list Cel -> option (list (option Z)).

Lemma posicao_snoc c x cols :
  posicao c (cols ++ [x])
  = match posicao c cols with
    | Some i => Some i
    | None => if PyStr.eqb c x then Some (length cols) else None
    end.
Proof.
  induction cols as [|y t IH]; simpl.
  - now destruct (PyStr.eqb c x).
  - destruct (PyStr.eqb c y); [reflexivity|].
    rewrite IH. destruct (posicao c t); simpl; [reflexivity|].
    now destruct (PyStr.eqb c x).
Qed.

Lemma posicao_presente c cols :
  existsb (PyStr.eqb c) cols = true -> exists i, posicao c cols = Some i.
Proof.
  induction cols as [|x t IH]; simpl; [discriminate|].
  destruct (PyStr.eqb c x); simpl; [now exists 0%nat|].
  intros H. destruct (IH H) as [i ->]. now exists (S i).
Qed.

Lemma posicao_nth c cols : forall i,
  posicao c cols = Some i -> nth_error cols i = Some c.
Proof.
  induction cols as [|x t IH]; simpl; intros i H; [discriminate|].
  destruct (PyStr.eqb c x) eqn:E.
  - injection H as <-. apply pystr_eqb_eq in E. now subst.
  - destruct (posicao c t) as [j|]; [|discriminate].
    simpl in H. injection H as <-. simpl. now apply IH.
Qed.

Lemma posicoes_distintas c1 c2 cols i j :
  posicao c1 cols = Some i -> posicao c2 cols = Some j ->
  c1 <> c2 -> (i =? j)%nat = false.
Proof.
  intros H1 H2 Hne. apply Nat.eqb_neq. intros E. subst j.
  apply posicao_nth in H1, H2. congruence.
Qed.

Lemma posicao_atribui_mesmo nome v df :
  posicao nome (columns (atribui nome v df))
  = Some (match posicao nome (columns df) with
          | Some i => i
          | None => length (columns df)
          end).
Proof.
  rewrite atribui_colunas.
  destruct (existsb (PyStr.eqb nome) (columns df)) eqn:E.
  - destruct (posicao_presente _ _ E) as [i Hi]. now rewrite Hi.
  - rewrite posicao_snoc, (posicao_ausente _ _ E), pystr_eqb_refl.
    reflexivity.
Qed.

Lemma posicao_atribui_outro c nome v df i :
  posicao c (columns df) = Some i ->
  posicao c (columns (atribui nome v df)) = Some i.
Proof.
  intros H. rewrite atribui_colunas.
  destruct (existsb _ _); [exact H|].
  now rewrite posicao_snoc, H.
Qed.

Lemma atribui_por_linha nome (G : list Cel -> Cel)
  (T : list Cel -> list Cel) base df :
  linhas df = map T base ->
  linhas (atribui nome (map G base) df)
  = map (fun r => troca (match posicao nome (columns df) with
                         | Some i => i
                         | None => length (columns df)
                         end) (G r) (T r)) base.
Proof.
  intros H. unfold atribui. cbn [linhas]. rewrite H. clear H.
  induction base as [|b t IH]; simpl; [reflexivity|]. now rewrite IH.
Qed.

Lemma atribui_celula nome valores df r :
  In r (linhas (atribui nome valores df)) ->
  In (nth (match posicao nome (columns df) with
           | Some i => i
           | None => length (columns df)
           end) r NaN) valores.
Proof.
  unfold atribui. cbn [linhas]. intros H.
  apply in_map_iff in H as ([r0 v] & <- & H). simpl.
  rewrite nth_troca, Nat.eqb_refl. apply in_combine_r in H. exact H.
Qed.

Lemma converte_linha_fora alvo i : forall r,
  ~ In i (map fst alvo) ->
  nth i (converte_linha pd alvo r) NaN = nth i r NaN.
Proof.
  induction alvo as [|ic t IH]; intros r H; [reflexivity|].
  change (converte_linha pd (ic :: t) r)
    with (converte_linha pd t
            (troca (fst ic) (para_numero pd (nth (fst ic) r NaN)) r)).
  rewrite IH by (intros Hi; apply H; now right).
  rewrite nth_troca.
  destruct (Nat.eqb_spec i (fst ic)) as [E|_]; [|reflexivity].
  exfalso. apply H. left. now symmetry.
Qed.

Lemma combine_seq_nth (cols : list pystr) : forall a i c,
  In (i, c) (combine (seq a (length cols)) cols) ->
  nth_error cols (i - a) = Some c /\ (a <= i)%nat.
Proof.
  induction cols as [|x t IH]; intros a i c H; simpl in H; [destruct H|].
  destruct H as [H|H].
  - injection H as <- <-. rewrite Nat.sub_diag. split; [reflexivity | lia].
  - apply IH in H as [H1 H2]. split; [|lia].
    replace (i - a)%nat with (S (i - S a)) by lia. exact H1.
Qed.

Lemma datetime_fora_do_alvo cols p :
  posicao nome_datetime cols = Some p ->
  ~ In p (map fst (filter (fun ic : nat * pystr => negb (excluida (snd ic)))
                          (combine (seq 0 (length cols)) cols))).
Proof.
  intros Hp H. apply in_map_iff in H as ([i c] & E & H).
  simpl in E. subst i.
  apply filter_In in H as [H Hex]. cbn [snd] in Hex.
  apply combine_seq_nth in H as [H _]. rewrite Nat.sub_0_r in H.
  apply posicao_nth in Hp. rewrite Hp in H. injection H as <-.
  vm_compute in Hex. discriminate Hex.
Qed.

Lemma para_datetime_tempo dt_str c :
  In c (para_datetime pd dt_str) -> e_tempo c = true.
Proof.
  unfold para_datetime.
  destruct (todos _); intros H; apply in_map_iff in H as (x & <- & _);
    [reflexivity|]. now destruct x.
Qed.

Lemma com_datetime_tempo csv df :
  tem_eixo_temporal (map clean_col_name (cabecalho csv)) = true ->
  com_datetime pd csv = Devolve df ->
  exists p,
    posicao nome_datetime (columns df) = Some p
    /\ forall r, In r (linhas df) -> e_tempo (nth p r NaN) = true.
Proof.
  intros Heixo. unfold com_datetime.
  set (cols := map clean_col_name (cabecalho csv)) in *.
  set (df0 := {| columns := cols;
                 linhas := map (map de_csv) (registros csv) |}).
  change (tem_coluna nome_data df0 && tem_coluna nome_hora_utc df0)
    with (tem_eixo_temporal cols).
  rewrite Heixo.
  destruct (1 <? _)%nat; [discriminate|].
  destruct (1 <? _)%nat; [discriminate|].
  intros H. injection H as <-.
  eexists. split; [apply posicao_atribui_mesmo|].
  intros r Hr. apply atribui_celula in Hr.
  now apply para_datetime_tempo in Hr.
Qed.

Lemma numerica_tempo df df' p :
  posicao nome_datetime (columns df) = Some p ->
  (forall r, In r (linhas df) -> e_tempo (nth p r NaN) = true) ->
  numerica pd df = Devolve df' ->
  posicao nome_datetime (columns df') = Some p
  /\ forall r, In r (linhas df') -> e_tempo (nth p r NaN) = true.
Proof.
  intros Hp Hc. unfold numerica.
  destruct (existsb _ _); [discriminate|].
  intros H. injection H as <-.
  match goal with
  | |- context [fold_left ?f ?alvo ?d] =>
      destruct (converte_varios pd alvo d) as [Hcols _]
  end.
  split; [now rewrite Hcols|].
  intros r Hr. rewrite converte_por_linha in Hr.
  apply in_map_iff in Hr as (r0 & <- & Hr0).
  rewrite converte_linha_fora by (apply datetime_fora_do_alvo; exact Hp).
  now apply Hc.
Qed.

Lemma parte_por_linha f p df :
  parte f (map tempo_de (coluna_em p df))
  = map (fun r => match tempo_de (nth p r NaN) with
                  | Some t => Num (inject_Z (f t))
                  | None => NaN
                  end) (linhas df).
Proof. unfold parte, coluna_em. now rewrite !map_map. Qed.

Lemma igual_a_inteiro k o m :
  igual_a k match o with
            | Some t => Num (inject_Z (m t))
            | None => NaN
            end = true ->
  exists t : Z, o = Some t /\ m t = k.
Proof.
  destruct o as [t|]; simpl; [|discriminate].
  intros H. apply Qeq_bool_iff in H. rewrite inject_Z_injective in H.
  now exists t.
Qed.

Lemma filtra_maio df df' p :
  (forall k l r, In r (sort_values pd k l) -> In r l) ->
  posicao nome_datetime (columns df) = Some p ->
  (forall r, In r (linhas df) -> e_tempo (nth p r NaN) = true) ->
  filtra pd to_datetime_livre df = Devolve df' ->
  forall r, In r (linhas df') ->
  exists t,
    nth (Maio.posicao_de nome_datetime df') r NaN = Tempo t
    /\ mes_de t = 5%Z /\ hora_de t = 9%Z.
Proof.
  intros Hsort Hp Hc. unfold filtra. rewrite Hp.
  destruct (1 <? _)%nat; [discriminate|].
  assert (Hpt : para_tempo to_datetime_livre (coluna_em p df)
                = Devolve (map tempo_de (coluna_em p df))).
  { unfold para_tempo.
    replace (forallb e_tempo (coluna_em p df)) with true; [reflexivity|].
    symmetry. apply forallb_forall. intros c Hin. unfold coluna_em in Hin.
    apply in_map_iff in Hin as (r & <- & Hr). now apply Hc. }
  rewrite Hpt. cbv zeta. rewrite !parte_por_linha.
  set (G := fun (f : Z -> Z) (r : list Cel) =>
              match tempo_de (nth p r NaN) with
              | Some t => Num (inject_Z (f t))
              | None => NaN
              end).
  change (fun r : list Cel =>
            match tempo_de (nth p r NaN) with
            | Some t => Num (inject_Z (?f t))
            | None => NaN
            end) with (G f).
  set (rows := linhas df).
  set (df3 := atribui nome_month (map (G mes_de) rows) df).
  set (df4 := atribui nome_hour (map (G hora_de) rows) df3).
  set (df5 := atribui nome_minute (map (G minuto_de) rows) df4).
  pose proof (posicao_atribui_mesmo nome_month (map (G mes_de) rows) df)
    as P3m. fold df3 in P3m.
  pose proof (posicao_atribui_mesmo nome_hour (map (G hora_de) rows) df3)
    as P4h. fold df4 in P4h.
  pose proof (posicao_atribui_mesmo nome_minute (map (G minuto_de) rows) df4)
    as P5n. fold df5 in P5n.
  set (im := match posicao nome_month (columns df) with
             | Some i => i
             | None => length (columns df)
             end) in *.
  set (ih := match posicao nome_hour (columns df3) with
             | Some i => i
             | None => length (columns df3)
             end) in *.
  set (imin := match posicao nome_minute (columns df4) with
               | Some i => i
               | None => length (columns df4)
               end) in *.
  assert (L3 : linhas df3 = map (fun r => troca im (G mes_de r) r) rows).
  { apply (atribui_por_linha nome_month (G mes_de) (fun r => r) rows df).
    symmetry. apply map_id. }
  assert (L4 : linhas df4
               = map (fun r => troca ih (G hora_de r)
                                 (troca im (G mes_de r) r)) rows).
  { exact (atribui_por_linha nome_hour (G hora_de)
             (fun r => troca im (G mes_de r) r) rows df3 L3). }
  assert (L5 : linhas df5
               = map (fun r => troca imin (G minuto_de r)
                                 (troca ih (G hora_de r)
                                    (troca im (G mes_de r) r))) rows).
  { exact (atribui_por_linha nome_minute (G minuto_de)
             (fun r => troca ih (G hora_de r) (troca im (G mes_de r) r))
             rows df4 L4). }
  assert (P5m : posicao nome_month (columns df5) = Some im).
  { apply posicao_atribui_outro. apply posicao_atribui_outro. exact P3m. }
  assert (P5h : posicao nome_hour (columns df5) = Some ih).
  { apply posicao_atribui_outro. exact P4h. }
  assert (P5d : posicao nome_datetime (columns df5) = Some p).
  { do 3 apply posicao_atribui_outro. exact Hp. }
  assert (D1 : (im =? imin)%nat = false).
  { apply (posicoes_distintas _ _ _ _ _ P5m P5n).
    intros E. vm_compute in E. discriminate E. }
  assert (D2 : (im =? ih)%nat = false).
  { apply (posicoes_distintas _ _ _ _ _ P5m P5h).
    intros E. vm_compute in E. discriminate E. }
  assert (D3 : (ih =? imin)%nat = false).
  { apply (posicoes_distintas _ _ _ _ _ P5h P5n).
    intros E. vm_compute in E. discriminate E. }
  assert (D4 : (p =? imin)%nat = false).
  { apply (posicoes_distintas _ _ _ _ _ P5d P5n).
    intros E. vm_compute in E. discriminate E. }
  assert (D5 : (p =? ih)%nat = false).
  { apply (posicoes_distintas _ _ _ _ _ P5d P5h).
    intros E. vm_compute in E. discriminate E. }
  assert (D6 : (p =? im)%nat = false).
  { apply (posicoes_distintas _ _ _ _ _ P5d P5m).
    intros E. vm_compute in E. discriminate E. }
  clearbody df5. intros H. injection H as <-.
  intros r Hr. apply Hsort in Hr. apply filter_In in Hr as [Hr Hm].
  rewrite L5 in Hr. apply in_map_iff in Hr as (r0 & <- & Hr0).
  unfold Maio.posicao_de in *.
  match goal with
  | |- context [columns {| columns := ?c; linhas := ?l |}] =>
      change (columns {| columns := c; linhas := l |}) with c
  end.
  rewrite P5d. rewrite P5m, P5h in Hm.
  rewrite !nth_troca in Hm. rewrite !nth_troca.
  rewrite D1, D2, D3, !Nat.eqb_refl in Hm. rewrite D4, D5, D6.
  apply andb_prop in Hm as [H5 H9].
  apply igual_a_inteiro in H5 as (t & Et & H5).
  apply igual_a_inteiro in H9 as (t' & Et' & H9).
  rewrite Et in Et'. injection Et' as <-.
  exists t. split; [|now split].
  destruct (nth p r0 NaN); try discriminate Et. now injection Et as ->.
Qed.

End MaioFiltro.

Section OrdenacaoMantem.

Import Analise1 PandasRef.

Lemma insere_linha_In chave x r l :
  In r (insere_linha chave x l) -> r = x \/ In r l.
Proof.
  induction l as [|y t IH]; simpl.
  - intros [H|[]]. now left.
  - destruct (antes (chave y) (chave x)); simpl.
    + intros [H|H]; [right; now left|].
      destruct (IH H) as [E|E]; [now left | right; now right].
    + intros [H|[H|H]]; [now left | right; now left | right; now right].
Qed.

Lemma sort_values_ref_In chave l r :
  In r (sort_values_ref chave l) -> In r l.
Proof.
  unfold sort_values_ref.
  assert (H : forall acc,
             In r (fold_left (fun acc r => insere_linha chave r acc) l acc)
             -> In r acc \/ In r l).
  { induction l as [|x t IH]; intros acc; simpl; [now left|].
    intros Hr. destruct (IH _ Hr) as [E|E]; [|right; now right].
    apply insere_linha_In in E as [E|E]; [right; now left | now left]. }
  intros Hr. destruct (H [] Hr) as [[]|E]. exact E.
Qed.

End OrdenacaoMantem.

(** X18. Every row [load_and_filter_data] returns for an export with the
    time axis carries a timestamp of May between 09:00 and 09:59: rows
    whose timestamp did not parse never pass the filter.  The only
    assumption on [sort_values] is that it returns rows it was given. *)
Theorem load_and_filter_data_maio_9h
  (pd : Analise1.Pandas)
  (to_datetime_livre : list Analise1.Cel -> option (list (option Z)))
  (csv : Analise1.Csv) (df : Analise1.DataFrame) :
  (forall k l r, In r (Analise1.sort_values pd k l) -> In r l) ->
  tem_eixo_temporal (map clean_col_name (Analise1.cabecalho csv)) = true ->
  MaioCarga.load_and_filter_data pd to_datetime_livre csv
  = Extremos.Devolve df ->
  forall r, In r (Analise1.linhas df) ->
  exists t,
    nth (Maio.posicao_de Analise1.nome_datetime df) r Analise1.NaN
    = Analise1.Tempo t
    /\ MaioCarga.mes_de t = 5%Z
    /\ (540 <= t mod 1440 < 600)%Z.
Proof.
  intros Hsort Heixo. unfold MaioCarga.load_and_filter_data.
  destruct (MaioCarga.com_datetime pd csv) as [df1| |] eqn:E1;
    try discriminate.
  destruct (MaioCarga.numerica pd df1) as [df2| |] eqn:E2; try discriminate.
  intros Hf r Hr.
  destruct (com_datetime_tempo pd csv df1 Heixo E1) as (p & Hp & Hc).
  destruct (numerica_tempo pd df1 df2 p Hp Hc E2) as (Hp2 & Hc2).
  destruct (filtra_maio pd to_datetime_livre df2 df p Hsort Hp2 Hc2 Hf r Hr)
    as (t & Ht & Hm & Hh).
  exists t. split; [exact Ht|]. split; [exact Hm|].
  unfold MaioCarga.hora_de, Analise1.minutos_dia in Hh.
  pose proof (Z.div_mod (t mod 1440) 60 ltac:(lia)) as Hd.
  pose proof (Z.mod_pos_bound (t mod 1440) 60 ltac:(lia)) as Hb.
  lia.
Qed.

Lemma load_and_filter_data_maio_9h_witness :
  exists df,
    MaioCarga.load_and_filter_data PandasRef.pandas_ref (fun _ => None)
      ExemplosMaio.csv_maio = Extremos.Devolve df
    /\ length (Analise1.linhas df) = 2%nat
    /\ forall r, In r (Analise1.linhas df) ->
       exists t,
         nth (Maio.posicao_de Analise1.nome_datetime df) r Analise1.NaN
         = Analise1.Tempo t
         /\ MaioCarga.mes_de t = 5%Z
         /\ (540 <= t mod 1440 < 600)%Z.
Proof.
  pose (df := match MaioCarga.load_and_filter_data PandasRef.pandas_ref
                      (fun _ => None) ExemplosMaio.csv_maio with
              | Extremos.Devolve x => x
              | _ => {| Analise1.columns := []; Analise1.linhas := [] |}
              end).
  assert (Hdf : MaioCarga.load_and_filter_data PandasRef.pandas_ref
                  (fun _ => None) ExemplosMaio.csv_maio
                = Extremos.Devolve df)
    by (vm_compute; reflexivity).
  exists df. split; [exact Hdf|]. split; [vm_compute; reflexivity|].
  apply (load_and_filter_data_maio_9h PandasRef.pandas_ref (fun _ => None)
           ExemplosMaio.csv_maio df).
  - intros k l r. apply sort_values_ref_In.
  - reflexivity.
  - exact Hdf.
Defined.
